(** * siglent_sdl1000x: the validated get/set dispatcher and its mirrors

    A shallow embedding of [siglent_sdl1000x.py]: the [Validate] family, the
    [Command.read_write] dispatcher, the shared [global_input_values] dictionary
    and the mode classes built on them.  Python's effects are made explicit:
    every call runs in a state monad over a [world] holding the transport log,
    the dictionaries of the driver and the instrument at the other end of the
    bus; a raised exception is an outcome of its own, distinct from the
    exception *objects* the validators return.  The transport itself always
    answers: connection failures are outside the driver. *)

From stdpp Require Import gmap strings list fin_maps pretty.
From Stdlib Require Import ZArith Ascii String Lia.

Local Open Scope string_scope.
Local Open Scope Z_scope.

(** ** Python strings

    Strings are ASCII texts; only the letters [A-Z] and [a-z] have a case. *)
Module PyStr.

Definition chr (n : nat) : string := String (ascii_of_nat n) EmptyString.

Definition lower_char (c : ascii) : ascii :=
  let n := nat_of_ascii c in
  if ((65 <=? n) && (n <=? 90))%nat then ascii_of_nat (n + 32) else c.

Definition upper_char (c : ascii) : ascii :=
  let n := nat_of_ascii c in
  if ((97 <=? n) && (n <=? 122))%nat then ascii_of_nat (n - 32) else c.

(** [s.lower()] and [s.upper()] *)
Fixpoint lower (s : string) : string :=
  match s with
  | EmptyString => EmptyString
  | String c s' => String (lower_char c) (lower s')
  end.

Fixpoint upper (s : string) : string :=
  match s with
  | EmptyString => EmptyString
  | String c s' => String (upper_char c) (upper s')
  end.

(** [x in y] on two strings: [x] occurs in [y] as a contiguous run. *)
Fixpoint contains (x y : string) : bool :=
  if String.prefix x y then true
  else match y with
       | EmptyString => false
       | String _ y' => contains x y'
       end.

Fixpoint has_char (c : ascii) (s : string) : bool :=
  match s with
  | EmptyString => false
  | String d s' => if Ascii.eqb c d then true else has_char c s'
  end.

Definition apostrophe : ascii := ascii_of_nat 39.
Definition dquote : ascii := ascii_of_nat 34.
Definition backslash : ascii := ascii_of_nat 92.

Definition hex_digit (n : nat) : ascii :=
  if (n <? 10)%nat then ascii_of_nat (48 + n) else ascii_of_nat (87 + n).

(** One character of [repr(s)], [q] being the quote that delimits it. *)
Definition repr_char (q c : ascii) : string :=
  let n := nat_of_ascii c in
  if Ascii.eqb c backslash || Ascii.eqb c q then String backslash (String c EmptyString)
  else if (n =? 9)%nat then String backslash "t"
  else if (n =? 10)%nat then String backslash "n"
  else if (n =? 13)%nat then String backslash "r"
  else if ((n <? 32) || (126 <? n))%nat then
    String backslash
      (String "x" (String (hex_digit (n / 16)) (String (hex_digit (n mod 16)) EmptyString)))
  else String c EmptyString.

Fixpoint repr_body (q : ascii) (s : string) : string :=
  match s with
  | EmptyString => EmptyString
  | String c s' => repr_char q c ++ repr_body q s'
  end.

(** [repr(s)]: single quotes, unless the text holds one and no double quote. *)
Definition repr (s : string) : string :=
  let q := if has_char apostrophe s && negb (has_char dquote s) then dquote else apostrophe in
  String q (repr_body q s ++ String q EmptyString).

Fixpoint join (sep : string) (l : list string) : string :=
  match l with
  | [] => EmptyString
  | [x] => x
  | x :: l' => x ++ sep ++ join sep l'
  end.

(** [str(t)] of a tuple whose items are already rendered by [repr]. *)
Definition tuple (items : list string) : string :=
  match items with
  | [x] => "(" ++ x ++ ",)"
  | _ => "(" ++ join ", " items ++ ")"
  end.

(** [str(t)] of a tuple of strings. *)
Definition str_tuple_of_str (t : list string) : string := tuple (map repr t).

(** [s.split(sep)] for a separator of one character *)
Fixpoint split (sep : ascii) (s : string) : list string :=
  match s with
  | EmptyString => [EmptyString]
  | String c s' =>
    if Ascii.eqb c sep then EmptyString :: split sep s'
    else match split sep s' with
         | x :: l => String c x :: l
         | [] => [String c EmptyString]
         end
  end.

(** [x in t] for a tuple of strings: some item equals [x]. *)
Fixpoint str_in (x : string) (t : list string) : bool :=
  match t with
  | [] => false
  | y :: t' => String.eqb x y || str_in x t'
  end.

End PyStr.

(** ** Python numbers

    The driver uses [float] through five builtins only: literals, [float(n)],
    [round(x, ndigits)], the comparisons [<=] and [==], and [str(x)].  They are
    an interface here, so that what is proved holds for IEEE doubles as for
    any other reading of them; [Decimal] below is an executable instance. *)
Class FloatOps := {
  float : Type;
  (** the literal [m]e[e], that is m * 10^e *)
  float_lit : Z -> Z -> float;
  (** [float(n)]; [None] when Python raises OverflowError *)
  float_of_int : Z -> option float;
  (** [round(x, ndigits)] *)
  float_round : float -> Z -> float;
  (** [x <= y], [x <= n], [n <= x] and [x == n] *)
  float_le : float -> float -> bool;
  float_le_int : float -> Z -> bool;
  int_le_float : Z -> float -> bool;
  float_eq_int : float -> Z -> bool;
  (** [str(x)] *)
  float_str : float -> string
}.

Module Py.
Section Values.
Context {F : FloatOps}.

(** A number as it stands in a validation tuple. *)
Inductive num :=
| Int (n : Z)
| Float (x : float).

(** What a caller can hand to an accessor.  [PyObj] is an object of any other
    type (a list, a dict, ...), given by the name of its type and its [str]. *)
Inductive pyval :=
| PyNone
| PyBool (b : bool)
| PyInt (n : Z)
| PyFloat (x : float)
| PyStr (s : string)
| PyObj (type_name text : string).

Definition Z_of_bool (b : bool) : Z := if b then 1 else 0.

(** [str(value)] *)
Definition str (v : pyval) : string :=
  match v with
  | PyNone => "None"
  | PyBool b => if b then "True" else "False"
  | PyInt n => pretty n
  | PyFloat x => float_str x
  | PyStr s => s
  | PyObj _ t => t
  end.

Definition str_num (a : num) : string :=
  match a with
  | Int n => pretty n
  | Float x => float_str x
  end.

(** [str(t)] of a tuple of numbers *)
Definition str_tuple_of_num (t : list num) : string := PyStr.tuple (map str_num t).

Definition class_repr (name : string) : string := "<class '" ++ name ++ "'>".

(** [str(type(value))] *)
Definition type_repr (v : pyval) : string :=
  class_repr
    match v with
    | PyNone => "NoneType"
    | PyBool _ => "bool"
    | PyInt _ => "int"
    | PyFloat _ => "float"
    | PyStr _ => "str"
    | PyObj t _ => t
    end.

(** [isinstance(value, int)] holds of [bool] too, a subclass of [int]. *)
Definition as_int (v : pyval) : option Z :=
  match v with
  | PyBool b => Some (Z_of_bool b)
  | PyInt n => Some n
  | _ => None
  end.

(** [isinstance(value, (float, int))] *)
Definition is_number (v : pyval) : bool :=
  match v with
  | PyBool _ | PyInt _ | PyFloat _ => true
  | _ => false
  end.

(** [float(value)] of a number; [None] is OverflowError. *)
Definition to_float (v : pyval) : option float :=
  match v with
  | PyBool b => float_of_int (Z_of_bool b)
  | PyInt n => float_of_int n
  | PyFloat x => Some x
  | _ => None
  end.

Definition num_le_float (a : num) (x : float) : bool :=
  match a with
  | Int n => int_le_float n x
  | Float y => float_le y x
  end.

Definition float_le_num (x : float) (a : num) : bool :=
  match a with
  | Int n => float_le_int x n
  | Float y => float_le x y
  end.

(** [x == a] for a float [x] and an [int] item of a tuple *)
Fixpoint float_in (x : float) (t : list Z) : bool :=
  match t with
  | [] => false
  | n :: t' => float_eq_int x n || float_in x t'
  end.

Fixpoint int_in (x : Z) (t : list Z) : bool :=
  match t with
  | [] => false
  | n :: t' => (x =? n) || int_in x t'
  end.

End Values.
End Py.

(** ** Exceptions

    The validators *return* [ValueError] and [TypeError] objects; the
    interpreter *raises* when a call lacks an argument, when an [int] does not
    fit a [float], or when an index is out of range. *)
Inductive pyerror :=
| ValueError (msg : string)
| TypeError (msg : string).

Definition error_msg (e : pyerror) : string :=
  match e with ValueError m | TypeError m => m end.

Inductive exn :=
| MissingArgument (func param : string)
| IntTooLarge
| IndexError.

Inductive outcome (A : Type) :=
| Return (a : A)
| Raise (e : exn).
Arguments Return {A} a.
Arguments Raise {A} e.

(** What a validator hands back: the canonical string, or an error object. *)
Inductive vres :=
| Canon (s : string)
| Rejected (e : pyerror).

(** ** The world: transport, dictionaries, instrument *)

Inductive event :=
| Write (line : string)
| Query (line reply : string)
| Print (text : string).

(** The modes of the driver that own a dictionary. *)
Inductive mode :=
| CC | CV | CP | CR | LED
| DynCC | DynCV | DynCP | DynCR
| List_ | Battery | OCP | OPP | Program.

(** A dictionary of the driver: the module-level [global_input_values], which
    every mode's [values['input']] refers to, or the [self._mode_xx] of a mode,
    which is also its [values['mode']]. *)
Inductive dict_ref :=
| global_input_values
| mode_values (m : mode).

#[global] Instance mode_eq_dec : EqDecision mode.
Proof. solve_decision. Defined.
#[global] Instance dict_ref_eq_dec : EqDecision dict_ref.
Proof. solve_decision. Defined.

Record world := World {
  (** the instrument: its reply to a query, given all that went before *)
  device : list event -> string -> string;
  (** writes, queries and printed lines so far, oldest first *)
  log : list event;
  (** the contents of every dictionary; a value is a [str] or [None] *)
  heap : dict_ref -> gmap string (option string)
}.

Definition M (A : Type) : Type := world -> outcome A * world.

Definition ret {A} (a : A) : M A := fun w => (Return a, w).

Definition bind {A B} (c : M A) (k : A -> M B) : M B :=
  fun w =>
    match c w with
    | (Return a, w') => k a w'
    | (Raise e, w') => (Raise e, w')
    end.

Definition raise {A} (e : exn) : M A := fun w => (Raise e, w).

Definition lift {A} (o : outcome A) : M A := fun w => (o, w).

Notation "'let!' x ':=' c 'in' k" := (bind c (fun x => k))
  (at level 10, x name, c at level 100, k at level 200).
Notation "'do!' c 'in' k" := (bind c (fun _ => k))
  (at level 10, c at level 100, k at level 200).

Definition emit (e : event) : M unit :=
  fun w => (Return tt, World (device w) (log w ++ [e]) (heap w)).

(** Identity of a string object: a constant of the module, or an object the
    transport allocated when it decoded a reply.  (The interpreter shares
    the empty and the one-character strings only; the constants the driver
    compares a reply with are all longer.) *)
Inductive ident :=
| Constant (s : string)
| Allocated (n : nat).

Record strobj := StrObj { obj_id : ident; text : string }.

Definition literal (s : string) : strobj := StrObj (Constant s) s.

(** [a is b] *)
Definition py_is (a b : strobj) : bool :=
  match obj_id a, obj_id b with
  | Constant s, Constant t => String.eqb s t
  | Allocated n, Allocated m => (n =? m)%nat
  | _, _ => false
  end.

Module Bus.

(** [bus.write(line)] *)
Definition write (line : string) : M unit := emit (Write line).

(** [bus.query(line)]: the reply is a string object of its own. *)
Definition query (line : string) : M strobj :=
  fun w =>
    let r := device w (log w) line in
    (Return (StrObj (Allocated (List.length (log w))) r),
     World (device w) (log w ++ [Query line r]) (heap w)).

End Bus.

(** [print(text)] *)
Definition print (text : string) : M unit := emit (Print text).

(** The heap with dictionary [d] replaced by [f] of it. *)
Definition heap_update (h : dict_ref -> gmap string (option string)) (d : dict_ref)
    (f : gmap string (option string) -> gmap string (option string))
    : dict_ref -> gmap string (option string) :=
  fun r => if decide (r = d) then f (h r) else h r.

(** [d = {...}]: the name [d] is bound to a new dictionary. *)
Definition dict_assign (d : dict_ref) (m : gmap string (option string)) : M unit :=
  fun w =>
    (Return tt, World (device w) (log w) (heap_update (heap w) d (fun _ => m))).

(** [d[k] = v] *)
Definition dict_set (d : dict_ref) (k : string) (v : option string) : M unit :=
  fun w =>
    (Return tt, World (device w) (log w) (heap_update (heap w) d (insert k v))).

(** [{k1: e1, ..., kn: en}]: the values are computed from left to right. *)
Fixpoint dict_items (items : list (string * M (option string)))
    : M (list (string * option string)) :=
  match items with
  | [] => ret []
  | (k, e) :: items =>
    let! v := e in
    let! vs := dict_items items in
    ret ((k, v) :: vs)
  end.

(** The dictionary of a display; of two items with one key the later stays. *)
Definition dict_display (items : list (string * M (option string)))
    : M (gmap string (option string)) :=
  let! vs := dict_items items in
  ret (foldl (fun d kv => <[kv.1 := kv.2]> d) ∅ vs).

(** A [str] as the value of an entry. *)
Definition some (e : M string) : M (option string) :=
  let! s := e in ret (Some s).

(** ** class Validate *)

(** Python's [x in y], by the types of [x] and [y]. *)
Class Contains (A B : Type) := py_in : A -> B -> bool.
#[global] Instance contains_str : Contains string string := PyStr.contains.
#[global] Instance contains_item : Contains string (list string) := PyStr.str_in.
#[global] Instance contains_int : Contains Z (list Z) := Py.int_in.
#[global] Instance contains_float {F : FloatOps} : Contains float (list Z) := Py.float_in.

Inductive ansi :=
| HEADER | OKBLUE | OKGREEN | WARNING | FAIL | ENDC | BOLD | UNDERLINE.

Module Validate.
Section Validate.
Context {F : FloatOps}.
Import Py PyStr.

Definition nl : string := chr 10.

(** [lambda x, y: y[0] <= x <= y[1]] *)
Definition float_range (x : float) (y : num * num) : bool :=
  num_le_float (fst y) x && float_le_num x (snd y).

(** [lambda x, y: x in range(y[0], y[1] + 1)] *)
Definition int_range (x : Z) (y : Z * Z) : bool :=
  (fst y <=? x) && (x <? snd y + 1).

(** [lambda x, y: x in y] *)
Definition find_element {A B} `{Contains A B} (x : A) (y : B) : bool := py_in x y.

Definition ansi_esc_seq (k : ansi) : string :=
  chr 27 ++
  match k with
  | HEADER => "[95m"
  | OKBLUE => "[94m"
  | OKGREEN => "[92m"
  | WARNING => "[93m"
  | FAIL => "[91m"
  | ENDC => "[0m"
  | BOLD => "[1m"
  | UNDERLINE => "[4m"
  end.

Definition error_text (warning_type : ansi) (error_type : pyerror) : string :=
  ansi_esc_seq warning_type ++ error_msg error_type ++ ansi_esc_seq ENDC.

Definition str_range (y : num * num) : string := str_tuple_of_num [fst y; snd y].
Definition str_ints (y : list Z) : string := str_tuple_of_num (map Int y).
Definition str_int_range (y : Z * Z) : string := str_ints [fst y; snd y].

(** The parameter [round_to] has no default: a call that leaves it out
    ([round_to = None] here) raises before the body runs. *)
Definition float_rng_and_str_tuples
    (validation_set : (num * num) * list string) (value : pyval)
    (round_to : option Z) : outcome vres :=
  match round_to with
  | None => Raise (MissingArgument "float_rng_and_str_tuples" "round_to")
  | Some round_to =>
    if is_number value then
      match to_float value with
      | None => Raise IntTooLarge
      | Some x =>
        let val := float_round x round_to in
        if float_range val (fst validation_set) then Return (Canon (str value))
        else Return (Rejected (ValueError
               ("ValueError!" ++ nl ++
                "Not in range:(float, int) " ++ str_range (fst validation_set) ++ nl ++
                "or in set:(str) " ++ str_tuple_of_str (snd validation_set))))
      end
    else
      match value with
      | PyStr s =>
        let val := lower s in
        if find_element val (lower (str_tuple_of_str (snd validation_set)))
        then Return (Canon (upper val))
        else Return (Rejected (ValueError
               ("ValueError!" ++ nl ++
                "Not in set:(str) " ++ str_tuple_of_str (snd validation_set) ++ nl ++
                "or in range:(float, int) " ++ str_range (fst validation_set))))
      | _ =>
        Return (Rejected (TypeError
          ("TypeError!" ++ nl ++
           "Received type: " ++ type_repr value ++ nl ++
           "Valid types: " ++ class_repr "int" ++ ", " ++ class_repr "float" ++ ", "
             ++ class_repr "str")))
      end
  end.

Definition int_and_str_tuples
    (validation_set : list Z * list string) (value : pyval) : outcome vres :=
  match as_int value with
  | Some n =>
    match float_of_int n with
    | None => Raise IntTooLarge
    | Some val =>
      if find_element val (fst validation_set) then Return (Canon (str value))
      else Return (Rejected (ValueError
             ("ValueError!" ++ nl ++
              "Not in set:(int) " ++ str_ints (fst validation_set) ++ nl ++
              "or in set:(str) " ++ str_tuple_of_str (snd validation_set))))
    end
  | None =>
    match value with
    | PyStr s =>
      let val := lower s in
      if find_element val (lower (str_tuple_of_str (snd validation_set)))
      then Return (Canon (upper val))
      else Return (Rejected (ValueError
             ("ValueError!" ++ nl ++
              "Not in set:(str) " ++ str_tuple_of_str (snd validation_set) ++ nl ++
              "or in set:(int) " ++ str_ints (fst validation_set))))
    | _ =>
      Return (Rejected (TypeError
        ("TypeError!" ++ nl ++
         "Received type: " ++ type_repr value ++ nl ++
         "Valid types: " ++ class_repr "int" ++ ", " ++ class_repr "str")))
    end
  end.

Definition float_rng_tuple
    (validation_set : num * num) (value : pyval) (round_to : option Z) : outcome vres :=
  match round_to with
  | None => Raise (MissingArgument "float_rng_tuple" "round_to")
  | Some round_to =>
    if is_number value then
      match to_float value with
      | None => Raise IntTooLarge
      | Some x =>
        let val := float_round x round_to in
        if float_range val validation_set then Return (Canon (str value))
        else Return (Rejected (ValueError
               ("ValueError!" ++ nl ++
                "Not in range:(float, int) " ++ str_range validation_set)))
      end
    else
      Return (Rejected (TypeError
        ("TypeError!" ++ nl ++
         "Received type: " ++ type_repr value ++ nl ++
         "Valid types: " ++ class_repr "int" ++ ", " ++ class_repr "float")))
  end.

Definition str_tuple (validation_set : list string) (value : pyval) : outcome vres :=
  match value with
  | PyStr s =>
    let val := lower s in
    if find_element val (lower (str_tuple_of_str validation_set))
    then Return (Canon (upper val))
    else Return (Rejected (ValueError
           ("ValueError!" ++ nl ++
            "Not in set:(str) " ++ str_tuple_of_str validation_set)))
  | _ =>
    Return (Rejected (TypeError
      ("TypeError!" ++ nl ++
       "Received type: " ++ type_repr value ++ nl ++
       "Valid types: " ++ class_repr "str")))
  end.

Definition int_tuple (validation_set : list Z) (value : pyval) : outcome vres :=
  match as_int value with
  | Some val =>
    if find_element val validation_set then Return (Canon (str value))
    else Return (Rejected (ValueError
           ("ValueError!" ++ nl ++
            "Not in set:(int) " ++ str_ints validation_set)))
  | None =>
    Return (Rejected (TypeError
      ("TypeError!" ++ nl ++
       "Received type: " ++ type_repr value ++ nl ++
       "Valid types: " ++ class_repr "int")))
  end.

Definition int_rng_tuple (validation_set : Z * Z) (value : pyval) : outcome vres :=
  match as_int value with
  | Some val =>
    if int_range val validation_set then Return (Canon (str value))
    else Return (Rejected (ValueError
           ("ValueError!" ++ nl ++
            "Not in range:(int) " ++ str_int_range validation_set)))
  | None =>
    Return (Rejected (TypeError
      ("TypeError!" ++ nl ++
       "Received type: " ++ type_repr value ++ nl ++
       "Valid types: " ++ class_repr "int")))
  end.

End Validate.
End Validate.

(** A validator as [read_write] receives it: a bound method, which may use
    the bus. *)
Definition validator {F : FloatOps} : Type := Py.pyval -> M vres.

(** ** class ValidateInput

    [self._high_power] is fixed when the object is built, from the model name
    in the reply to [*IDN?]. *)
Module ValidateInput.
Section ValidateInput.
Context {F : FloatOps}.
Import Py.
Variable _high_power : bool.

(** [ValidateInput(bus)]; the result is [self._high_power]. *)
Definition __init__ : M bool :=
  let! r := Bus.query "*IDN?" in
  match PyStr.split "," (text r) with
  | _ :: _model :: _ =>
    let high_power_models := ["SDL1030X-E"; "SDL1030X"] in
    ret (Validate.find_element _model high_power_models)
  | _ => raise IndexError
  end.

Definition on_off : validator := fun value =>
  let on_off_values := ([0; 1], ["ON"; "OFF"]) in
  lift (Validate.int_and_str_tuples on_off_values value).

Definition mode_dynamic : validator := fun value =>
  let mode_values := ["CURRent"; "VOLTage"; "POWer"; "RESistance"] in
  lift (Validate.str_tuple mode_values value).

Definition mode_static : validator := fun value =>
  let mode_values := ["CURRent"; "VOLTage"; "POWer"; "RESistance"; "LED"] in
  lift (Validate.str_tuple mode_values value).

Definition current_range : validator := fun value =>
  let current_range_values := [5; 30] in
  lift (Validate.int_tuple current_range_values value).

Definition voltage_range : validator := fun value =>
  let voltage_range_values := [36; 150] in
  lift (Validate.int_tuple voltage_range_values value).

Definition resistance_range : validator := fun value =>
  let resistance_range_values := ["LOW"; "MIDDLE"; "HIGH"; "UPPER"] in
  lift (Validate.str_tuple resistance_range_values value).

Definition mode_transient : validator := fun value =>
  let mode_values := ["CONTinuous"; "PULSe"; "TOGGle"] in
  lift (Validate.str_tuple mode_values value).

Definition pulse_width : validator := fun value =>
  let pulse_width_values := ((Float (float_lit 2 (-5)), Float (float_lit 9990 (-1))),
     ["MINimum"; "MAXimum"; "DEFault"]) in
  lift (Validate.float_rng_and_str_tuples pulse_width_values value (Some 6)).

Definition power : validator := fun value =>
  let power_values :=
    if _high_power
    then ((Float (float_lit 0 (-1)), Float (float_lit 3000 (-1))),
     ["MINimum"; "MAXimum"; "DEFault"])
    else ((Float (float_lit 0 (-1)), Float (float_lit 2000 (-1))),
     ["MINimum"; "MAXimum"; "DEFault"]) in
  lift (Validate.float_rng_and_str_tuples power_values value (Some 2)).

Definition resistance : validator := fun value =>
  let resistance_values :=
    ((Float (float_lit 3 (-2)), Float (float_lit 100000 (-1))),
     ["MINimum"; "MAXimum"; "DEFault"]) in
  lift (Validate.float_rng_and_str_tuples resistance_values value (Some 3)).

Definition voltage : validator := fun value =>
  let voltage_values := ((Float (float_lit 0 (-1)), Int 150),
     ["MINimum"; "MAXimum"; "DEFault"]) in
  lift (Validate.float_rng_and_str_tuples voltage_values value (Some 3)).

Definition current : validator := fun value =>
  let current_values := ((Float (float_lit 0 (-1)), Float (float_lit 300 (-1))),
     ["MINimum"; "MAXimum"; "DEFault"]) in
  lift (Validate.float_rng_and_str_tuples current_values value (Some 3)).

Definition slew : validator := fun value =>
  let slew_values := ((Float (float_lit 1 (-3)), Float (float_lit 25 (-1))),
     ["MINimum"; "MAXimum"; "DEFault"]) in
  lift (Validate.float_rng_and_str_tuples slew_values value (Some 3)).

End ValidateInput.
End ValidateInput.

(** ** class ValidateBattery *)
Module ValidateBattery.
Section ValidateBattery.
Context {F : FloatOps}.
Import Py.

Definition mode_battery : validator := fun value =>
  let mode_values := ["CURRent"; "VOLTage"; "RESistance"] in
  lift (Validate.str_tuple mode_values value).

Definition battery_level : validator := fun value =>
  let! mode := Bus.query ":BATT:MODE?" in
  let level_values :=
    if py_is mode (literal "CURRENT") then
      (Float (float_lit 0 (-1)), Float (float_lit 300 (-1)))
    else if py_is mode (literal "VOLTAGE") then
      (Float (float_lit 0 (-1)), Float (float_lit 1500 (-1)))
    else
      (Float (float_lit 3 (-2)), Float (float_lit 100000 (-1))) in
  lift (Validate.float_rng_tuple level_values value (Some 3)).

Definition capacity : validator := fun value =>
  let capacity_values := (0, 999999) in
  lift (Validate.int_rng_tuple capacity_values value).

(** [ValidateBattery(bus)]; the result is [self._high_power]. *)
Definition __init__ : M bool := ValidateInput.__init__.

End ValidateBattery.
End ValidateBattery.

(** ** class ValidateTest *)
Module ValidateTest.
Section ValidateTest.
Context {F : FloatOps}.
Import Py.
Variable _high_power : bool.

(** The truth value of a string: it is not empty. *)
Definition truthy (s : string) : bool := negb (String.eqb s EmptyString).

Definition list_levels : validator := fun value =>
  let! mode := Bus.query ":LIST:MODE?" in
  let level_values :=
    if py_is mode (literal "CURRENT") then
      (Float (float_lit 0 (-1)), Float (float_lit 300 (-1)))
    else if py_is mode (literal "VOLTAGE") then
      (Float (float_lit 0 (-1)), Float (float_lit 1500 (-1)))
    else if py_is mode (literal "RESISTANCE") then
      (Float (float_lit 3 (-2)), Float (float_lit 100000 (-1)))
    else if _high_power then
      (Float (float_lit 0 (-1)), Float (float_lit 3000 (-1)))
    else
      (Float (float_lit 0 (-1)), Float (float_lit 2000 (-1))) in
  lift (Validate.float_rng_tuple level_values value (Some 3)).

Definition program_levels : validator := fun value =>
  let! mode := Bus.query ":PROG:MODE?" in
  let level_values :=
    if py_is mode (literal "CURRENT") then
      (Float (float_lit 0 (-1)), Float (float_lit 300 (-1)))
    else if py_is mode (literal "VOLTAGE") || truthy "LED" then
      (Float (float_lit 0 (-1)), Float (float_lit 1500 (-1)))
    else if py_is mode (literal "RESISTANCE") then
      (Float (float_lit 3 (-2)), Float (float_lit 100000 (-1)))
    else if _high_power then
      (Float (float_lit 0 (-1)), Float (float_lit 3000 (-1)))
    else
      (Float (float_lit 0 (-1)), Float (float_lit 2000 (-1))) in
  lift (Validate.float_rng_tuple level_values value (Some 3)).

Definition list_count : validator := fun value =>
  let list_count_values := (0, 255) in
  lift (Validate.int_rng_tuple list_count_values value).

Definition step_range : validator := fun value =>
  let list_step_values := (0, 100) in
  lift (Validate.int_rng_tuple list_step_values value).

Definition step_delay : validator := fun value =>
  let delay_values :=
    ((Float (float_lit 1 (-3)), Float (float_lit 9990 (-1))),
     ["MINimum"; "MAXimum"; "DEFault"]) in
  lift (Validate.float_rng_and_str_tuples delay_values value None).

Definition led_rco : validator := fun value =>
  let led_rco_values := ((Float (float_lit 0 (-1)), Int 1),
     ["MINimum"; "MAXimum"; "DEFault"]) in
  lift (Validate.float_rng_and_str_tuples led_rco_values value (Some 2)).

Definition step_time : validator := fun value =>
  let step_time_values :=
    ((Float (float_lit 1 (-2)), Float (float_lit 1000 (-1))),
     ["MINimum"; "MAXimum"; "DEFault"]) in
  lift (Validate.float_rng_and_str_tuples step_time_values value None).

Definition step_min_max : validator := fun value =>
  let! mode := Bus.query ":PROG:MODE?" in
  if py_is mode (literal "VOLTAGE") then ValidateInput.current value
  else ValidateInput.voltage value.

(** [ValidateTest(bus)]; the result is [self._high_power]. *)
Definition __init__ : M bool := ValidateInput.__init__.

End ValidateTest.
End ValidateTest.

(** ** class ValidateRegister *)
Module ValidateRegister.
Section ValidateRegister.
Context {F : FloatOps}.
Import Py.

Definition register_8 : validator := fun value =>
  let register_values := (0, 128) in
  lift (Validate.int_rng_tuple register_values value).

Definition register_16 : validator := fun value =>
  let register_values := (0, 65535) in
  lift (Validate.int_rng_tuple register_values value).

Definition preset : validator := fun value =>
  let preset_values := (0, 9) in
  lift (Validate.int_rng_tuple preset_values value).

End ValidateRegister.
End ValidateRegister.

(** ** class Command *)
Module Command.
Section Command.
Context {F : FloatOps}.
Import Py.

(** [value is None] *)
Definition is_none (v : pyval) : bool :=
  match v with PyNone => true | _ => false end.

(** [read_write(query, write, validator, value, value_dict, value_key)].
    The result is [Some reply] of a get and [None] where Python returns
    [None], explicitly or by falling off the end. *)
Definition read_write (query write : string) (validator : option validator)
    (value : pyval) (value_dict : option dict_ref) (value_key : string)
    : M (option string) :=
  if is_none value then
    let! r := Bus.query query in ret (Some (text r))
  else
    match validator with
    | Some validator =>
      let! val := validator value in
      match val with
      | Rejected e =>
        do! print (Validate.error_text WARNING e) in
        ret None
      | Canon _ =>
        let write := write ++ " " ++ str value in
        do! Bus.write write in
        do! match value_dict with
            | Some d => let! r := Bus.query query in dict_set d value_key (Some (text r))
            | None => ret tt
            end in
        ret None
      end
    | None =>
      let write := write ++ " " ++ str value in
      do! Bus.write write in
      do! match value_dict with
          | Some d => let! r := Bus.query query in dict_set d value_key (Some (text r))
          | None => ret tt
          end in
      ret None
    end.

(** [read(query)] *)
Definition read (query : string) : M string :=
  let! r := Bus.query query in ret (text r).

(** [write(write, validator)]: here [validator] is a value, not a function. *)
Definition write (write : string) (validator : option vres) : M unit :=
  match validator with
  | None => Bus.write write
  | Some val =>
    match val with
    | Rejected e => print (Validate.error_text WARNING e)
    | Canon _ => Bus.write write
    end
  end.

End Command.
End Command.

(** ** class Input *)
Module Input.
Section Input.
Context {F : FloatOps}.
Import Py.

Definition input_control (set_input_on_off : pyval) : M (option string) :=
  let query := ":INP?" in
  let write := ":INP" in
  Command.read_write query write (Some ValidateInput.on_off)
    set_input_on_off (Some global_input_values) "input_on".

Definition on : M unit :=
  do! input_control (PyStr "ON") in ret tt.

Definition off : M unit :=
  do! input_control (PyStr "OFF") in ret tt.

Definition _short (set_short : pyval) : M (option string) :=
  let query := ":SHOR?" in
  let write := ":SHOR" in
  Command.read_write query write (Some ValidateInput.on_off)
    set_short (Some global_input_values) "short_on".

(** [Input(bus)]; the result is the [_high_power] of [self._validate]. *)
Definition __init__ : M bool :=
  let! _validate := ValidateInput.__init__ in
  let! v := input_control PyNone in
  do! dict_set global_input_values "input_on" v in
  let! v := _short PyNone in
  do! dict_set global_input_values "short_on" v in
  ret _validate.

End Input.
End Input.

(** ** class ModeStatic *)
Module ModeStatic.
Section ModeStatic.
Context {F : FloatOps}.
Import Py.

Definition _mode (set_static_mode : pyval) : M (option string) :=
  let query := ":FUNC?" in
  let write := ":FUNC" in
  let! rvalue := Command.read_write query write (Some ValidateInput.mode_static)
                   set_static_mode (Some global_input_values) "mode" in
  do! match rvalue with
      | None =>
        let! value := Command.read query in
        dict_set global_input_values "mode" (Some ("STATIC " ++ value))
      | Some _ => ret tt
      end in
  ret rvalue.

(** [ModeStatic(bus)]: the input state is read, then the instrument is set
    to static CC. *)
Definition __init__ : M bool :=
  let! _validate := Input.__init__ in
  do! _mode (PyStr "CURR") in
  ret _validate.

End ModeStatic.
End ModeStatic.

(** ** class ModeDynamic *)
Module ModeDynamic.
Section ModeDynamic.
Context {F : FloatOps}.
Import Py.

Definition _mode (set_dynamic_mode : pyval) : M (option string) :=
  let query := ":FUNC:TRAN?" in
  let write := ":FUNC:TRAN" in
  let! rvalue := Command.read_write query write (Some ValidateInput.mode_dynamic)
                   set_dynamic_mode (Some global_input_values) "mode" in
  do! match rvalue with
      | None =>
        let! value := Command.read query in
        dict_set global_input_values "mode" (Some ("DYNAMIC " ++ value))
      | Some _ => ret tt
      end in
  ret rvalue.

Definition __init__ : M bool :=
  let! _validate := Input.__init__ in
  let! v := _mode PyNone in
  do! dict_set global_input_values "mode" v in
  ret _validate.

End ModeDynamic.
End ModeDynamic.

(** ** The static modes *)
Module ModeCC.
Section ModeCC.
Context {F : FloatOps}.
Import Py.

Definition enable : M unit :=
  do! ModeStatic._mode (PyStr "CURR") in ret tt.

Definition on : M unit :=
  do! enable in
  do! Input.input_control (PyStr "ON") in ret tt.

Definition level (set_current_level : pyval) : M (option string) :=
  let query := ":CURR?" in
  let write := ":CURR" in
  Command.read_write query write (Some ValidateInput.current)
    set_current_level (Some (mode_values CC)) "level".

Definition current_range (set_current_range : pyval) : M (option string) :=
  let query := ":CURR:IRANG?" in
  let write := ":CURR:IRANG" in
  Command.read_write query write (Some ValidateInput.current_range)
    set_current_range (Some (mode_values CC)) "current_range".

Definition voltage_range (set_voltage_range : pyval) : M (option string) :=
  let query := ":CURR:VRANG?" in
  let write := ":CURR:VRANG" in
  Command.read_write query write (Some ValidateInput.voltage_range)
    set_voltage_range (Some (mode_values CC)) "voltage_range".

Definition slew_pos (set_slew_pos : pyval) : M (option string) :=
  let query := ":CURR:SLEW:POS?" in
  let write := ":CURR:SLEW:POS" in
  Command.read_write query write (Some ValidateInput.slew)
    set_slew_pos (Some (mode_values CC)) "slew_pos".

Definition slew_neg (set_slew_neg : pyval) : M (option string) :=
  let query := ":CURR:SLEW:NEG?" in
  let write := ":CURR:SLEW:NEG" in
  Command.read_write query write (Some ValidateInput.slew)
    set_slew_neg (Some (mode_values CC)) "slew_neg".

Definition set_slew_both (set_current_slew : pyval) : M unit :=
  do! slew_pos set_current_slew in
  do! slew_neg set_current_slew in ret tt.

End ModeCC.
End ModeCC.

Module ModeCV.
Section ModeCV.
Context {F : FloatOps}.
Import Py.

Definition enable : M unit :=
  do! ModeStatic._mode (PyStr "VOLT") in ret tt.

Definition on : M unit :=
  do! enable in
  do! Input.input_control (PyStr "ON") in ret tt.

Definition level (set_voltage_level : pyval) : M (option string) :=
  let query := ":VOLT?" in
  let write := ":VOLT" in
  Command.read_write query write (Some ValidateInput.voltage)
    set_voltage_level (Some (mode_values CV)) "level".

Definition current_range (set_current_range : pyval) : M (option string) :=
  let query := ":VOLT:IRANG?" in
  let write := ":VOLT:IRANG" in
  Command.read_write query write (Some ValidateInput.current_range)
    set_current_range (Some (mode_values CV)) "current_range".

Definition voltage_range (set_voltage_range : pyval) : M (option string) :=
  let query := ":VOLT:VRANG?" in
  let write := ":VOLT:VRANG" in
  Command.read_write query write (Some ValidateInput.voltage_range)
    set_voltage_range (Some (mode_values CV)) "voltage_range".

End ModeCV.
End ModeCV.

Module ModeCP.
Section ModeCP.
Context {F : FloatOps}.
Import Py.

Definition enable : M unit :=
  do! ModeStatic._mode (PyStr "POW") in ret tt.

Definition on : M unit :=
  do! enable in
  do! Input.input_control (PyStr "ON") in ret tt.

Definition level (_high_power : bool) (set_power_level : pyval) : M (option string) :=
  let query := ":POW?" in
  let write := ":POW" in
  Command.read_write query write (Some (ValidateInput.power _high_power))
    set_power_level (Some (mode_values CP)) "level".

Definition current_range (set_current_range : pyval) : M (option string) :=
  let query := ":POW:IRANG?" in
  let write := ":POW:IRANG" in
  Command.read_write query write (Some ValidateInput.current_range)
    set_current_range (Some (mode_values CP)) "current_range".

Definition voltage_range (set_voltage_range : pyval) : M (option string) :=
  let query := ":POW:VRANG?" in
  let write := ":POW:VRANG" in
  Command.read_write query write (Some ValidateInput.voltage_range)
    set_voltage_range (Some (mode_values CP)) "voltage_range".

End ModeCP.
End ModeCP.

Module ModeCR.
Section ModeCR.
Context {F : FloatOps}.
Import Py.

Definition enable : M unit :=
  do! ModeStatic._mode (PyStr "RES") in ret tt.

Definition on : M unit :=
  do! enable in
  do! Input.input_control (PyStr "ON") in ret tt.

Definition level (set_resistance_level : pyval) : M (option string) :=
  let query := ":RES?" in
  let write := ":RES" in
  Command.read_write query write (Some ValidateInput.resistance)
    set_resistance_level (Some (mode_values CR)) "level".

Definition current_range (set_current_range : pyval) : M (option string) :=
  let query := ":RES:IRANG?" in
  let write := ":RES:IRANG" in
  Command.read_write query write (Some ValidateInput.current_range)
    set_current_range (Some (mode_values CR)) "current_range".

Definition voltage_range (set_voltage_range : pyval) : M (option string) :=
  let query := ":RES:VRANG?" in
  let write := ":RES:VRANG" in
  Command.read_write query write (Some ValidateInput.voltage_range)
    set_voltage_range (Some (mode_values CR)) "voltage_range".

Definition resistance_range (set_resistance_range : pyval) : M (option string) :=
  let query := ":RES:RRANG?" in
  let write := ":RES:RRANG" in
  Command.read_write query write (Some ValidateInput.resistance_range)
    set_resistance_range (Some (mode_values CR)) "resistance_range".

End ModeCR.
End ModeCR.

Module ModeLED.
Section ModeLED.
Context {F : FloatOps}.
Import Py.

Definition enable : M unit :=
  do! ModeStatic._mode (PyStr "LED") in ret tt.

Definition on : M unit :=
  do! enable in
  do! Input.input_control (PyStr "ON") in ret tt.

Definition voltage (set_led_voltage_level : pyval) : M (option string) :=
  let query := ":LED:VOLT?" in
  let write := ":LED:VOLT" in
  Command.read_write query write (Some ValidateInput.voltage)
    set_led_voltage_level (Some (mode_values LED)) "voltage".

Definition current (set_led_current_level : pyval) : M (option string) :=
  let query := ":LED:CURR?" in
  let write := ":LED:CURR" in
  Command.read_write query write (Some ValidateInput.current)
    set_led_current_level (Some (mode_values LED)) "current".

Definition current_range (set_current_range : pyval) : M (option string) :=
  let query := ":LED:IRANG?" in
  let write := ":LED:IRANG" in
  Command.read_write query write (Some ValidateInput.current_range)
    set_current_range (Some (mode_values LED)) "current_range".

Definition voltage_range (set_voltage_range : pyval) : M (option string) :=
  let query := ":LED:VRANG?" in
  let write := ":LED:VRANG" in
  Command.read_write query write (Some ValidateInput.voltage_range)
    set_voltage_range (Some (mode_values LED)) "voltage_range".

Definition rco (set_led_rco : pyval) : M (option string) :=
  let query := ":LED:RCO?" in
  let write := ":LED:RCO" in
  Command.read_write query write (Some ValidateTest.led_rco)
    set_led_rco (Some (mode_values LED)) "rco".

(** [ModeLED(bus)]: after [Input.__init__], [self._validate] is bound to a new
    [ValidateTest]; the result is its [_high_power]. *)
Definition __init__ : M bool :=
  do! Input.__init__ in
  let! _validate := ValidateTest.__init__ in
  do! dict_assign (mode_values LED) ∅ in
  let! _mode_led := dict_display
    [("voltage", voltage PyNone);
     ("current", current PyNone);
     ("current_range", current_range PyNone);
     ("voltage_range", voltage_range PyNone);
     ("rco", rco PyNone)] in
  do! dict_assign (mode_values LED) _mode_led in
  ret _validate.

End ModeLED.
End ModeLED.

(** ** The dynamic modes *)
Module ModeDynamicCC.
Section ModeDynamicCC.
Context {F : FloatOps}.
Import Py.

Definition enable : M unit :=
  do! ModeDynamic._mode (PyStr "CURR") in ret tt.

Definition on : M unit :=
  do! enable in
  do! Input.input_control (PyStr "ON") in ret tt.

Definition pulse_mode (set_transient_mode : pyval) : M (option string) :=
  let query := ":CURR:TRAN:MODE?" in
  let write := ":CURR:TRAN:MODE" in
  Command.read_write query write (Some ValidateInput.mode_transient)
    set_transient_mode (Some (mode_values DynCC)) "pulse_mode".

Definition a_level (set_pulse_level : pyval) : M (option string) :=
  let query := ":CURR:TRAN:ALEV?" in
  let write := ":CURR:TRAN:ALEV" in
  Command.read_write query write (Some ValidateInput.current)
    set_pulse_level (Some (mode_values DynCC)) "a_level".

Definition b_level (set_pulse_level : pyval) : M (option string) :=
  let query := ":CURR:TRAN:BLEV?" in
  let write := ":CURR:TRAN:BLEV" in
  Command.read_write query write (Some ValidateInput.current)
    set_pulse_level (Some (mode_values DynCC)) "b_level".

Definition a_width (set_pulse_width : pyval) : M (option string) :=
  let query := ":CURR:TRAN:AWID?" in
  let write := ":CURR:TRAN:AWID" in
  Command.read_write query write (Some ValidateInput.pulse_width)
    set_pulse_width (Some (mode_values DynCC)) "a_width".

Definition b_width (set_pulse_width : pyval) : M (option string) :=
  let query := ":CURR:TRAN:BWID?" in
  let write := ":CURR:TRAN:BWID" in
  Command.read_write query write (Some ValidateInput.pulse_width)
    set_pulse_width (Some (mode_values DynCC)) "b_width".

Definition set_a_and_b (set_a_level set_b_level set_a_width set_b_width : pyval)
    : M unit :=
  do! a_level set_a_level in
  do! b_level set_b_level in
  do! a_width set_a_width in
  do! b_width set_b_width in ret tt.

Definition current_range (set_current_range : pyval) : M (option string) :=
  let query := ":CURR:TRAN:IRANG?" in
  let write := ":CURR:TRAN:IRANG" in
  Command.read_write query write (Some ValidateInput.current_range)
    set_current_range (Some (mode_values DynCC)) "current_range".

Definition voltage_range (set_voltage_range : pyval) : M (option string) :=
  let query := ":CURR:TRAN:VRANG?" in
  let write := ":CURR:TRAN:VRANG" in
  Command.read_write query write (Some ValidateInput.voltage_range)
    set_voltage_range (Some (mode_values DynCC)) "voltage_range".

Definition slew_pos (set_current_slew : pyval) : M (option string) :=
  let query := ":CURR:TRAN:SLEW:POS?" in
  let write := ":CURR:TRAN:SLEW:POS" in
  Command.read_write query write (Some ValidateInput.slew)
    set_current_slew (Some (mode_values DynCC)) "slew_pos".

Definition slew_neg (set_current_slew : pyval) : M (option string) :=
  let query := ":CURR:TRAN:SLEW:NEG?" in
  let write := ":CURR:TRAN:SLEW:NEG" in
  Command.read_write query write (Some ValidateInput.slew)
    set_current_slew (Some (mode_values DynCC)) "slew_neg".

Definition set_slew_both (set_current_slew : pyval) : M unit :=
  do! slew_pos set_current_slew in
  do! slew_neg set_current_slew in ret tt.

(** [ModeDynamicCC(bus)]: [self._mode_cc_dyn] is emptied, then bound to the
    dictionary of what the nine accessors return without an argument. *)
Definition __init__ : M bool :=
  let! _validate := ModeDynamic.__init__ in
  do! dict_assign (mode_values DynCC) ∅ in
  let! v1 := pulse_mode PyNone in
  let! v2 := a_level PyNone in
  let! v3 := b_level PyNone in
  let! v4 := a_width PyNone in
  let! v5 := b_width PyNone in
  let! v6 := current_range PyNone in
  let! v7 := voltage_range PyNone in
  let! v8 := slew_pos PyNone in
  let! v9 := slew_neg PyNone in
  do! dict_assign (mode_values DynCC)
        (list_to_map
           [("pulse_mode", v1); ("a_level", v2); ("b_level", v3);
            ("a_width", v4); ("b_width", v5); ("current_range", v6);
            ("voltage_range", v7); ("slew_pos", v8); ("slew_neg", v9)]) in
  ret _validate.

End ModeDynamicCC.
End ModeDynamicCC.

(** [ModeCC(bus)], the constructor of [ModeCC]; it stands here because it
    ends by building [self.dyn], a [ModeDynamicCC]. *)
Module ModeCCInit.
Section ModeCCInit.
Context {F : FloatOps}.
Import Py.

Definition __init__ : M bool :=
  let! _validate := ModeStatic.__init__ in
  do! dict_assign (mode_values CC) ∅ in
  let! v1 := ModeCC.level PyNone in
  let! v2 := ModeCC.current_range PyNone in
  let! v3 := ModeCC.voltage_range PyNone in
  let! v4 := ModeCC.slew_pos PyNone in
  let! v5 := ModeCC.slew_pos PyNone in
  do! dict_assign (mode_values CC)
        (list_to_map
           [("level", v1); ("current_range", v2); ("voltage_range", v3);
            ("slew_pos", v4); ("slew_neg", v5)]) in
  do! ModeDynamicCC.__init__ in
  ret _validate.

End ModeCCInit.
End ModeCCInit.

Module ModeDynamicCV.
Section ModeDynamicCV.
Context {F : FloatOps}.
Import Py.

Definition enable : M unit :=
  do! ModeDynamic._mode (PyStr "VOLT") in ret tt.

Definition on : M unit :=
  do! enable in
  do! Input.input_control (PyStr "ON") in ret tt.

Definition pulse_mode (set_transient_mode : pyval) : M (option string) :=
  let query := ":VOLT:TRAN:MODE?" in
  let write := ":VOLT:TRAN:MODE" in
  Command.read_write query write (Some ValidateInput.mode_transient)
    set_transient_mode (Some (mode_values DynCV)) "pulse_mode".

Definition a_level (set_pulse_level : pyval) : M (option string) :=
  let query := ":VOLT:TRAN:ALEV?" in
  let write := ":VOLT:TRAN:ALEV" in
  Command.read_write query write (Some ValidateInput.voltage)
    set_pulse_level (Some (mode_values DynCV)) "a_level".

Definition b_level (set_pulse_level : pyval) : M (option string) :=
  let query := ":VOLT:TRAN:BLEV?" in
  let write := ":VOLT:TRAN:BLEV" in
  Command.read_write query write (Some ValidateInput.voltage)
    set_pulse_level (Some (mode_values DynCV)) "b_level".

Definition a_width (set_pulse_width : pyval) : M (option string) :=
  let query := ":VOLT:TRAN:AWID?" in
  let write := ":VOLT:TRAN:AWID" in
  Command.read_write query write (Some ValidateInput.pulse_width)
    set_pulse_width (Some (mode_values DynCV)) "a_width".

Definition b_width (set_pulse_width : pyval) : M (option string) :=
  let query := ":VOLT:TRAN:BWID?" in
  let write := ":VOLT:TRAN:BWID" in
  Command.read_write query write (Some ValidateInput.pulse_width)
    set_pulse_width (Some (mode_values DynCV)) "b_width".

Definition set_a_and_b (set_a_level set_b_level set_a_width set_b_width : pyval)
    : M unit :=
  do! a_level set_a_level in
  do! b_level set_b_level in
  do! a_width set_a_width in
  do! b_width set_b_width in ret tt.

Definition current_range (set_current_range : pyval) : M (option string) :=
  let query := ":VOLT:TRAN:IRANG?" in
  let write := ":VOLT:TRAN:IRANG" in
  Command.read_write query write (Some ValidateInput.current_range)
    set_current_range (Some (mode_values DynCV)) "current_range".

Definition voltage_range (set_voltage_range : pyval) : M (option string) :=
  let query := ":VOLT:TRAN:VRANG?" in
  let write := ":VOLT:TRAN:VRANG" in
  Command.read_write query write (Some ValidateInput.voltage_range)
    set_voltage_range (Some (mode_values DynCV)) "voltage_range".

(** [ModeDynamicCV(bus)] *)
Definition __init__ : M bool :=
  let! _validate := ModeDynamic.__init__ in
  do! dict_assign (mode_values DynCV) ∅ in
  let! _mode_cv_dyn := dict_display
    [("pulse_mode", pulse_mode PyNone);
     ("a_level", a_level PyNone);
     ("b_level", b_level PyNone);
     ("a_width", a_width PyNone);
     ("b_width", b_width PyNone);
     ("current_range", current_range PyNone);
     ("voltage_range", voltage_range PyNone)] in
  do! dict_assign (mode_values DynCV) _mode_cv_dyn in
  ret _validate.

End ModeDynamicCV.
End ModeDynamicCV.

Module ModeDynamicCP.
Section ModeDynamicCP.
Context {F : FloatOps}.
Import Py.

Definition enable : M unit :=
  do! ModeDynamic._mode (PyStr "POW") in ret tt.

Definition on : M unit :=
  do! enable in
  do! Input.input_control (PyStr "ON") in ret tt.

Definition pulse_mode (set_transient_mode : pyval) : M (option string) :=
  let query := ":POW:TRAN:MODE?" in
  let write := ":POW:TRAN:MODE" in
  Command.read_write query write (Some ValidateInput.mode_transient)
    set_transient_mode (Some (mode_values DynCP)) "pulse_mode".

Definition a_level (_high_power : bool) (set_pulse_level : pyval) : M (option string) :=
  let query := ":POW:TRAN:ALEV?" in
  let write := ":POW:TRAN:ALEV" in
  Command.read_write query write (Some (ValidateInput.power _high_power))
    set_pulse_level (Some (mode_values DynCP)) "a_level".

Definition b_level (_high_power : bool) (set_pulse_level : pyval) : M (option string) :=
  let query := ":POW:TRAN:BLEV?" in
  let write := ":POW:TRAN:BLEV" in
  Command.read_write query write (Some (ValidateInput.power _high_power))
    set_pulse_level (Some (mode_values DynCP)) "b_level".

Definition a_width (set_pulse_width : pyval) : M (option string) :=
  let query := ":POW:TRAN:AWID?" in
  let write := ":POW:TRAN:AWID" in
  Command.read_write query write (Some ValidateInput.pulse_width)
    set_pulse_width (Some (mode_values DynCP)) "a_width".

Definition b_width (set_pulse_width : pyval) : M (option string) :=
  let query := ":POW:TRAN:BWID?" in
  let write := ":POW:TRAN:BWID" in
  Command.read_write query write (Some ValidateInput.pulse_width)
    set_pulse_width (Some (mode_values DynCP)) "b_width".

Definition set_a_and_b (_high_power : bool) (set_a_level set_b_level set_a_width set_b_width : pyval)
    : M unit :=
  do! a_level _high_power set_a_level in
  do! b_level _high_power set_b_level in
  do! a_width set_a_width in
  do! b_width set_b_width in ret tt.

Definition current_range (set_current_range : pyval) : M (option string) :=
  let query := ":POW:TRAN:IRANG?" in
  let write := ":POW:TRAN:IRANG" in
  Command.read_write query write (Some ValidateInput.current_range)
    set_current_range (Some (mode_values DynCP)) "current_range".

Definition voltage_range (set_voltage_range : pyval) : M (option string) :=
  let query := ":POW:TRAN:VRANG?" in
  let write := ":POW:TRAN:VRANG" in
  Command.read_write query write (Some ValidateInput.voltage_range)
    set_voltage_range (Some (mode_values DynCP)) "voltage_range".

(** [ModeDynamicCP(bus)] *)
Definition __init__ : M bool :=
  let! _validate := ModeDynamic.__init__ in
  do! dict_assign (mode_values DynCP) ∅ in
  let! _mode_cp_dyn := dict_display
    [("pulse_mode", pulse_mode PyNone);
     ("a_level", a_level _validate PyNone);
     ("b_level", b_level _validate PyNone);
     ("a_width", a_width PyNone);
     ("b_width", b_width PyNone);
     ("current_range", current_range PyNone);
     ("voltage_range", voltage_range PyNone)] in
  do! dict_assign (mode_values DynCP) _mode_cp_dyn in
  ret _validate.

End ModeDynamicCP.
End ModeDynamicCP.

Module ModeDynamicCR.
Section ModeDynamicCR.
Context {F : FloatOps}.
Import Py.

Definition enable : M unit :=
  do! ModeDynamic._mode (PyStr "RES") in ret tt.

Definition on : M unit :=
  do! enable in
  do! Input.input_control (PyStr "ON") in ret tt.

Definition get_enable : M string :=
  let query := ":LIST:STAT?" in
  Command.read query.

Definition pulse_mode (set_transient_mode : pyval) : M (option string) :=
  let query := ":RES:TRAN:MODE?" in
  let write := ":RES:TRAN:MODE" in
  Command.read_write query write (Some ValidateInput.mode_transient)
    set_transient_mode (Some (mode_values DynCR)) "pulse_mode".

Definition a_level (set_pulse_level : pyval) : M (option string) :=
  let query := ":RES:TRAN:ALEV?" in
  let write := ":RES:TRAN:ALEV" in
  Command.read_write query write (Some ValidateInput.resistance)
    set_pulse_level (Some (mode_values DynCR)) "a_level".

Definition b_level (set_pulse_level : pyval) : M (option string) :=
  let query := ":RES:TRAN:BLEV?" in
  let write := ":RES:TRAN:BLEV" in
  Command.read_write query write (Some ValidateInput.resistance)
    set_pulse_level (Some (mode_values DynCR)) "b_level".

Definition a_width (set_pulse_width : pyval) : M (option string) :=
  let query := ":RES:TRAN:AWID?" in
  let write := ":RES:TRAN:AWID" in
  Command.read_write query write (Some ValidateInput.pulse_width)
    set_pulse_width (Some (mode_values DynCR)) "a_width".

Definition b_width (set_pulse_width : pyval) : M (option string) :=
  let query := ":RES:TRAN:BWID?" in
  let write := ":RES:TRAN:BWID" in
  Command.read_write query write (Some ValidateInput.pulse_width)
    set_pulse_width (Some (mode_values DynCR)) "b_width".

Definition set_a_and_b (set_a_level set_b_level set_a_width set_b_width : pyval)
    : M unit :=
  do! a_level set_a_level in
  do! b_level set_b_level in
  do! a_width set_a_width in
  do! b_width set_b_width in ret tt.

Definition current_range (set_current_range : pyval) : M (option string) :=
  let query := ":RES:TRAN:IRANG?" in
  let write := ":RES:TRAN:IRANG" in
  Command.read_write query write (Some ValidateInput.current_range)
    set_current_range (Some (mode_values DynCR)) "current_range".

Definition voltage_range (set_voltage_range : pyval) : M (option string) :=
  let query := ":RES:TRAN:VRANG?" in
  let write := ":RES:TRAN:VRANG" in
  Command.read_write query write (Some ValidateInput.voltage_range)
    set_voltage_range (Some (mode_values DynCR)) "voltage_range".

Definition resistance_range (set_resistance_range : pyval) : M (option string) :=
  let query := ":RES:TRAN:RRANG?" in
  let write := ":RES:TRAN:RRANG" in
  Command.read_write query write (Some ValidateInput.resistance_range)
    set_resistance_range (Some (mode_values DynCR)) "resistance_range".

(** [ModeDynamicCR(bus)] *)
Definition __init__ : M bool :=
  let! _validate := ModeDynamic.__init__ in
  do! dict_assign (mode_values DynCR) ∅ in
  let! _mode_cr_dyn := dict_display
    [("enable", some get_enable);
     ("pulse_mode", pulse_mode PyNone);
     ("a_level", a_level PyNone);
     ("b_level", b_level PyNone);
     ("a_width", a_width PyNone);
     ("b_width", b_width PyNone);
     ("current_range", current_range PyNone);
     ("voltage_range", voltage_range PyNone);
     ("resistance_range", resistance_range PyNone)] in
  do! dict_assign (mode_values DynCR) _mode_cr_dyn in
  ret _validate.

End ModeDynamicCR.
End ModeDynamicCR.

(** [ModeCV(bus)], [ModeCP(bus)] and [ModeCR(bus)], after the dynamic modes
    they build. *)
Module ModeCVInit.
Section ModeCVInit.
Context {F : FloatOps}.
Import Py.

(** [ModeCV(bus)]; it ends by building [self.dyn], a [ModeDynamicCV]. *)
Definition __init__ : M bool :=
  let! _validate := ModeStatic.__init__ in
  do! dict_assign (mode_values CV) ∅ in
  let! _mode_cv := dict_display
    [("level", ModeCV.level PyNone);
     ("current_range", ModeCV.current_range PyNone);
     ("voltage_range", ModeCV.voltage_range PyNone)] in
  do! dict_assign (mode_values CV) _mode_cv in
  do! ModeDynamicCV.__init__ in
  ret _validate.

End ModeCVInit.
End ModeCVInit.

Module ModeCPInit.
Section ModeCPInit.
Context {F : FloatOps}.
Import Py.

(** [ModeCP(bus)]; it ends by building [self.dyn], a [ModeDynamicCP]. *)
Definition __init__ : M bool :=
  let! _validate := ModeStatic.__init__ in
  do! dict_assign (mode_values CP) ∅ in
  let! _mode_cp := dict_display
    [("level", ModeCP.level _validate PyNone);
     ("current_range", ModeCP.current_range PyNone);
     ("voltage_range", ModeCP.voltage_range PyNone)] in
  do! dict_assign (mode_values CP) _mode_cp in
  do! ModeDynamicCP.__init__ in
  ret _validate.

End ModeCPInit.
End ModeCPInit.

Module ModeCRInit.
Section ModeCRInit.
Context {F : FloatOps}.
Import Py.

(** [ModeCR(bus)]; it ends by building [self.dyn], a [ModeDynamicCR]. *)
Definition __init__ : M bool :=
  let! _validate := ModeStatic.__init__ in
  do! dict_assign (mode_values CR) ∅ in
  let! _mode_cr := dict_display
    [("level", ModeCR.level PyNone);
     ("current_range", ModeCR.current_range PyNone);
     ("voltage_range", ModeCR.voltage_range PyNone);
     ("resistance_range", ModeCR.resistance_range PyNone)] in
  do! dict_assign (mode_values CR) _mode_cr in
  do! ModeDynamicCR.__init__ in
  ret _validate.

End ModeCRInit.
End ModeCRInit.

(** ** The test modes *)
Module ModeList.
Section ModeList.
Context {F : FloatOps}.
Import Py.

Definition enable : M unit :=
  let write := ":LIST:STAT:ON" in
  do! dict_set global_input_values "mode" (Some "LIST") in
  Command.write write None.

Definition on : M unit :=
  do! enable in
  do! Input.input_control (PyStr "ON") in ret tt.

Definition get_enable : M string :=
  let query := ":LIST:STAT?" in
  Command.read query.

(** [step] is [1] when the caller leaves it out. *)
Definition level (_high_power : bool) (step set_level : pyval) : M (option string) :=
  let query := ":LIST:LEV? " ++ str step in
  let write := ":LIST:LEV " ++ str step ++ "," in
  do! ValidateTest.step_range step in
  Command.read_write query write (Some (ValidateTest.list_levels _high_power))
    set_level (Some (mode_values List_)) "level".

Definition list_mode (set_list_mode : pyval) : M (option string) :=
  let query := ":LIST:MODE?" in
  let write := ":LIST:MODE" in
  Command.read_write query write (Some ValidateInput.current)
    set_list_mode (Some (mode_values List_)) "list_mode".

Definition current_range (set_current_range : pyval) : M (option string) :=
  let query := ":LIST:IRANG?" in
  let write := ":LIST:IRANG" in
  Command.read_write query write (Some ValidateInput.current_range)
    set_current_range (Some (mode_values List_)) "current_range".

Definition voltage_range (set_voltage_range : pyval) : M (option string) :=
  let query := ":LIST:VRANG?" in
  let write := ":LIST:VRANG" in
  Command.read_write query write (Some ValidateInput.voltage_range)
    set_voltage_range (Some (mode_values List_)) "voltage_range".

Definition resistance_range (set_resistance_range : pyval) : M (option string) :=
  let query := ":LIST:RRANG?" in
  let write := ":LIST:RRANG" in
  Command.read_write query write (Some ValidateInput.resistance_range)
    set_resistance_range (Some (mode_values List_)) "resistance_range".

Definition count (set_list_count : pyval) : M (option string) :=
  let query := ":LIST:COUN?" in
  let write := ":LIST:COUN" in
  Command.read_write query write (Some ValidateTest.list_count)
    set_list_count (Some (mode_values List_)) "count".

Definition step (set_step : pyval) : M (option string) :=
  let query := ":LIST:STEP?" in
  let write := ":LIST:STEP" in
  Command.read_write query write (Some ValidateTest.step_range)
    set_step (Some (mode_values List_)) "step".

Definition slew (step set_slew : pyval) : M (option string) :=
  let query := ":LIST:SLEW? " ++ str step in
  let write := ":CURR:SLEW " ++ str step ++ "," in
  Command.read_write query write (Some ValidateInput.slew)
    set_slew (Some (mode_values List_)) "slew".

Definition width (step set_width : pyval) : M (option string) :=
  let query := ":LIST:WID? " ++ str step in
  let write := ":LIST:WID " ++ str step ++ "," in
  do! ValidateTest.step_range step in
  Command.read_write query write (Some ValidateInput.pulse_width)
    set_width (Some (mode_values List_)) "width".

(** [ModeList(bus)]: after [Input.__init__], [self._validate] is bound to a new
    [ValidateTest]; the result is its [_high_power]. *)
Definition __init__ : M bool :=
  do! Input.__init__ in
  let! _validate := ValidateTest.__init__ in
  do! dict_assign (mode_values List_) ∅ in
  let! _mode_list := dict_display
    [("enable", some get_enable);
     ("list_mode", list_mode PyNone);
     ("level", level _validate (PyInt 1) PyNone);
     ("count", count PyNone);
     ("step", step PyNone);
     ("slew", slew (PyInt 1) PyNone);
     ("width", width (PyInt 1) PyNone);
     ("current_range", current_range PyNone);
     ("voltage_range", voltage_range PyNone);
     ("resistance_range", resistance_range PyNone)] in
  do! dict_assign (mode_values List_) _mode_list in
  ret _validate.

End ModeList.
End ModeList.

Module ModeBattery.
Section ModeBattery.
Context {F : FloatOps}.
Import Py.

Definition get_enable : M string :=
  let query := ":BATT:FUNC?" in
  Command.read query.

Definition enable : M unit :=
  let write := ":BATT:FUNC" in
  do! Command.write write None in
  do! dict_set global_input_values "mode" (Some "BATTERY") in
  let! v := get_enable in
  dict_set (mode_values Battery) "enable" (Some v).

Definition on : M unit :=
  do! enable in
  do! Input.input_control (PyStr "ON") in ret tt.

Definition mode (set_mode : pyval) : M (option string) :=
  let query := ":BATT:MODE?" in
  let write := ":BATT:MODE" in
  Command.read_write query write (Some ValidateBattery.mode_battery)
    set_mode (Some (mode_values Battery)) "batt_mode".

Definition level (set_battery_level : pyval) : M (option string) :=
  let query := ":BATT:LEV?" in
  let write := ":BATT:LEV" in
  Command.read_write query write (Some ValidateBattery.battery_level)
    set_battery_level (Some (mode_values Battery)) "level".

Definition current_range (set_current_range : pyval) : M (option string) :=
  let query := ":BATT:IRANG?" in
  let write := ":BATT:IRANG" in
  Command.read_write query write (Some ValidateInput.current_range)
    set_current_range (Some (mode_values Battery)) "current_range".

Definition voltage_range (set_voltage_range : pyval) : M (option string) :=
  let query := ":BATT:VRANG?" in
  let write := ":BATT:VRANG" in
  Command.read_write query write (Some ValidateInput.voltage_range)
    set_voltage_range (Some (mode_values Battery)) "voltage_range".

Definition resistance_range (set_resistance_range : pyval) : M (option string) :=
  let query := ":BATT:RRANG?" in
  let write := ":BATT:RRANG" in
  Command.read_write query write (Some ValidateInput.resistance_range)
    set_resistance_range (Some (mode_values Battery)) "resistance_range".

Definition v_stop (set_voltage_stop : pyval) : M (option string) :=
  let query := ":BATT:VOLT?" in
  let write := ":BATT:VOLT" in
  Command.read_write query write (Some ValidateInput.voltage)
    set_voltage_stop (Some (mode_values Battery)) "v_stop".

Definition c_stop (set_capacity_stop : pyval) : M (option string) :=
  let query := ":BATT:CAP?" in
  let write := ":BATT:CAP" in
  Command.read_write query write (Some ValidateBattery.capacity)
    set_capacity_stop (Some (mode_values Battery)) "c_stop".

Definition t_stop (set_timer_stop : pyval) : M (option string) :=
  let query := ":BATT:TIM?" in
  let write := ":BATT:TIM" in
  Command.read_write query write (Some ValidateInput.on_off)
    set_timer_stop (Some (mode_values Battery)) "t_stop".

Definition v_stop_enable (set_v_stop_on_off : pyval) : M (option string) :=
  let query := ":BATT:VOLT:STAT?" in
  let write := ":BATT:VOLT:STAT" in
  Command.read_write query write (Some ValidateInput.on_off)
    set_v_stop_on_off (Some (mode_values Battery)) "v_stop_state".

Definition c_stop_enable (set_c_stop_on_off : pyval) : M (option string) :=
  let query := ":BATT:CAP:STAT?" in
  let write := ":BATT:CAP:STAT" in
  Command.read_write query write (Some ValidateInput.on_off)
    set_c_stop_on_off (Some (mode_values Battery)) "c_stop_state".

Definition t_stop_enable (set_t_stop_on_off : pyval) : M (option string) :=
  let query := ":BATT:TIM:STAT?" in
  let write := ":BATT:TIM:STAT" in
  Command.read_write query write (Some ValidateInput.on_off)
    set_t_stop_on_off (Some (mode_values Battery)) "t_stop_state".

Definition get_discharge_capability : M string :=
  let query := ":BATT:DISCHA:CAP?" in
  Command.read query.

Definition get_discharge_timer : M string :=
  let query := ":BATT:DISCHA:TIM?" in
  Command.read query.

(** [ModeBattery(bus)]: after [Input.__init__], [self._validate] is bound to a new
    [ValidateBattery]; the result is its [_high_power]. *)
Definition __init__ : M bool :=
  do! Input.__init__ in
  let! _validate := ValidateBattery.__init__ in
  do! dict_assign (mode_values Battery) ∅ in
  let! _mode_bat := dict_display
    [("enable", some get_enable);
     ("batt_mode", mode PyNone);
     ("level", level PyNone);
     ("v_stop", v_stop PyNone);
     ("c_stop", c_stop PyNone);
     ("t_stop", t_stop PyNone);
     ("v_stop_state", v_stop_enable PyNone);
     ("c_stop_state", c_stop_enable PyNone);
     ("t_stop_state", t_stop_enable PyNone);
     ("current_range", current_range PyNone);
     ("voltage_range", voltage_range PyNone);
     ("resistance_range", resistance_range PyNone)] in
  do! dict_assign (mode_values Battery) _mode_bat in
  ret _validate.

End ModeBattery.
End ModeBattery.

Module ModeOCP.
Section ModeOCP.
Context {F : FloatOps}.
Import Py.

Definition enable : M unit :=
  let write := ":OCP:FUNC" in
  do! dict_set global_input_values "mode" (Some "OCP") in
  Command.write write None.

Definition on : M unit :=
  do! enable in
  do! Input.input_control (PyStr "ON") in ret tt.

Definition step_delay (set_step_delay_time : pyval) : M (option string) :=
  let query := ":OCP:STEP?" in
  let write := ":OCP:STEP" in
  Command.read_write query write (Some ValidateTest.step_time)
    set_step_delay_time (Some (mode_values OCP)) "step_delay".

Definition step_current (set_step_current : pyval) : M (option string) :=
  let query := ":OCP:STEP?" in
  let write := ":OCP:STEP" in
  Command.read_write query write (Some ValidateInput.current)
    set_step_current (Some (mode_values OCP)) "step_current".

Definition current_range (set_current_range : pyval) : M (option string) :=
  let query := ":OCP:IRANG?" in
  let write := ":OCP:IRANG" in
  Command.read_write query write (Some ValidateInput.current_range)
    set_current_range (Some (mode_values OCP)) "current_range".

Definition voltage_range (set_voltage_range : pyval) : M (option string) :=
  let query := ":OCP:VRANG?" in
  let write := ":OCP:VRANG" in
  Command.read_write query write (Some ValidateInput.voltage_range)
    set_voltage_range (Some (mode_values OCP)) "voltage_range".

Definition get_enable : M string :=
  let query := ":OCP:FUNC?" in
  Command.read query.

Definition start_current (set_start_current : pyval) : M (option string) :=
  let query := ":OCP:STAR?" in
  let write := ":OCP:STAR" in
  Command.read_write query write (Some ValidateInput.current)
    set_start_current (Some (mode_values OCP)) "start_current".

Definition end_current (set_end_current : pyval) : M (option string) :=
  let query := ":OCP:END?" in
  let write := ":OCP:END" in
  Command.read_write query write (Some ValidateInput.current)
    set_end_current (Some (mode_values OCP)) "end_current".

Definition min_current (set_min_current : pyval) : M (option string) :=
  let query := ":OCP:MIN?" in
  let write := ":OCP:MIN" in
  Command.read_write query write (Some ValidateInput.current)
    set_min_current (Some (mode_values OCP)) "min_current".

Definition max_current (set_max_current : pyval) : M (option string) :=
  let query := ":OCP:MAX?" in
  let write := ":OCP:MAX" in
  Command.read_write query write (Some ValidateInput.current)
    set_max_current (Some (mode_values OCP)) "max_current".

Definition voltage_limit (set_protection_voltage : pyval) : M (option string) :=
  let query := ":OCP:VOLT?" in
  let write := ":OCP:VOLT" in
  Command.read_write query write (Some ValidateInput.voltage)
    set_protection_voltage (Some (mode_values OCP)) "voltage_limit".

(** [ModeOCP(bus)]: after [Input.__init__], [self._validate] is bound to a new
    [ValidateTest]; the result is its [_high_power]. *)
Definition __init__ : M bool :=
  do! Input.__init__ in
  let! _validate := ValidateTest.__init__ in
  do! dict_assign (mode_values OCP) ∅ in
  let! _mode_ocp := dict_display
    [("enable", some get_enable);
     ("start_current", start_current PyNone);
     ("step_current", step_current PyNone);
     ("end_current", end_current PyNone);
     ("min_current", min_current PyNone);
     ("max_current", max_current PyNone);
     ("voltage_limit", voltage_limit PyNone);
     ("step_delay", step_delay PyNone);
     ("current_range", current_range PyNone);
     ("voltage_range", voltage_range PyNone)] in
  do! dict_assign (mode_values OCP) _mode_ocp in
  ret _validate.

End ModeOCP.
End ModeOCP.

Module ModeOPP.
Section ModeOPP.
Context {F : FloatOps}.
Import Py.

Definition enable : M unit :=
  let write := ":OPP:FUNC" in
  do! dict_set global_input_values "mode" (Some "OCP") in
  Command.write write None.

Definition on : M unit :=
  do! enable in
  do! Input.input_control (PyStr "ON") in ret tt.

Definition current_range (set_current_range : pyval) : M (option string) :=
  let query := ":OCP:IRANG?" in
  let write := ":OCP:IRANG" in
  Command.read_write query write (Some ValidateInput.current_range)
    set_current_range (Some (mode_values OPP)) "current_range".

Definition voltage_range (set_voltage_range : pyval) : M (option string) :=
  let query := ":OCP:VRANG?" in
  let write := ":OCP:VRANG" in
  Command.read_write query write (Some ValidateInput.voltage_range)
    set_voltage_range (Some (mode_values OPP)) "voltage_range".

Definition get_enable : M string :=
  let query := ":OPP:FUNC?" in
  Command.read query.

Definition start_power (_high_power : bool) (set_start_power : pyval) : M (option string) :=
  let query := ":OPP:STAR?" in
  let write := ":OPP:STAR" in
  Command.read_write query write (Some (ValidateInput.power _high_power))
    set_start_power (Some (mode_values OPP)) "start_power".

Definition step_power (_high_power : bool) (set_step_power : pyval) : M (option string) :=
  let query := ":OPP:STEP?" in
  let write := ":OPP:STEP" in
  Command.read_write query write (Some (ValidateInput.power _high_power))
    set_step_power (Some (mode_values OPP)) "step_power".

Definition end_power (_high_power : bool) (set_end_power : pyval) : M (option string) :=
  let query := ":OPP:END?" in
  let write := ":OPP:END" in
  Command.read_write query write (Some (ValidateInput.power _high_power))
    set_end_power (Some (mode_values OPP)) "end_power".

Definition min_power (_high_power : bool) (set_min_power : pyval) : M (option string) :=
  let query := ":OPP:MIN?" in
  let write := ":OPP:MIN" in
  Command.read_write query write (Some (ValidateInput.power _high_power))
    set_min_power (Some (mode_values OPP)) "min_power".

Definition max_power (_high_power : bool) (set_max_power : pyval) : M (option string) :=
  let query := ":OPP:MAX?" in
  let write := ":OPP:MAX" in
  Command.read_write query write (Some (ValidateInput.power _high_power))
    set_max_power (Some (mode_values OPP)) "max_power".

Definition voltage_limit (set_protection_voltage : pyval) : M (option string) :=
  let query := ":OPP:VOLT?" in
  let write := ":OPP:VOLT" in
  Command.read_write query write (Some ValidateInput.voltage)
    set_protection_voltage (Some (mode_values OPP)) "voltage_limit".

Definition step_delay (set_step_delay_time : pyval) : M (option string) :=
  let query := ":OPP:STEP?" in
  let write := ":OPP:STEP" in
  Command.read_write query write (Some ValidateTest.step_time)
    set_step_delay_time (Some (mode_values OPP)) "step_delay".

(** [ModeOPP(bus)]: after [Input.__init__], [self._validate] is bound to a new
    [ValidateTest]; the result is its [_high_power]. *)
Definition __init__ : M bool :=
  do! Input.__init__ in
  let! _validate := ValidateTest.__init__ in
  do! dict_assign (mode_values OPP) ∅ in
  let! _mode_opp := dict_display
    [("enable", some get_enable);
     ("start_power", start_power _validate PyNone);
     ("step_power", step_power _validate PyNone);
     ("end_power", end_power _validate PyNone);
     ("min_power", min_power _validate PyNone);
     ("max_power", max_power _validate PyNone);
     ("voltage_limit", voltage_limit PyNone);
     ("step_delay", step_delay PyNone);
     ("current_range", current_range PyNone);
     ("voltage_range", voltage_range PyNone)] in
  do! dict_assign (mode_values OPP) _mode_opp in
  ret _validate.

End ModeOPP.
End ModeOPP.

Module ModeProgram.
Section ModeProgram.
Context {F : FloatOps}.
Import Py.

Definition enable : M unit :=
  let write := ":PROG:STAT:ON" in
  do! Command.write write None in
  dict_set global_input_values "mode" (Some "Program").

Definition on : M unit :=
  do! enable in
  do! Input.input_control (PyStr "ON") in ret tt.

(** [step] is [1] when the caller leaves it out. *)
Definition step_mode (step set_program_mode : pyval) : M (option string) :=
  let query := ":PROG:MODE? " ++ str step in
  let write := ":PROG:MODE " ++ str step ++ "," in
  do! ValidateTest.step_range step in
  Command.read_write query write (Some ValidateInput.mode_static)
    set_program_mode (Some (mode_values Program)) "program_mode".

Definition get_enable : M string :=
  let query := ":PROG:STAT?" in
  Command.read query.

Definition step (set_steps : pyval) : M (option string) :=
  let query := ":PROG:STEP?" in
  let write := ":PROG:STEP" in
  Command.read_write query write (Some ValidateTest.step_range)
    set_steps (Some (mode_values Program)) "step".

Definition level (_high_power : bool) (step set_level : pyval) : M (option string) :=
  let query := ":PROG:LEV? " ++ str step in
  let write := ":PROG:LEV " ++ str step ++ "," in
  do! ValidateTest.step_range step in
  Command.read_write query write (Some (ValidateTest.program_levels _high_power))
    set_level (Some (mode_values Program)) "level".

Definition current_range (step set_current_range : pyval) : M (option string) :=
  let query := ":PROG:IRANG? " ++ str step in
  let write := ":PROG:IRANG " ++ str step ++ "," in
  do! ValidateTest.step_range step in
  Command.read_write query write (Some ValidateInput.current_range)
    set_current_range (Some (mode_values Program)) "current_range".

Definition voltage_range (step set_voltage_range : pyval) : M (option string) :=
  let query := ":PROG:VRANG? " ++ str step in
  let write := ":PROG:VRANG " ++ str step ++ "," in
  do! ValidateTest.step_range step in
  Command.read_write query write (Some ValidateInput.voltage_range)
    set_voltage_range (Some (mode_values Program)) "voltage_range".

Definition resistance_range (step set_resistance_range : pyval) : M (option string) :=
  let query := ":PROG:RRANG? " ++ str step in
  let write := ":PROG:RRANG " ++ str step ++ "," in
  do! ValidateTest.step_range step in
  Command.read_write query write (Some ValidateInput.resistance_range)
    set_resistance_range (Some (mode_values Program)) "resistance_range".

Definition step_short (step set_step_short : pyval) : M (option string) :=
  let query := ":PROG:SHOR? " ++ str step in
  let write := ":PROG:SHOR " ++ str step ++ "," in
  do! ValidateTest.step_range step in
  Command.read_write query write (Some ValidateInput.on_off)
    set_step_short (Some (mode_values Program)) "step_short".

Definition pause (step set_step : pyval) : M (option string) :=
  let query := ":PROG:PAUSE? " ++ str step in
  let write := ":PROG:PAUSE " ++ str step ++ "," in
  do! ValidateTest.step_range step in
  Command.read_write query write (Some ValidateInput.on_off)
    set_step (Some (mode_values Program)) "pause".

Definition time_on (step set_start_current : pyval) : M (option string) :=
  let query := ":PROG:TIME:ON? " ++ str step in
  let write := ":PROG:TIME:ON " ++ str step ++ "," in
  do! ValidateTest.step_range step in
  Command.read_write query write (Some ValidateTest.step_time)
    set_start_current (Some (mode_values Program)) "time_on".

Definition time_off (step set_start_current : pyval) : M (option string) :=
  let query := ":PROG:TIME:OFF? " ++ str step in
  let write := ":PROG:TIME:OFF " ++ str step ++ "," in
  do! ValidateTest.step_range step in
  Command.read_write query write (Some ValidateTest.step_time)
    set_start_current (Some (mode_values Program)) "time_off".

Definition time_delay (step set_step_current : pyval) : M (option string) :=
  let query := ":PROG:TIME:DEL? " ++ str step in
  let write := ":PROG:TIME:DEL " ++ str step ++ "," in
  do! ValidateTest.step_range step in
  Command.read_write query write (Some ValidateTest.step_time)
    set_step_current (Some (mode_values Program)) "time_delay".

Definition max (step set_end_current : pyval) : M (option string) :=
  let query := ":PROG:MAX? " ++ str step in
  let write := ":PROG:MAX " ++ str step ++ "," in
  do! ValidateTest.step_range step in
  Command.read_write query write (Some ValidateTest.step_min_max)
    set_end_current (Some (mode_values Program)) "max".

Definition min (step set_min_current : pyval) : M (option string) :=
  let query := ":PROG:MIN? " ++ str step in
  let write := ":PROG:MIN " ++ str step ++ "," in
  do! ValidateTest.step_range step in
  Command.read_write query write (Some ValidateTest.step_min_max)
    set_min_current (Some (mode_values Program)) "min".

Definition led_current (step set_max_current : pyval) : M (option string) :=
  let query := ":PROG:LED:CURR? " ++ str step in
  let write := ":PROG:LED:CURR " ++ str step ++ "," in
  do! ValidateTest.step_range step in
  Command.read_write query write (Some ValidateInput.current)
    set_max_current (Some (mode_values Program)) "led_current".

Definition led_rco_set (step set_step_led_rco_set : pyval) : M (option string) :=
  let query := ":PROG:LED:RCO? " ++ str step in
  let write := ":PROG:LED:RCO " ++ str step ++ "," in
  do! ValidateTest.step_range step in
  Command.read_write query write (Some ValidateTest.led_rco)
    set_step_led_rco_set (Some (mode_values Program)) "led_rco_set".

Definition test (step set_step_test : pyval) : M (option string) :=
  let query := ":PROG:TEST? " ++ str step in
  let write := ":PROG:TEST " ++ str step ++ "," in
  do! ValidateTest.step_range step in
  Command.read_write query write (Some ValidateTest.step_time)
    set_step_test (Some (mode_values Program)) "test".

(** [ModeProgram(bus)]: after [Input.__init__], [self._validate] is bound to a new
    [ValidateTest]; the result is its [_high_power]. *)
Definition __init__ : M bool :=
  do! Input.__init__ in
  let! _validate := ValidateTest.__init__ in
  do! dict_assign (mode_values Program) ∅ in
  let! _mode_prog := dict_display
    [("enable", some get_enable);
     ("step_mode", step_mode (PyInt 1) PyNone);
     ("step", step PyNone);
     ("level", level _validate (PyInt 1) PyNone);
     ("current_range", current_range (PyInt 1) PyNone);
     ("voltage_range", voltage_range (PyInt 1) PyNone);
     ("step_short", step_short (PyInt 1) PyNone);
     ("pause", pause (PyInt 1) PyNone);
     ("resistance_range", resistance_range (PyInt 1) PyNone);
     ("time_on", time_on (PyInt 1) PyNone);
     ("time_off", time_off (PyInt 1) PyNone);
     ("time_delay", time_delay (PyInt 1) PyNone);
     ("max", max (PyInt 1) PyNone);
     ("min", min (PyInt 1) PyNone);
     ("test", test (PyInt 1) PyNone);
     ("led_current", led_current (PyInt 1) PyNone);
     ("led_rco_set", led_rco_set (PyInt 1) PyNone)] in
  do! dict_assign (mode_values Program) _mode_prog in
  ret _validate.

End ModeProgram.
End ModeProgram.

(** ** class Common *)
Module Common.
Section Common.
Context {F : FloatOps}.
Import Py.

Definition cls : M unit :=
  let write := "*CLS" in
  Command.write write None.

Definition esr : M string :=
  let query := "*ESR?" in
  Command.read query.

Definition idn : M string :=
  let query := "*IDN?" in
  Command.read query.

(** [opc(reg_value)].  The call of [read_write] has three arguments:
    [reg_value] stands in the place of the validator, and [value],
    [value_dict] and [value_key] are left at their default [None].  With
    [value is None] the validator is not looked at. *)
Definition opc (reg_value : pyval) : M (option string) :=
  let query := "*OPC?" in
  let write := "*OPC" in
  let! rvalue := Command.read_write query write None PyNone None EmptyString in
  if Command.is_none reg_value then ret rvalue else ret None.

Definition rst : M unit :=
  let write := "*RST" in
  do! Command.write write None in
  cls.

Definition stb : M string :=
  let query := "*STB?" in
  Command.read query.

Definition trg : M unit :=
  let write := "*TRG" in
  Command.write write None.

Definition wait : M unit :=
  let write := "*WAI" in
  Command.write write None.

Definition tst : M string :=
  let query := "*TST" in
  Command.read query.

End Common.
End Common.

(** ** Dispatch on the mode object *)
Section Device.
Context {F : FloatOps}.

(** [m.enable()] *)
Definition enable (m : mode) : M unit :=
  match m with
  | CC => ModeCC.enable
  | CV => ModeCV.enable
  | CP => ModeCP.enable
  | CR => ModeCR.enable
  | LED => ModeLED.enable
  | DynCC => ModeDynamicCC.enable
  | DynCV => ModeDynamicCV.enable
  | DynCP => ModeDynamicCP.enable
  | DynCR => ModeDynamicCR.enable
  | List_ => ModeList.enable
  | Battery => ModeBattery.enable
  | OCP => ModeOCP.enable
  | OPP => ModeOPP.enable
  | Program => ModeProgram.enable
  end.

(** [m.on()] *)
Definition on (m : mode) : M unit :=
  match m with
  | CC => ModeCC.on
  | CV => ModeCV.on
  | CP => ModeCP.on
  | CR => ModeCR.on
  | LED => ModeLED.on
  | DynCC => ModeDynamicCC.on
  | DynCV => ModeDynamicCV.on
  | DynCP => ModeDynamicCP.on
  | DynCR => ModeDynamicCR.on
  | List_ => ModeList.on
  | Battery => ModeBattery.on
  | OCP => ModeOCP.on
  | OPP => ModeOPP.on
  | Program => ModeProgram.on
  end.

End Device.

(** ** An executable reading of [float]: exact decimals

    A number is [mant / 10^scale].  Every literal of the driver is such a
    number, and so is every candidate of the examples below.  Rounding is
    half-to-even on the exact value, the text is the shortest one, as in
    [repr], and [float(n)] overflows where a double does. *)
Module Decimal.

Record t := Dec { mant : Z; scale : nat }.

Definition lit (m e : Z) : t :=
  if 0 <=? e then Dec (m * 10 ^ e) 0 else Dec m (Z.to_nat (- e)).

Definition of_int (n : Z) : option t :=
  if Z.abs n <? 2 ^ 1024 - 2 ^ 970 then Some (Dec n 0) else None.

Definition pow10 (k : nat) : Z := 10 ^ Z.of_nat k.

Definition le (a b : t) : bool :=
  mant a * pow10 (scale b) <=? mant b * pow10 (scale a).

Definition le_int (a : t) (n : Z) : bool := mant a <=? n * pow10 (scale a).
Definition int_le (n : Z) (a : t) : bool := n * pow10 (scale a) <=? mant a.
Definition eq_int (a : t) (n : Z) : bool := mant a =? n * pow10 (scale a).

(** [m / d] rounded to the nearest integer, a tie going to the even one *)
Definition div_half_even (m d : Z) : Z :=
  let q := m / d in
  let r := m mod d in
  if 2 * r <? d then q
  else if d <? 2 * r then q + 1
  else if Z.even q then q else q + 1.

Definition round (a : t) (ndigits : Z) : t :=
  if Z.of_nat (scale a) <=? ndigits then a
  else
    let q := div_half_even (mant a) (10 ^ (Z.of_nat (scale a) - ndigits)) in
    if 0 <=? ndigits then Dec q (Z.to_nat ndigits)
    else Dec (q * 10 ^ (- ndigits)) 0.

Fixpoint drop_zeros (l : list ascii) : list ascii :=
  match l with
  | c :: l' => if Ascii.eqb c "0" then drop_zeros l' else l
  | [] => []
  end.

Definition zeros (k : nat) : string := string_of_list_ascii (repeat "0"%char k).

Definition two_digits (n : Z) : string :=
  if n <? 10 then "0" ++ pretty n else pretty n.

(** [repr]: positional for a decimal point at -3 .. 16, else with an exponent *)
Definition to_str (a : t) : string :=
  if mant a =? 0 then "0.0"
  else
    let sign := if mant a <? 0 then "-" else EmptyString in
    let all := list_ascii_of_string (pretty (Z.abs (mant a))) in
    let digits := rev (drop_zeros (rev all)) in
    let n := List.length digits in
    let decpt := Z.of_nat (List.length all) - Z.of_nat (scale a) in
    let ds := string_of_list_ascii digits in
    sign ++
    if (decpt <=? -4) || (16 <? decpt) then
      let e := decpt - 1 in
      string_of_list_ascii (firstn 1 digits) ++
      (if (1 <? n)%nat then "." ++ string_of_list_ascii (skipn 1 digits) else EmptyString) ++
      "e" ++ (if e <? 0 then "-" else "+") ++ two_digits (Z.abs e)
    else if decpt <=? 0 then "0." ++ zeros (Z.to_nat (- decpt)) ++ ds
    else if Z.of_nat n <=? decpt then ds ++ zeros (Z.to_nat decpt - n) ++ ".0"
    else string_of_list_ascii (firstn (Z.to_nat decpt) digits) ++ "." ++
         string_of_list_ascii (skipn (Z.to_nat decpt) digits).

Definition ops : FloatOps := {|
  float := t;
  float_lit := lit;
  float_of_int := of_int;
  float_round := round;
  float_le := le;
  float_le_int := le_int;
  int_le_float := int_le;
  float_eq_int := eq_int;
  float_str := to_str
|}.

End Decimal.

(** * Vocabulary of the statements *)

Definition is_query (e : event) : bool :=
  match e with Query _ _ => true | _ => false end.

(** The lines written to the bus, oldest first. *)
Definition writes (l : list event) : list string :=
  omap (fun e => match e with Write s => Some s | _ => None end) l.

(** The replies received from the instrument. *)
Definition replies (l : list event) : list string :=
  omap (fun e => match e with Query _ r => Some r | _ => None end) l.

(** The line of a set: the write template, a space, [str] of the candidate. *)
Definition set_line {F : FloatOps} (write : string) (value : Py.pyval) : string :=
  write ++ " " ++ Py.str value.

(** The events a computation adds to the log of [w]. *)
Definition added {A} (c : M A) (w : world) : list event :=
  drop (List.length (log w)) (log (c w).2).

(** A validator that leaves the dictionaries alone and uses the bus for
    queries only. *)
Definition reads_only {F : FloatOps} (v : validator) : Prop :=
  forall value w, exists qs,
    forallb is_query qs = true /\
    (v value w).2 = World (device w) (log w ++ qs) (heap w).

(** The bound methods of [ValidateInput], [ValidateBattery] and
    [ValidateTest]: every validator an accessor of the driver hands to
    [read_write]. *)
Definition validators {F : FloatOps} (_high_power : bool) : list validator :=
  [ ValidateInput.on_off; ValidateInput.mode_dynamic; ValidateInput.mode_static;
    ValidateInput.current_range; ValidateInput.voltage_range;
    ValidateInput.resistance_range; ValidateInput.mode_transient;
    ValidateInput.pulse_width; ValidateInput.power _high_power;
    ValidateInput.resistance; ValidateInput.voltage; ValidateInput.current;
    ValidateInput.slew;
    ValidateBattery.mode_battery; ValidateBattery.battery_level;
    ValidateBattery.capacity;
    ValidateTest.list_levels _high_power; ValidateTest.program_levels _high_power;
    ValidateTest.list_count; ValidateTest.step_range; ValidateTest.step_delay;
    ValidateTest.led_rco; ValidateTest.step_time; ValidateTest.step_min_max ].

(** Every value a dictionary holds after [c] was there before, or is a reply
    the instrument gave while [c] ran. *)
Definition stores_only_replies {A} (c : M A) : Prop :=
  forall w d k v,
    heap (c w).2 d !! k = Some v ->
    heap w d !! k = Some v \/
    exists r, v = Some r /\ r ∈ replies (added c w).

(** [c] leaves the entry [k] of dictionary [d] as it finds it. *)
Definition keeps {A} (d : dict_ref) (k : string) (c : M A) : Prop :=
  forall w, heap (c w).2 d !! k = heap w d !! k.

(** The keys of [ModeDynamicCC._mode_cc_dyn], each with the query of its
    accessor, and the keys of [global_input_values] that the constructor
    sets. *)
Definition dynamic_cc_parameters : list (string * string) :=
  [ ("pulse_mode", ":CURR:TRAN:MODE?"); ("a_level", ":CURR:TRAN:ALEV?");
    ("b_level", ":CURR:TRAN:BLEV?"); ("a_width", ":CURR:TRAN:AWID?");
    ("b_width", ":CURR:TRAN:BWID?"); ("current_range", ":CURR:TRAN:IRANG?");
    ("voltage_range", ":CURR:TRAN:VRANG?"); ("slew_pos", ":CURR:TRAN:SLEW:POS?");
    ("slew_neg", ":CURR:TRAN:SLEW:NEG?") ].

Definition dynamic_input_parameters : list (string * string) :=
  [ ("input_on", ":INP?"); ("short_on", ":SHOR?"); ("mode", ":FUNC:TRAN?") ].

(** The write that selects the function of a mode. *)
Definition function_select (m : mode) : string :=
  match m with
  | CC => ":FUNC CURR"
  | CV => ":FUNC VOLT"
  | CP => ":FUNC POW"
  | CR => ":FUNC RES"
  | LED => ":FUNC LED"
  | DynCC => ":FUNC:TRAN CURR"
  | DynCV => ":FUNC:TRAN VOLT"
  | DynCP => ":FUNC:TRAN POW"
  | DynCR => ":FUNC:TRAN RES"
  | List_ => ":LIST:STAT:ON"
  | Battery => ":BATT:FUNC"
  | OCP => ":OCP:FUNC"
  | OPP => ":OPP:FUNC"
  | Program => ":PROG:STAT:ON"
  end.

(** A text without quotes, backslashes or control characters: [repr] puts it
    between apostrophes as it is. *)
Definition plain_char (c : ascii) : bool :=
  let n := nat_of_ascii c in
  ((32 <=? n) && (n <=? 126) && negb (n =? 39) && negb (n =? 34) && negb (n =? 92))%nat.

Fixpoint plain (s : string) : bool :=
  match s with
  | EmptyString => true
  | String c s' => plain_char c && plain s'
  end.

(** The candidate, rounded to [round_to] places, lies in the closed interval
    [min, max] of a range rule. *)
Definition in_range_rounded {F : FloatOps} (bounds : Py.num * Py.num) (round_to : Z)
    (value : Py.pyval) : Prop :=
  exists x,
    Py.to_float value = Some x /\
    Py.num_le_float bounds.1 (float_round x round_to) = true /\
    Py.float_le_num (float_round x round_to) bounds.2 = true.

(** The lines of the queries sent to the bus, oldest first. *)
Definition queries (l : list event) : list string :=
  omap (fun e => match e with Query q _ => Some q | _ => None end) l.

(** The texts printed, oldest first. *)
Definition prints (l : list event) : list string :=
  omap (fun e => match e with Print t => Some t | _ => None end) l.

(** A decimal digit. *)
Definition is_digit (c : ascii) : bool :=
  let n := nat_of_ascii c in ((48 <=? n) && (n <=? 57))%nat.

(** The validators of the driver, each with the query it sends to the bus
    when it is called, if any. *)
Definition validator_questions {F : FloatOps} (_high_power : bool)
    : list (validator * option string) :=
  [ (ValidateInput.on_off, None); (ValidateInput.mode_dynamic, None);
    (ValidateInput.mode_static, None); (ValidateInput.current_range, None);
    (ValidateInput.voltage_range, None); (ValidateInput.resistance_range, None);
    (ValidateInput.mode_transient, None); (ValidateInput.pulse_width, None);
    (ValidateInput.power _high_power, None); (ValidateInput.resistance, None);
    (ValidateInput.voltage, None); (ValidateInput.current, None);
    (ValidateInput.slew, None);
    (ValidateBattery.mode_battery, None);
    (ValidateBattery.battery_level, Some ":BATT:MODE?");
    (ValidateBattery.capacity, None);
    (ValidateTest.list_levels _high_power, Some ":LIST:MODE?");
    (ValidateTest.program_levels _high_power, Some ":PROG:MODE?");
    (ValidateTest.list_count, None); (ValidateTest.step_range, None);
    (ValidateTest.step_delay, None); (ValidateTest.led_rco, None);
    (ValidateTest.step_time, None);
    (ValidateTest.step_min_max, Some ":PROG:MODE?");
    (ValidateRegister.register_8, None); (ValidateRegister.register_16, None);
    (ValidateRegister.preset, None) ].

(** The world after a validator that asks [q], or nothing. *)
Definition after_question (q : option string) (w : world) : world :=
  match q with
  | None => w
  | Some q => World (device w) (log w ++ [Query q (device w (log w) q)]) (heap w)
  end.

(** The names a caller would give to [list_mode], in the forms the driver
    uses elsewhere. *)
Definition function_names : list string :=
  [ "CURR"; "VOLT"; "POW"; "RES"; "LED";
    "CURRent"; "VOLTage"; "POWer"; "RESistance";
    "CURRENT"; "VOLTAGE"; "POWER"; "RESISTANCE" ].

(** The keys of each mode's own dictionary, in the order of the display in
    its constructor, each with the query the constructor sends for it (that
    of the key's accessor, with step 1 where there is a step; [slew_neg] of
    [ModeCC] is filled by [slew_pos()]). *)
Definition parameters (m : mode) : list (string * string) :=
  match m with
  | CC =>
    [ ("level", ":CURR?"); ("current_range", ":CURR:IRANG?");
      ("voltage_range", ":CURR:VRANG?"); ("slew_pos", ":CURR:SLEW:POS?");
      ("slew_neg", ":CURR:SLEW:POS?") ]
  | CV =>
    [ ("level", ":VOLT?"); ("current_range", ":VOLT:IRANG?");
      ("voltage_range", ":VOLT:VRANG?") ]
  | CP =>
    [ ("level", ":POW?"); ("current_range", ":POW:IRANG?");
      ("voltage_range", ":POW:VRANG?") ]
  | CR =>
    [ ("level", ":RES?"); ("current_range", ":RES:IRANG?");
      ("voltage_range", ":RES:VRANG?"); ("resistance_range", ":RES:RRANG?") ]
  | LED =>
    [ ("voltage", ":LED:VOLT?"); ("current", ":LED:CURR?");
      ("current_range", ":LED:IRANG?"); ("voltage_range", ":LED:VRANG?");
      ("rco", ":LED:RCO?") ]
  | DynCC =>
    [ ("pulse_mode", ":CURR:TRAN:MODE?"); ("a_level", ":CURR:TRAN:ALEV?");
      ("b_level", ":CURR:TRAN:BLEV?"); ("a_width", ":CURR:TRAN:AWID?");
      ("b_width", ":CURR:TRAN:BWID?"); ("current_range", ":CURR:TRAN:IRANG?");
      ("voltage_range", ":CURR:TRAN:VRANG?"); ("slew_pos", ":CURR:TRAN:SLEW:POS?");
      ("slew_neg", ":CURR:TRAN:SLEW:NEG?") ]
  | DynCV =>
    [ ("pulse_mode", ":VOLT:TRAN:MODE?"); ("a_level", ":VOLT:TRAN:ALEV?");
      ("b_level", ":VOLT:TRAN:BLEV?"); ("a_width", ":VOLT:TRAN:AWID?");
      ("b_width", ":VOLT:TRAN:BWID?"); ("current_range", ":VOLT:TRAN:IRANG?");
      ("voltage_range", ":VOLT:TRAN:VRANG?") ]
  | DynCP =>
    [ ("pulse_mode", ":POW:TRAN:MODE?"); ("a_level", ":POW:TRAN:ALEV?");
      ("b_level", ":POW:TRAN:BLEV?"); ("a_width", ":POW:TRAN:AWID?");
      ("b_width", ":POW:TRAN:BWID?"); ("current_range", ":POW:TRAN:IRANG?");
      ("voltage_range", ":POW:TRAN:VRANG?") ]
  | DynCR =>
    [ ("enable", ":LIST:STAT?"); ("pulse_mode", ":RES:TRAN:MODE?");
      ("a_level", ":RES:TRAN:ALEV?"); ("b_level", ":RES:TRAN:BLEV?");
      ("a_width", ":RES:TRAN:AWID?"); ("b_width", ":RES:TRAN:BWID?");
      ("current_range", ":RES:TRAN:IRANG?"); ("voltage_range", ":RES:TRAN:VRANG?");
      ("resistance_range", ":RES:TRAN:RRANG?") ]
  | List_ =>
    [ ("enable", ":LIST:STAT?"); ("list_mode", ":LIST:MODE?");
      ("level", ":LIST:LEV? 1"); ("count", ":LIST:COUN?"); ("step", ":LIST:STEP?");
      ("slew", ":LIST:SLEW? 1"); ("width", ":LIST:WID? 1");
      ("current_range", ":LIST:IRANG?"); ("voltage_range", ":LIST:VRANG?");
      ("resistance_range", ":LIST:RRANG?") ]
  | Battery =>
    [ ("enable", ":BATT:FUNC?"); ("batt_mode", ":BATT:MODE?"); ("level", ":BATT:LEV?");
      ("v_stop", ":BATT:VOLT?"); ("c_stop", ":BATT:CAP?"); ("t_stop", ":BATT:TIM?");
      ("v_stop_state", ":BATT:VOLT:STAT?"); ("c_stop_state", ":BATT:CAP:STAT?");
      ("t_stop_state", ":BATT:TIM:STAT?"); ("current_range", ":BATT:IRANG?");
      ("voltage_range", ":BATT:VRANG?"); ("resistance_range", ":BATT:RRANG?") ]
  | OCP =>
    [ ("enable", ":OCP:FUNC?"); ("start_current", ":OCP:STAR?");
      ("step_current", ":OCP:STEP?"); ("end_current", ":OCP:END?");
      ("min_current", ":OCP:MIN?"); ("max_current", ":OCP:MAX?");
      ("voltage_limit", ":OCP:VOLT?"); ("step_delay", ":OCP:STEP?");
      ("current_range", ":OCP:IRANG?"); ("voltage_range", ":OCP:VRANG?") ]
  | OPP =>
    [ ("enable", ":OPP:FUNC?"); ("start_power", ":OPP:STAR?");
      ("step_power", ":OPP:STEP?"); ("end_power", ":OPP:END?");
      ("min_power", ":OPP:MIN?"); ("max_power", ":OPP:MAX?");
      ("voltage_limit", ":OPP:VOLT?"); ("step_delay", ":OPP:STEP?");
      ("current_range", ":OCP:IRANG?"); ("voltage_range", ":OCP:VRANG?") ]
  | Program =>
    [ ("enable", ":PROG:STAT?"); ("step_mode", ":PROG:MODE? 1");
      ("step", ":PROG:STEP?"); ("level", ":PROG:LEV? 1");
      ("current_range", ":PROG:IRANG? 1"); ("voltage_range", ":PROG:VRANG? 1");
      ("step_short", ":PROG:SHOR? 1"); ("pause", ":PROG:PAUSE? 1");
      ("resistance_range", ":PROG:RRANG? 1"); ("time_on", ":PROG:TIME:ON? 1");
      ("time_off", ":PROG:TIME:OFF? 1"); ("time_delay", ":PROG:TIME:DEL? 1");
      ("max", ":PROG:MAX? 1"); ("min", ":PROG:MIN? 1"); ("test", ":PROG:TEST? 1");
      ("led_current", ":PROG:LED:CURR? 1"); ("led_rco_set", ":PROG:LED:RCO? 1") ]
  end.


(** The entries of [global_input_values] that [Input.__init__] sets. *)
Definition input_parameters : list (string * string) :=
  [ ("input_on", ":INP?"); ("short_on", ":SHOR?") ].

(** [ModeXX(bus)], by the mode. *)
Definition constructor {F : FloatOps} (m : mode) : M bool :=
  match m with
  | CC => ModeCCInit.__init__
  | CV => ModeCVInit.__init__
  | CP => ModeCPInit.__init__
  | CR => ModeCRInit.__init__
  | LED => ModeLED.__init__
  | DynCC => ModeDynamicCC.__init__
  | DynCV => ModeDynamicCV.__init__
  | DynCP => ModeDynamicCP.__init__
  | DynCR => ModeDynamicCR.__init__
  | List_ => ModeList.__init__
  | Battery => ModeBattery.__init__
  | OCP => ModeOCP.__init__
  | OPP => ModeOPP.__init__
  | Program => ModeProgram.__init__
  end.

(** [str(v)] does not raise: the interpreter (3.11 and later) refuses to
    print an [int] of more than 4300 digits and raises [ValueError]; [Py.str]
    is the text where there is one. *)
Definition int_max_str_digits : Z := 4300.

Definition printable {F : FloatOps} (v : Py.pyval) : Prop :=
  match v with
  | Py.PyInt n => Z.abs n < 10 ^ int_max_str_digits
  | _ => True
  end.

(** [e] is a get: it sends the query [q], hands the reply back and changes
    nothing else. *)
Definition asks (e : M (option string)) (q : string) : Prop :=
  forall w,
    e w = (Return (Some (device w (log w) q)),
           World (device w) (log w ++ [Query q (device w (log w) q)]) (heap w)).

(** The event [e] is the query of the entry [kq], and the dictionary [d]
    holds its reply under the key of the entry. *)
Definition filed (d : gmap string (option string)) (e : event) (kq : string * string)
    : Prop :=
  exists r, e = Query kq.2 r /\ d !! kq.1 = Some (Some r).

(** What the constructor of mode [m], run from [w], has done when it ends in
    [ow]: it returned; among the events it added is a sweep, one query for
    each entry of [parameters m] and in their order, and the mode's own
    dictionary holds under each key the reply to the query of that key and
    has no other key; [input_on] and [short_on] of the shared dictionary
    hold replies to [:INP?] and [:SHOR?] received meanwhile. *)
Definition constructed (m : mode) (w : world) (ow : outcome bool * world) : Prop :=
  exists pre sweep post h hp,
    ow = (Return hp, World (device w) (log w ++ pre ++ sweep ++ post) h) /\
    Forall2 (filed (h (mode_values m))) sweep (parameters m) /\
    (forall k, is_Some (h (mode_values m) !! k) -> k ∈ (parameters m).*1) /\
    (forall k q, (k, q) ∈ input_parameters ->
       exists r, Query q r ∈ (pre ++ sweep ++ post)%list /\
         h global_input_values !! k = Some (Some r)).

(** A world later in the session of [w0]: the instrument is the same. *)
Definition later (w0 w : world) : Prop := device w = device w0.

(** What [Input.__init__] leaves, by itself or at the head of another
    constructor: the mode dictionaries as they were in [w], and the two input
    entries read afresh, the replies being among [evs]. *)
Definition refreshed (w : world) (evs : list event)
    (h : dict_ref -> gmap string (option string)) : Prop :=
  (forall m, h (mode_values m) = heap w (mode_values m)) /\
  (forall k q, (k, q) ∈ input_parameters ->
     exists r, Query q r ∈ evs /\ h global_input_values !! k = Some (Some r)).

(** [constructed], for a constructor that ends with its own sweep and leaves
    the dictionaries of the other modes alone. *)
Definition built (m : mode) (w : world) (ow : outcome bool * world) : Prop :=
  exists pre sweep h hp,
    ow = (Return hp, World (device w) (log w ++ pre ++ sweep) h) /\
    Forall2 (filed (h (mode_values m))) sweep (parameters m) /\
    (forall k, is_Some (h (mode_values m) !! k) -> k ∈ (parameters m).*1) /\
    (forall m', m' <> m -> h (mode_values m') = heap w (mode_values m')) /\
    (forall k q, (k, q) ∈ input_parameters ->
       exists r, Query q r ∈ pre /\ h global_input_values !! k = Some (Some r)).

(** The modes whose constructor builds no other mode. *)
Definition plain_mode (m : mode) : bool :=
  match m with CC | CV | CP | CR => false | _ => true end.

(** ** A bench instrument

    It answers a query [X?] with the value of the last write [X value], and
    with [0] when there was none; to [*IDN?] it gives its name. *)
Module Bench.

Definition setting (base : string) (e : event) : option string :=
  match e with
  | Write line =>
    if String.prefix (base ++ " ") line
    then Some (String.substring (String.length base + 1)
                 (String.length line - String.length base - 1) line)
    else None
  | _ => None
  end.

Definition echo (l : list event) (q : string) : string :=
  if String.eqb q "*IDN?" then "Siglent Technologies,SDL1020X-E,SDL13GCC4R0058,1.1.1.21R2"
  else
    let base := String.substring 0 (String.length q - 1) q in
    default "0" (last (omap (setting base) l)).

Definition start : world := World echo [] (fun _ => ∅).

(** An instrument that gives one answer to everything. *)
Definition constant (r : string) : world := World (fun _ _ => r) [] (fun _ => ∅).

(** The bench after [ModeDynamicCC(bus)] has filled the dictionaries. *)
Definition swept : world := (@ModeDynamicCC.__init__ Decimal.ops start).2.

End Bench.

(** * Properties *)

(** ** Reading the log *)

Lemma writes_app l l' : writes (l ++ l') = (writes l ++ writes l')%list.
Proof. apply omap_app. Qed.

Lemma writes_queries qs : forallb is_query qs = true -> writes qs = [].
Proof.
  induction qs as [|e qs IH]; [done|].
  destruct e; simpl; try discriminate. exact IH.
Qed.

Lemma world_eta w : World (device w) (log w ++ []) (heap w) = w.
Proof. destruct w; simpl. by rewrite app_nil_r. Qed.

(** Either the validator computes without the bus, or it asks one question. *)
Ltac solve_reads_only :=
  let value := fresh "value" in
  let w := fresh "w" in
  intros value w;
  first [ exists []; split; [reflexivity | rewrite world_eta; reflexivity]
        | eexists [Query _ _]; split; reflexivity ].

Lemma validators_read_only {F : FloatOps} (_high_power : bool) :
  Forall reads_only (validators _high_power).
Proof.
  unfold validators.
  repeat apply Forall_cons_2; try apply Forall_nil_2; solve_reads_only.
Qed.

(** ** The dispatcher *)
Section Dispatcher.
Context {F : FloatOps}.
Import Py.

Lemma is_none_false (value : pyval) : value <> PyNone -> Command.is_none value = false.
Proof. by destruct value. Qed.

(** A get asks the question once and hands the reply back; nothing else
    changes. *)
Lemma read_write_get query write v target key w :
  Command.read_write query write v PyNone target key w =
  (Return (Some (device w (log w) query)),
   World (device w) (log w ++ [Query query (device w (log w) query)]) (heap w)).
Proof. reflexivity. Qed.

Lemma heap_update_same h d f : heap_update h d f d = f (h d).
Proof. unfold heap_update. by rewrite decide_True. Qed.

Lemma heap_update_other h d f d' : d' <> d -> heap_update h d f d' = h d'.
Proof. intros. unfold heap_update. by rewrite decide_False. Qed.

(** The three ways a set can go, by what the validator does. *)
Lemma read_write_set query write (v : validator) value d key w s w1 :
  value <> PyNone ->
  v value w = (Return (Canon s), w1) ->
  Command.read_write query write (Some v) value (Some d) key w =
  (Return None,
   World (device w1)
     (log w1 ++ [Write (set_line write value);
                 Query query (device w1 (log w1 ++ [Write (set_line write value)]) query)])
     (heap_update (heap w1) d
        (insert key (Some (device w1 (log w1 ++ [Write (set_line write value)]) query))))).
Proof.
  intros Hval E. unfold Command.read_write. rewrite (is_none_false _ Hval).
  unfold bind at 1. rewrite E. cbn. by rewrite <- app_assoc.
Qed.

Lemma read_write_reject query write (v : validator) value target key w e w1 :
  value <> PyNone ->
  v value w = (Return (Rejected e), w1) ->
  Command.read_write query write (Some v) value target key w =
  (Return None,
   World (device w1) (log w1 ++ [Print (Validate.error_text WARNING e)]) (heap w1)).
Proof.
  intros Hval E. unfold Command.read_write. rewrite (is_none_false _ Hval).
  unfold bind at 1. by rewrite E.
Qed.

Lemma read_write_raise query write (v : validator) value target key w x w1 :
  value <> PyNone ->
  v value w = (Raise x, w1) ->
  Command.read_write query write (Some v) value target key w = (Raise x, w1).
Proof.
  intros Hval E. unfold Command.read_write. rewrite (is_none_false _ Hval).
  unfold bind at 1. by rewrite E.
Qed.

(** C1: a set whose candidate the validator accepts writes exactly one line,
    the write template, a space and [str] of the candidate as the caller gave
    it; then it repeats the query, stores the reply in the target dictionary
    under the configured key and returns [None].  Before the write the log
    gains nothing but the validator's own queries. *)
Theorem read_write_accepted (query write : string) (v : validator) (value : pyval)
    (d : dict_ref) (key : string) (w : world) (s : string) :
  value <> PyNone ->
  reads_only v ->
  (v value w).1 = Return (Canon s) ->
  exists qs reply w',
    Command.read_write query write (Some v) value (Some d) key w = (Return None, w') /\
    forallb is_query qs = true /\
    log w' = (log w ++ qs ++ [Write (set_line write value); Query query reply])%list /\
    reply = device w (log w ++ qs ++ [Write (set_line write value)])%list query /\
    writes (log w') = (writes (log w) ++ [set_line write value])%list /\
    heap w' d = <[key := Some reply]> (heap w d) /\
    (forall d', d' <> d -> heap w' d' = heap w d').
Proof.
  intros Hval Hro Hv.
  destruct (Hro value w) as (qs & Hqs & Hw1).
  destruct (v value w) as [o w1] eqn:E. simpl in Hv, Hw1. subst o w1.
  exists qs, (device w (log w ++ qs ++ [Write (set_line write value)])%list query).
  eexists. rewrite (read_write_set _ _ _ _ _ _ _ _ _ Hval E).
  split; [reflexivity|]. cbn [log heap device].
  rewrite <- !app_assoc.
  split; [exact Hqs|].
  split; [reflexivity|].
  split; [reflexivity|].
  split.
  { rewrite !writes_app, (writes_queries _ Hqs). reflexivity. }
  split.
  { by rewrite heap_update_same. }
  intros d' Hd'. by rewrite heap_update_other.
Qed.

(** C2: a set whose candidate the validator rejects prints the warning and
    does nothing else: no line is written, every dictionary is as it was and
    the call returns [None]. *)
Theorem read_write_rejected (query write : string) (v : validator) (value : pyval)
    (target : option dict_ref) (key : string) (w : world) (e : pyerror) :
  value <> PyNone ->
  reads_only v ->
  (v value w).1 = Return (Rejected e) ->
  exists qs w',
    Command.read_write query write (Some v) value target key w = (Return None, w') /\
    forallb is_query qs = true /\
    log w' = (log w ++ qs ++ [Print (Validate.error_text WARNING e)])%list /\
    writes (log w') = writes (log w) /\
    heap w' = heap w.
Proof.
  intros Hval Hro Hv.
  destruct (Hro value w) as (qs & Hqs & Hw1).
  destruct (v value w) as [o w1] eqn:E. simpl in Hv, Hw1. subst o w1.
  exists qs. eexists. rewrite (read_write_reject _ _ _ _ _ _ _ _ _ Hval E).
  split; [reflexivity|]. cbn [log heap].
  rewrite <- !app_assoc.
  split; [exact Hqs|].
  split; [reflexivity|].
  split; [|reflexivity].
  rewrite !writes_app, (writes_queries _ Hqs). cbn. by rewrite app_nil_r.
Qed.

End Dispatcher.

Section DispatcherWitnesses.
#[local] Existing Instance Decimal.ops.
Import Py.

(** The candidate 30.0004 rounds to the upper bound 30.0 of the current
    range; the line on the bus carries 30.0004. *)
Lemma read_write_accepted_witness :
  let value := PyFloat (Decimal.lit 300004 (-4)) in
  (ValidateInput.current value Bench.start).1 = Return (Canon "30.0004") /\
  exists qs reply w',
    Command.read_write ":CURR?" ":CURR" (Some ValidateInput.current) value
      (Some (mode_values CC)) "level" Bench.start = (Return None, w') /\
    forallb is_query qs = true /\
    log w' = (log Bench.start ++ qs ++
              [Write (set_line ":CURR" value); Query ":CURR?" reply])%list /\
    reply = device Bench.start
              (log Bench.start ++ qs ++ [Write (set_line ":CURR" value)])%list ":CURR?" /\
    writes (log w') = (writes (log Bench.start) ++ [set_line ":CURR" value])%list /\
    heap w' (mode_values CC) = <["level" := Some reply]> (heap Bench.start (mode_values CC)) /\
    (forall d', d' <> mode_values CC -> heap w' d' = heap Bench.start d').
Proof.
  intros value.
  assert (H : (ValidateInput.current value Bench.start).1 = Return (Canon "30.0004"))
    by reflexivity.
  split; [exact H|].
  apply (read_write_accepted ":CURR?" ":CURR" ValidateInput.current value
           (mode_values CC) "level" Bench.start "30.0004").
  - discriminate.
  - solve_reads_only.
  - exact H.
Defined.

(** What is written is the candidate as given, not its canonical form:
    [on] is canonically [ON], and [:INP on] goes out. *)
Lemma input_control_writes_raw :
  (ValidateInput.on_off (PyStr "on") Bench.start).1 = Return (Canon "ON") /\
  log (Input.input_control (PyStr "on") Bench.start).2
    = [Write ":INP on"; Query ":INP?" "on"].
Proof. split; reflexivity. Qed.

(** The candidate 35.0 lies above the current range. *)
Lemma read_write_rejected_witness :
  let value := PyFloat (Decimal.lit 350 (-1)) in
  exists e qs w',
    (ValidateInput.current value Bench.start).1 = Return (Rejected e) /\
    Command.read_write ":CURR?" ":CURR" (Some ValidateInput.current) value
      (Some (mode_values CC)) "level" Bench.start = (Return None, w') /\
    forallb is_query qs = true /\
    log w' = (log Bench.start ++ qs ++ [Print (Validate.error_text WARNING e)])%list /\
    writes (log w') = writes (log Bench.start) /\
    heap w' = heap Bench.start.
Proof.
  intros value.
  eexists.
  assert (H : (ValidateInput.current value Bench.start).1 = Return (Rejected _))
    by reflexivity.
  destruct (read_write_rejected ":CURR?" ":CURR" ValidateInput.current value
              (Some (mode_values CC)) "level" Bench.start _
              ltac:(discriminate) ltac:(solve_reads_only) H) as (qs & w' & Hrest).
  exists qs, w'. split; [exact H | exact Hrest].
Defined.

End DispatcherWitnesses.

(** ** Range rules *)
Section RangeRule.
Context {F : FloatOps}.
Import Py.

Lemma float_range_true (x : float) (bounds : num * num) :
  Validate.float_range x bounds = true <->
  num_le_float bounds.1 x = true /\ float_le_num x bounds.2 = true.
Proof. unfold Validate.float_range. apply andb_true_iff. Qed.

Lemma float_rng_tuple_accepts (bounds : num * num) (value : pyval) (round_to : Z) (c : string) :
  is_number value = true ->
  Validate.float_rng_tuple bounds value (Some round_to) = Return (Canon c) <->
  in_range_rounded bounds round_to value /\ c = str value.
Proof.
  intros Hnum. unfold Validate.float_rng_tuple, in_range_rounded. rewrite Hnum.
  destruct (to_float value) as [x|] eqn:Ex.
  - destruct (Validate.float_range (float_round x round_to) bounds) eqn:Er.
    + apply float_range_true in Er. split.
      * intros [= <-]. split; [|done]. by exists x.
      * by intros [_ ->].
    + split; [discriminate|].
      intros [(y & [= <-] & Hlo & Hhi) _].
      assert (Validate.float_range (float_round x round_to) bounds = true)
        by (by apply float_range_true).
      congruence.
  - split; [discriminate|]. by intros [(y & ? & _) _].
Qed.

Lemma float_rng_and_str_tuples_accepts (bounds : num * num) (tokens : list string)
    (value : pyval) (round_to : Z) (c : string) :
  is_number value = true ->
  Validate.float_rng_and_str_tuples (bounds, tokens) value (Some round_to) = Return (Canon c) <->
  in_range_rounded bounds round_to value /\ c = str value.
Proof.
  intros Hnum. unfold Validate.float_rng_and_str_tuples, in_range_rounded. rewrite Hnum.
  cbn [fst snd].
  destruct (to_float value) as [x|] eqn:Ex.
  - destruct (Validate.float_range (float_round x round_to) bounds) eqn:Er.
    + apply float_range_true in Er. split.
      * intros [= <-]. split; [|done]. by exists x.
      * by intros [_ ->].
    + split; [discriminate|].
      intros [(y & [= <-] & Hlo & Hhi) _].
      assert (Validate.float_range (float_round x round_to) bounds = true)
        by (by apply float_range_true).
      congruence.
  - split; [discriminate|]. by intros [(y & ? & _) _].
Qed.

(** C5: a number is accepted by a range rule exactly when, rounded to the
    rule's number of places, it lies in the closed interval [min, max]; the
    string handed back is [str] of the candidate as given, not of the rounded
    value.  A candidate that rounds to [min] or to [max] itself is accepted,
    [<=] being reflexive there. *)
Theorem range_rule_closed_interval (bounds : num * num) (tokens : list string)
    (value : pyval) (round_to : Z) :
  is_number value = true ->
  (forall c,
     Validate.float_rng_and_str_tuples (bounds, tokens) value (Some round_to)
       = Return (Canon c) <->
     in_range_rounded bounds round_to value /\ c = str value) /\
  (forall c,
     Validate.float_rng_tuple bounds value (Some round_to) = Return (Canon c) <->
     in_range_rounded bounds round_to value /\ c = str value) /\
  (forall x lo hi,
     to_float value = Some x ->
     bounds = (Float lo, Float hi) ->
     float_le lo lo = true -> float_le hi hi = true -> float_le lo hi = true ->
     float_round x round_to = lo \/ float_round x round_to = hi ->
     Validate.float_rng_and_str_tuples (bounds, tokens) value (Some round_to)
       = Return (Canon (str value)) /\
     Validate.float_rng_tuple bounds value (Some round_to) = Return (Canon (str value))).
Proof.
  intros Hnum.
  split; [intros c; by apply float_rng_and_str_tuples_accepts|].
  split; [intros c; by apply float_rng_tuple_accepts|].
  intros x lo hi Hx -> Hlo Hhi Hlh Hr.
  assert (Hin : in_range_rounded (Float lo, Float hi) round_to value).
  { exists x. split; [exact Hx|]. cbn.
    destruct Hr as [-> | ->]; by split. }
  split.
  - by apply float_rng_and_str_tuples_accepts.
  - by apply float_rng_tuple_accepts.
Qed.

End RangeRule.

Section RangeRuleWitness.
#[local] Existing Instance Decimal.ops.
Import Py.

(** On exact decimals [<=] is reflexive everywhere, so the interval of every
    range rule is closed at both ends. *)
Lemma decimal_le_refl (a : Decimal.t) : Decimal.le a a = true.
Proof. unfold Decimal.le. apply Z.leb_refl. Qed.

(** The bounds of [ValidateInput.current], three places, and the candidate
    30.0, the upper bound itself. *)
Lemma range_rule_closed_interval_witness :
  let bounds := (Float (Decimal.lit 0 (-1)), Float (Decimal.lit 300 (-1))) in
  let value := PyFloat (Decimal.lit 300 (-1)) in
  is_number value = true /\
  Validate.float_rng_and_str_tuples (bounds, ["MINimum"; "MAXimum"; "DEFault"]) value (Some 3)
    = Return (Canon "30.0") /\
  Validate.float_rng_tuple bounds value (Some 3) = Return (Canon "30.0").
Proof.
  intros bounds value.
  split; [reflexivity|].
  destruct (range_rule_closed_interval bounds ["MINimum"; "MAXimum"; "DEFault"] value 3
              ltac:(reflexivity)) as (_ & _ & Hb).
  apply (Hb (Decimal.lit 300 (-1)) (Decimal.lit 0 (-1)) (Decimal.lit 300 (-1)));
    first [reflexivity | by right].
Defined.

(** Rounding decides, the text does not: 30.0004 rounds to 30.0 and is
    accepted as it stands; 30.0006 rounds to 30.001 and is rejected. *)
Lemma current_range_rounding :
  (ValidateInput.current (PyFloat (Decimal.lit 300004 (-4))) Bench.start).1
    = Return (Canon "30.0004") /\
  ~ in_range_rounded (Float (Decimal.lit 0 (-1)), Float (Decimal.lit 300 (-1))) 3
      (PyFloat (Decimal.lit 300006 (-4))).
Proof.
  split; [reflexivity|].
  intros (x & [= <-] & _ & H). discriminate H.
Qed.

End RangeRuleWitness.

(** ** Strings: case, containment, rendering *)
Section Strings.
Import PyStr.

Lemma append_nil_l (s : string) : EmptyString ++ s = s.
Proof. reflexivity. Qed.

Lemma append_cons (c : ascii) (a b : string) : String c a ++ b = String c (a ++ b).
Proof. reflexivity. Qed.

Lemma append_nil_r (s : string) : s ++ EmptyString = s.
Proof. induction s as [|c s IH]; [done|]. by rewrite append_cons, IH. Qed.

Lemma prefix_app (x b : string) : String.prefix x (x ++ b) = true.
Proof.
  induction x as [|c x IH].
  - by destruct b.
  - rewrite append_cons. simpl. destruct (ascii_dec c c); [exact IH | congruence].
Qed.

Lemma prefix_split (x y : string) :
  String.prefix x y = true -> exists b, y = x ++ b.
Proof.
  revert y. induction x as [|c x IH]; intros y H.
  - by exists y.
  - destruct y as [|c' y]; [discriminate|]. simpl in H.
    destruct (ascii_dec c c') as [->|]; [|discriminate].
    destruct (IH y H) as [b ->]. by exists b.
Qed.

Lemma contains_cons (x : string) (c : ascii) (y : string) :
  contains x (String c y) = if String.prefix x (String c y) then true else contains x y.
Proof. reflexivity. Qed.

(** [x in y] is: [y] is some text, then [x], then some text. *)
Lemma contains_spec (x y : string) :
  contains x y = true <-> exists a b, y = a ++ x ++ b.
Proof.
  split.
  - induction y as [|c y IH].
    + destruct x; [|discriminate]. intros _. by exists EmptyString, EmptyString.
    + rewrite contains_cons.
      destruct (String.prefix x (String c y)) eqn:Ep.
      * intros _. destruct (prefix_split _ _ Ep) as [b Hb].
        exists EmptyString, b. exact Hb.
      * intros H. destruct (IH H) as (a & b & ->). by exists (String c a), b.
  - intros (a & b & ->). induction a as [|c a IH].
    + rewrite append_nil_l. destruct (x ++ b) as [|c r] eqn:E.
      * destruct x; [reflexivity | discriminate].
      * rewrite contains_cons, <- E. by rewrite prefix_app.
    + rewrite append_cons, contains_cons. by destruct (String.prefix x _).
Qed.

Lemma lower_app (a b : string) : lower (a ++ b) = lower a ++ lower b.
Proof.
  induction a as [|c a IH]; [done|].
  rewrite append_cons. cbn [lower]. by rewrite IH, append_cons.
Qed.

Lemma upper_lower_char (c : ascii) : upper_char (lower_char c) = upper_char c.
Proof. by destruct c as [[] [] [] [] [] [] [] []]. Qed.

(** Upper-casing the lower-cased text is upper-casing the text. *)
Lemma upper_lower (s : string) : upper (lower s) = upper s.
Proof.
  induction s as [|c s IH]; [done|].
  cbn [lower upper]. by rewrite upper_lower_char, IH.
Qed.

Lemma app_assoc_str (a b c : string) : (a ++ b) ++ c = a ++ b ++ c.
Proof. induction a as [|x a IH]; [done|]. by rewrite !append_cons, IH. Qed.

Lemma plain_char_repr (q c : ascii) :
  plain_char c = true -> q = apostrophe \/ q = dquote ->
  repr_char q c = String c EmptyString.
Proof.
  intros Hc Hq. revert Hc.
  destruct c as [[] [] [] [] [] [] [] []]; try discriminate;
    destruct Hq as [-> | ->]; intros _; reflexivity.
Qed.

Lemma plain_no_apostrophe (s : string) : plain s = true -> has_char apostrophe s = false.
Proof.
  induction s as [|c s IH]; [done|]. simpl.
  intros [Hc Hs]%andb_true_iff. rewrite (IH Hs).
  revert Hc. by destruct c as [[] [] [] [] [] [] [] []].
Qed.

Lemma plain_repr_body (s : string) : plain s = true -> repr_body apostrophe s = s.
Proof.
  induction s as [|c s IH]; [done|]. simpl.
  intros [Hc Hs]%andb_true_iff.
  by rewrite (plain_char_repr apostrophe c Hc (or_introl eq_refl)), (IH Hs).
Qed.

(** [repr] of a plain text is the text between two apostrophes. *)
Lemma plain_repr (s : string) :
  plain s = true -> repr s = String apostrophe (s ++ String apostrophe EmptyString).
Proof.
  intros H. unfold repr. rewrite (plain_no_apostrophe s H). cbn [andb].
  by rewrite (plain_repr_body s H).
Qed.

Lemma join_contains (sep x : string) (l : list string) :
  In x l -> exists a b, join sep l = a ++ x ++ b.
Proof.
  induction l as [|y l IH]; [done|].
  intros [-> | Hin].
  - destruct l as [|z l].
    + exists EmptyString, EmptyString. by rewrite append_nil_l, append_nil_r.
    + exists EmptyString, (sep ++ join sep (z :: l)). reflexivity.
  - destruct (IH Hin) as (a & b & E). destruct l as [|z l]; [done|].
    exists (y ++ sep ++ a), b.
    change (join sep (y :: z :: l)) with (y ++ sep ++ join sep (z :: l)).
    rewrite E. by rewrite !app_assoc_str.
Qed.

Lemma tuple_contains (x : string) (l : list string) :
  In x l -> exists a b, tuple l = a ++ x ++ b.
Proof.
  intros Hin. destruct l as [|y [|z l]].
  - done.
  - destruct Hin as [-> | []]. by exists "(", ",)".
  - destruct (join_contains ", " x (y :: z :: l) Hin) as (a & b & E).
    exists ("(" ++ a), (b ++ ")"). unfold tuple. rewrite E.
    by rewrite !app_assoc_str.
Qed.

(** Any piece of a plain token occurs, lower-cased, in the lower-cased
    rendering of the tuple. *)
Lemma piece_in_rendering (tokens : list string) (t a b c : string) :
  In t tokens -> plain t = true -> t = a ++ b ++ c ->
  contains (lower b) (lower (str_tuple_of_str tokens)) = true.
Proof.
  intros Hin Hp ->. apply contains_spec.
  destruct (tuple_contains (repr (a ++ b ++ c)) (map repr tokens)) as (l & r & E).
  { apply in_map_iff. by exists (a ++ b ++ c). }
  unfold str_tuple_of_str. rewrite E, (plain_repr _ Hp).
  exists (lower (l ++ String apostrophe a)), (lower (c ++ String apostrophe r)).
  rewrite <- !lower_app. f_equal.
  change (String apostrophe ((a ++ b ++ c) ++ String apostrophe EmptyString))
    with (String apostrophe EmptyString ++ ((a ++ b ++ c) ++ String apostrophe EmptyString)).
  change (String apostrophe a) with (String apostrophe EmptyString ++ a).
  change (String apostrophe r) with (String apostrophe EmptyString ++ r).
  by rewrite !app_assoc_str.
Qed.

End Strings.

(** ** Token rules *)
Section TokenRule.
Context {F : FloatOps}.
Import Py PyStr.

Lemma str_tuple_str (tokens : list string) (s : string) :
  Validate.str_tuple tokens (PyStr s) =
  if contains (lower s) (lower (str_tuple_of_str tokens))
  then Return (Canon (upper s))
  else Return (Rejected (ValueError
         ("ValueError!" ++ Validate.nl ++ "Not in set:(str) " ++ str_tuple_of_str tokens))).
Proof. unfold Validate.str_tuple, Validate.find_element, py_in, contains_str.
  by rewrite upper_lower. Qed.

(** C6, as the code has it: a string is accepted by a token rule exactly when
    its lower-cased text occurs in the lower-cased rendering of the token
    tuple.  So every token is accepted in any letter case, and so is every
    piece of a token, its short form among them.  What is handed back is the
    upper-cased candidate, and candidates that differ in case only get the
    same answer. *)
Theorem token_rule_substring (tokens : list string) (s : string) :
  (Validate.str_tuple tokens (PyStr s) = Return (Canon (upper s)) <->
   contains (lower s) (lower (str_tuple_of_str tokens)) = true) /\
  (forall c, Validate.str_tuple tokens (PyStr s) = Return (Canon c) -> c = upper s) /\
  (forall s', lower s' = lower s ->
     Validate.str_tuple tokens (PyStr s') = Validate.str_tuple tokens (PyStr s) /\
     upper s' = upper s) /\
  (forall t a b c,
     In t tokens -> plain t = true -> t = a ++ b ++ c -> lower s = lower b ->
     Validate.str_tuple tokens (PyStr s) = Return (Canon (upper s))).
Proof.
  rewrite str_tuple_str.
  split; [|split; [|split]].
  - destruct (contains _ _); split; congruence.
  - intros c. destruct (contains _ _); congruence.
  - intros s' Hs. split.
    + rewrite (str_tuple_str tokens s'), Hs.
      by rewrite <- (upper_lower s'), Hs, upper_lower.
    + by rewrite <- (upper_lower s'), Hs, upper_lower.
  - intros t a b c Hin Hp Ht Hs.
    by rewrite Hs, (piece_in_rendering tokens t a b c Hin Hp Ht).
Qed.

End TokenRule.

Section TokenRuleExamples.
#[local] Existing Instance Decimal.ops.
Import Py PyStr.

(** C6, as the spec states it, fails: [curr] is accepted against the tokens of
    [mode_static], and no token is [curr] in any letter case. *)
Lemma token_rule_exact_match_fails :
  let tokens := ["CURRent"; "VOLTage"; "POWer"; "RESistance"; "LED"] in
  ~ ((exists c, Validate.str_tuple tokens (PyStr "curr") = Return (Canon c)) <->
     (exists t, In t tokens /\ lower t = lower "curr")).
Proof.
  intros tokens [H _].
  destruct (H (ex_intro _ "CURR" eq_refl)) as (t & Hin & Ht).
  cbn in Hin.
  repeat (destruct Hin as [<- | Hin]; [vm_compute in Ht; discriminate|]).
  exact Hin.
Qed.

End TokenRuleExamples.

Section TokenRuleFragments.
Context {F : FloatOps}.
Import Py PyStr.

(** The token branch of the two mixed rules is that of [str_tuple]. *)
Lemma token_branch_accepts (tokens : list string) (s c : string) :
  (Validate.str_tuple tokens (PyStr s) = Return (Canon c) <->
   contains (lower s) (lower (str_tuple_of_str tokens)) = true /\ c = upper s) /\
  (forall bounds round_to,
     Validate.float_rng_and_str_tuples (bounds, tokens) (PyStr s) (Some round_to)
       = Return (Canon c) <->
     contains (lower s) (lower (str_tuple_of_str tokens)) = true /\ c = upper s) /\
  (forall ints,
     Validate.int_and_str_tuples (ints, tokens) (PyStr s) = Return (Canon c) <->
     contains (lower s) (lower (str_tuple_of_str tokens)) = true /\ c = upper s).
Proof.
  split; [|split].
  - rewrite str_tuple_str. destruct (contains _ _).
    + split; [intros [= <-]; by split | by intros [_ ->]].
    + split; [discriminate | by intros [? _]].
  - intros bounds round_to. unfold Validate.float_rng_and_str_tuples.
    cbn [is_number snd]. unfold Validate.find_element, py_in, contains_str.
    rewrite upper_lower. destruct (contains _ _).
    + split; [intros [= <-]; by split | by intros [_ ->]].
    + split; [discriminate | by intros [? _]].
  - intros ints. unfold Validate.int_and_str_tuples.
    cbn [as_int snd]. unfold Validate.find_element, py_in, contains_str.
    rewrite upper_lower. destruct (contains _ _).
    + split; [intros [= <-]; by split | by intros [_ ->]].
    + split; [discriminate | by intros [? _]].
Qed.

(** C7: membership is decided by containment in the rendered tuple.  In the
    token branch of each of the three rules that have one, a string is
    accepted exactly when its lower-cased text occurs in the lower-cased
    rendering of the whole tuple, and what is handed back is the upper-cased
    string.  For [pulse_mode] this decides the write: a string that occurs in
    the rendering of [CONTinuous], [PULSe], [TOGGle] is written to the bus as
    it was given and any other string is not.  So the fragment [ont] of
    [CONTinuous] and the text [e', 't], which runs from the end of [PULSe]
    over the separator into [TOGGle], are no tokens, and both are accepted,
    upper-cased, and written. *)
Theorem token_rule_accepts_non_tokens :
  (forall tokens s c,
     Validate.str_tuple tokens (PyStr s) = Return (Canon c) <->
     contains (lower s) (lower (str_tuple_of_str tokens)) = true /\ c = upper s) /\
  (forall bounds tokens round_to s c,
     Validate.float_rng_and_str_tuples (bounds, tokens) (PyStr s) (Some round_to)
       = Return (Canon c) <->
     contains (lower s) (lower (str_tuple_of_str tokens)) = true /\ c = upper s) /\
  (forall ints tokens s c,
     Validate.int_and_str_tuples (ints, tokens) (PyStr s) = Return (Canon c) <->
     contains (lower s) (lower (str_tuple_of_str tokens)) = true /\ c = upper s) /\
  (forall s w,
     let rendering := lower (str_tuple_of_str ["CONTinuous"; "PULSe"; "TOGGle"]) in
     let w' := (ModeDynamicCC.pulse_mode (PyStr s) w).2 in
     (contains (lower s) rendering = true ->
      (ValidateInput.mode_transient (PyStr s) w).1 = Return (Canon (upper s)) /\
      writes (log w') = (writes (log w) ++ [(":CURR:TRAN:MODE " ++ s)%string])%list) /\
     (contains (lower s) rendering = false ->
      (exists e, (ValidateInput.mode_transient (PyStr s) w).1 = Return (Rejected e)) /\
      writes (log w') = writes (log w) /\ heap w' = heap w)) /\
  (let tokens := ["CONTinuous"; "PULSe"; "TOGGle"] in
   let fragment := "ont" in
   let spanning := "e', 't" in
   (forall t, In t tokens -> lower t <> lower fragment /\ lower t <> lower spanning) /\
   Validate.str_tuple tokens (PyStr fragment) = Return (Canon "ONT") /\
   Validate.str_tuple tokens (PyStr spanning) = Return (Canon "E', 'T") /\
   (forall w, writes (log (ModeDynamicCC.pulse_mode (PyStr fragment) w).2)
              = (writes (log w) ++ [":CURR:TRAN:MODE ont"])%list) /\
   (forall w, writes (log (ModeDynamicCC.pulse_mode (PyStr spanning) w).2)
              = (writes (log w) ++ [":CURR:TRAN:MODE e', 't"])%list)).
Proof.
  split; [|split; [|split; [|split]]].
  - intros tokens s c. apply token_branch_accepts.
  - intros bounds tokens round_to s c.
    apply (proj1 (proj2 (token_branch_accepts tokens s c))).
  - intros ints tokens s c.
    apply (proj2 (proj2 (token_branch_accepts tokens s c))).
  - intros s w rendering w'.
    assert (Hne : PyStr s <> PyNone) by discriminate.
    assert (Hv : ValidateInput.mode_transient (PyStr s) w
                 = (Validate.str_tuple ["CONTinuous"; "PULSe"; "TOGGle"] (PyStr s), w))
      by reflexivity.
    rewrite str_tuple_str in Hv. fold rendering in Hv.
    split; intros Hc; rewrite Hc in Hv.
    + split; [by rewrite Hv|]. unfold w', ModeDynamicCC.pulse_mode.
      rewrite (read_write_set _ _ _ _ _ _ _ _ _ Hne Hv).
      cbn [snd log]. by rewrite writes_app.
    + split; [rewrite Hv; by eexists|]. unfold w', ModeDynamicCC.pulse_mode.
      rewrite (read_write_reject _ _ _ _ _ _ _ _ _ Hne Hv).
      cbn [snd log heap]. rewrite writes_app. cbn. by rewrite app_nil_r.
  - intros tokens fragment spanning.
    split; [|split; [|split; [|split]]].
    + intros t Hin. cbn in Hin.
      repeat (destruct Hin as [<- | Hin]; [split; vm_compute; discriminate|]).
      destruct Hin.
    + reflexivity.
    + reflexivity.
    + intros w. unfold ModeDynamicCC.pulse_mode.
      rewrite (read_write_set _ _ _ _ _ _ w "ONT" w); [|discriminate|reflexivity].
      cbn [snd log]. by rewrite writes_app.
    + intros w. unfold ModeDynamicCC.pulse_mode.
      rewrite (read_write_set _ _ _ _ _ _ w "E', 'T" w); [|discriminate|reflexivity].
      cbn [snd log]. by rewrite writes_app.
Qed.

End TokenRuleFragments.

Section TokenRuleFragmentsWitness.
#[local] Existing Instance Decimal.ops.
Import Py PyStr.

(** [ont] is written; [xyz], which occurs nowhere in the rendering, is not. *)
Lemma token_rule_accepts_non_tokens_witness :
  writes (log (ModeDynamicCC.pulse_mode (PyStr "ont") Bench.start).2)
    = [":CURR:TRAN:MODE ont"] /\
  writes (log (ModeDynamicCC.pulse_mode (PyStr "xyz") Bench.start).2) = [].
Proof.
  destruct (@token_rule_accepts_non_tokens Decimal.ops) as (_ & _ & _ & H & _).
  split.
  - exact (proj2 (proj1 (H "ont" Bench.start) eq_refl)).
  - exact (proj1 (proj2 (proj2 (H "xyz" Bench.start) eq_refl))).
Defined.

End TokenRuleFragmentsWitness.

(** ** Enabling a mode and switching the input on *)
Section ModeOn.
Context {F : FloatOps}.
Import Py.

Lemma bind_run {A B} (c : M A) (k : A -> M B) (w : world) (a : A) (w1 : world) :
  c w = (Return a, w1) -> bind c k w = k a w1.
Proof. intros E. unfold bind. by rewrite E. Qed.

(** [input_control('ON')]: one write, one query, one entry stored. *)
Lemma input_control_on (w : world) :
  let r := device w (log w ++ [Write ":INP ON"]) ":INP?" in
  Input.input_control (PyStr "ON") w =
  (Return None,
   World (device w) (log w ++ [Write ":INP ON"; Query ":INP?" r])
     (heap_update (heap w) global_input_values (insert "input_on" (Some r)))).
Proof.
  unfold Input.input_control.
  by rewrite (read_write_set _ _ _ _ _ _ w "ON" w).
Qed.

(** [ModeStatic._mode(token)] for an accepted token: the write, the query of
    [read_write], and the second query whose reply is stored behind
    [STATIC]. *)
Lemma static_mode_set (token s : string) (w : world) :
  ValidateInput.mode_static (PyStr token) w = (Return (Canon s), w) ->
  let line := set_line ":FUNC" (PyStr token) in
  let r1 := device w (log w ++ [Write line]) ":FUNC?" in
  let r2 := device w (log w ++ [Write line; Query ":FUNC?" r1]) ":FUNC?" in
  ModeStatic._mode (PyStr token) w =
  (Return None,
   World (device w) (log w ++ [Write line; Query ":FUNC?" r1; Query ":FUNC?" r2])
     (heap_update
        (heap_update (heap w) global_input_values (insert "mode" (Some r1)))
        global_input_values (insert "mode" (Some ("STATIC " ++ r2))))).
Proof.
  intros E line r1 r2. unfold ModeStatic._mode.
  assert (Hne : PyStr token <> PyNone) by discriminate.
  rewrite (bind_run _ _ _ _ _ (read_write_set _ _ _ _ _ _ w s w Hne E)).
  cbn -[set_line]. by rewrite <- !app_assoc.
Qed.

(** The private helper is more than the dispatcher: when the token is
    rejected, [read_write] prints and returns [None], and [_mode] then asks
    again and stores the reply behind [STATIC] all the same.  [enable()]
    never gets there, its tokens are accepted. *)
Lemma static_mode_rejected (token : string) (e : pyerror) (w : world) :
  ValidateInput.mode_static (PyStr token) w = (Return (Rejected e), w) ->
  let warning := Print (Validate.error_text WARNING e) in
  let r := device w (log w ++ [warning]) ":FUNC?" in
  ModeStatic._mode (PyStr token) w =
  (Return None,
   World (device w) (log w ++ [warning; Query ":FUNC?" r])
     (heap_update (heap w) global_input_values (insert "mode" (Some ("STATIC " ++ r))))).
Proof.
  intros E warning r. unfold ModeStatic._mode.
  assert (Hne : PyStr token <> PyNone) by discriminate.
  rewrite (bind_run _ _ _ _ _ (read_write_reject _ _ _ _ _ _ _ _ _ Hne E)).
  cbn. by rewrite <- !app_assoc.
Qed.

Lemma dynamic_mode_set (token s : string) (w : world) :
  ValidateInput.mode_dynamic (PyStr token) w = (Return (Canon s), w) ->
  let line := set_line ":FUNC:TRAN" (PyStr token) in
  let r1 := device w (log w ++ [Write line]) ":FUNC:TRAN?" in
  let r2 := device w (log w ++ [Write line; Query ":FUNC:TRAN?" r1]) ":FUNC:TRAN?" in
  ModeDynamic._mode (PyStr token) w =
  (Return None,
   World (device w)
     (log w ++ [Write line; Query ":FUNC:TRAN?" r1; Query ":FUNC:TRAN?" r2])
     (heap_update
        (heap_update (heap w) global_input_values (insert "mode" (Some r1)))
        global_input_values (insert "mode" (Some ("DYNAMIC " ++ r2))))).
Proof.
  intros E line r1 r2. unfold ModeDynamic._mode.
  assert (Hne : PyStr token <> PyNone) by discriminate.
  rewrite (bind_run _ _ _ _ _ (read_write_set _ _ _ _ _ _ w s w Hne E)).
  cbn -[set_line]. by rewrite <- !app_assoc.
Qed.

(** What [enable] does in every mode: it returns, it writes the one line
    that selects the function, and it leaves an entry under [mode] in the
    shared dictionary. *)
Lemma enable_run (m : mode) (w : world) :
  exists evs h,
    enable m w = (Return tt, World (device w) (log w ++ evs) h) /\
    writes evs = [function_select m] /\
    is_Some (h global_input_values !! "mode").
Proof.
  assert (Hst : forall token,
             ValidateInput.mode_static (PyStr token) w = (Return (Canon token), w) ->
             exists evs h,
               (do! ModeStatic._mode (PyStr token) in ret tt) w
                 = (Return tt, World (device w) (log w ++ evs) h) /\
               writes evs = [set_line ":FUNC" (PyStr token)] /\
               is_Some (h global_input_values !! "mode")).
  { intros token E. eexists _, _. split.
    - by rewrite (bind_run _ _ _ _ _ (static_mode_set _ _ w E)).
    - split; [reflexivity|]. rewrite heap_update_same, lookup_insert_eq. eauto. }
  assert (Hdy : forall token,
             ValidateInput.mode_dynamic (PyStr token) w = (Return (Canon token), w) ->
             exists evs h,
               (do! ModeDynamic._mode (PyStr token) in ret tt) w
                 = (Return tt, World (device w) (log w ++ evs) h) /\
               writes evs = [set_line ":FUNC:TRAN" (PyStr token)] /\
               is_Some (h global_input_values !! "mode")).
  { intros token E. eexists _, _. split.
    - by rewrite (bind_run _ _ _ _ _ (dynamic_mode_set _ _ w E)).
    - split; [reflexivity|]. rewrite heap_update_same, lookup_insert_eq. eauto. }
  destruct m;
    [ exact (Hst "CURR" eq_refl) | exact (Hst "VOLT" eq_refl)
    | exact (Hst "POW" eq_refl) | exact (Hst "RES" eq_refl)
    | exact (Hst "LED" eq_refl)
    | exact (Hdy "CURR" eq_refl) | exact (Hdy "VOLT" eq_refl)
    | exact (Hdy "POW" eq_refl) | exact (Hdy "RES" eq_refl)
    | .. ].
  all: eexists _, _; (split;
         [ cbn; rewrite <- ?app_assoc; reflexivity
         | split; [reflexivity|];
           unfold heap_update; cbn; repeat case_decide; try congruence;
           rewrite lookup_insert_eq; eauto ]).
Qed.

(** C9: in every mode [on()] is [enable()] followed by the input switch.
    [enable()] writes the line that selects the function and sets the
    shared [mode] entry; [on()] as a whole writes that line and then
    [:INP ON], these two and in this order. *)
Theorem on_enables_then_input_on (m : mode) (w : world) :
  on m = (do! enable m in Input.on) /\
  (exists w1,
     enable m w = (Return tt, w1) /\
     writes (log w1) = (writes (log w) ++ [function_select m])%list /\
     is_Some (heap w1 global_input_values !! "mode")) /\
  (exists w2,
     on m w = (Return tt, w2) /\
     writes (log w2) = (writes (log w) ++ [function_select m; ":INP ON"])%list).
Proof.
  assert (Hon : on m = (do! enable m in Input.on)) by (by destruct m).
  destruct (enable_run m w) as (evs & h & He & Hw & Hm).
  split; [exact Hon|]. split.
  - eexists. split; [exact He|]. split; [|exact Hm].
    cbn [log]. by rewrite writes_app, Hw.
  - eexists. split.
    + rewrite Hon, (bind_run _ _ _ _ _ He). unfold Input.on.
      by rewrite (bind_run _ _ _ _ _ (input_control_on _)).
    + cbn [log]. rewrite !writes_app, Hw. by rewrite <- app_assoc.
Qed.

End ModeOn.

(** ** Frames: what a call leaves alone *)
Section Frames.
Context {F : FloatOps}.
Import Py.

Lemma keeps_ret {A} d k (a : A) : keeps d k (ret a).
Proof. by intros w. Qed.

Lemma keeps_bind {A B} d k (c : M A) (f : A -> M B) :
  keeps d k c -> (forall a, keeps d k (f a)) -> keeps d k (bind c f).
Proof.
  intros Hc Hf w. unfold bind. specialize (Hc w).
  destruct (c w) as [[a|x] w1]; simpl in *.
  - by rewrite Hf.
  - exact Hc.
Qed.

(** The events a call adds, once its log is known. *)
Lemma added_app {A} (c : M A) (w : world) (evs : list event) :
  log (c w).2 = (log w ++ evs)%list -> added c w = evs.
Proof. unfold added. intros ->. apply drop_app_length. Qed.

(** The four ways a call of [read_write] can end, with a validator that only
    reads: the log grows, the device stays, and the heap is as before or has
    the reply to the last query under the configured key. *)
Lemma read_write_cases query write (v : validator) value d key w :
  reads_only v ->
  exists evs,
    (Command.read_write query write (Some v) value (Some d) key w).2
      = World (device w) (log w ++ evs) (heap w) \/
    exists qs r,
      value <> PyNone /\
      evs = (qs ++ [Write (set_line write value); Query query r])%list /\
      (Command.read_write query write (Some v) value (Some d) key w).2
        = World (device w) (log w ++ evs)
            (heap_update (heap w) d (insert key (Some r))).
Proof.
  intros Hro. destruct value eqn:Ev.
  1: { eexists. left. reflexivity. }
  all: rewrite <- Ev; assert (Hne : value <> PyNone) by (by rewrite Ev);
    destruct (Hro value w) as (qs & Hqs & Hw1);
    destruct (v value w) as [[[cs|er]|exc] w1] eqn:E; simpl in Hw1; subst w1.
  all: first
    [ rewrite (read_write_set _ _ _ _ _ _ _ _ _ Hne E);
      eexists; right; eexists qs, _; split; [exact Hne|]; split; [reflexivity|];
      cbn [snd device log heap]; by rewrite <- !app_assoc
    | rewrite (read_write_reject _ _ _ _ _ _ _ _ _ Hne E);
      eexists; left; cbn [snd device log heap]; by rewrite <- !app_assoc
    | rewrite (read_write_raise _ _ _ _ _ _ _ _ _ Hne E);
      eexists; left; reflexivity ].
Qed.

(** A call of [read_write] touches the configured key of the target
    dictionary, and nothing else. *)
Lemma read_write_keeps query write (v : validator) value d key d' k' :
  reads_only v -> (d', k') <> (d, key) ->
  keeps d' k' (Command.read_write query write (Some v) value (Some d) key).
Proof.
  intros Hro Hne w.
  destruct (read_write_cases query write v value d key w Hro)
    as (evs & [-> | (qs & r & _ & _ & ->)]); [done|].
  cbn [heap]. unfold heap_update. case_decide; [subst d'|done].
  apply lookup_insert_ne. congruence.
Qed.

Lemma read_write_stores_reply query write (v : validator) value d key :
  reads_only v ->
  stores_only_replies (Command.read_write query write (Some v) value (Some d) key).
Proof.
  intros Hro w d' k' x Hx.
  destruct (read_write_cases query write v value d key w Hro)
    as (evs & [E | (qs & r & _ & Hevs & E)]).
  - left. by rewrite E in Hx.
  - rewrite E in Hx. cbn [heap] in Hx. unfold heap_update in Hx.
    case_decide; [subst d'|by left].
    destruct (decide (key = k')) as [<-|Hk].
    + rewrite lookup_insert_eq in Hx. injection Hx as <-.
      right. exists r. split; [done|].
      rewrite (added_app _ w evs) by (by rewrite E).
      rewrite Hevs. unfold replies. rewrite omap_app.
      apply elem_of_app. right. cbn. set_solver.
    + left. by rewrite lookup_insert_ne in Hx.
Qed.

End Frames.

(** ** Composite operations *)
Section Composite.
Context {F : FloatOps}.
Import Py.

(** C10: [set_a_and_b] is the four calls [a_level], [b_level], [a_width],
    [b_width] in this order, each on its own.  When [a] is accepted and [b] is
    rejected, the write of [a] and the query that confirms it are done before
    [b] is looked at, and nothing takes them back: the warning for [b] is
    printed, the two widths are still set, and at the end the dictionary holds
    the reply for [a_level] and what it held before for [b_level]. *)
Theorem set_a_and_b_not_transactional (a b wa wb : pyval) (w : world)
    (sa : string) (e : pyerror) :
  b <> PyNone ->
  (ValidateInput.current a w).1 = Return (Canon sa) ->
  (ValidateInput.current b w).1 = Return (Rejected e) ->
  let line := set_line ":CURR:TRAN:ALEV" a in
  let reply := device w (log w ++ [Write line]) ":CURR:TRAN:ALEV?" in
  let after_b :=
    World (device w)
      (log w ++ [Write line; Query ":CURR:TRAN:ALEV?" reply;
                 Print (Validate.error_text WARNING e)])
      (heap_update (heap w) (mode_values DynCC) (insert "a_level" (Some reply))) in
  ModeDynamicCC.set_a_and_b a b wa wb =
    (do! ModeDynamicCC.a_level a in do! ModeDynamicCC.b_level b in
     do! ModeDynamicCC.a_width wa in do! ModeDynamicCC.b_width wb in ret tt) /\
  ModeDynamicCC.set_a_and_b a b wa wb w =
    (do! ModeDynamicCC.a_width wa in do! ModeDynamicCC.b_width wb in ret tt) after_b /\
  heap (ModeDynamicCC.set_a_and_b a b wa wb w).2 (mode_values DynCC) !! "a_level"
    = Some (Some reply) /\
  heap (ModeDynamicCC.set_a_and_b a b wa wb w).2 (mode_values DynCC) !! "b_level"
    = heap w (mode_values DynCC) !! "b_level".
Proof.
  intros Hb Ha He line reply after_b.
  assert (Hna : a <> PyNone) by (intros ->; discriminate Ha).
  assert (Ea : ValidateInput.current a w = (Return (Canon sa), w))
    by (by rewrite <- Ha).
  set (w_a := World (device w) (log w ++ [Write line; Query ":CURR:TRAN:ALEV?" reply])
                (heap_update (heap w) (mode_values DynCC) (insert "a_level" (Some reply)))).
  assert (Eb : ValidateInput.current b w_a = (Return (Rejected e), w_a))
    by (by rewrite <- He).
  assert (Hrun : ModeDynamicCC.set_a_and_b a b wa wb w =
            (do! ModeDynamicCC.a_width wa in do! ModeDynamicCC.b_width wb in ret tt) after_b).
  { unfold ModeDynamicCC.set_a_and_b, ModeDynamicCC.a_level, ModeDynamicCC.b_level.
    rewrite (bind_run _ _ _ _ _ (read_write_set _ _ _ _ _ _ _ _ _ Hna Ea)).
    fold line reply w_a.
    rewrite (bind_run _ _ _ _ _ (read_write_reject _ _ _ _ _ _ _ _ _ Hb Eb)).
    unfold w_a, after_b. cbn [device log heap]. by rewrite <- app_assoc. }
  assert (Hk : forall k, k = "a_level" \/ k = "b_level" ->
            keeps (mode_values DynCC) k
              (do! ModeDynamicCC.a_width wa in do! ModeDynamicCC.b_width wb in ret tt)).
  { intros k Hk. apply keeps_bind; [|intros _; apply keeps_bind; [|intros _; apply keeps_ret]].
    - apply read_write_keeps; [solve_reads_only|]. destruct Hk as [-> | ->]; congruence.
    - apply read_write_keeps; [solve_reads_only|]. destruct Hk as [-> | ->]; congruence. }
  split; [reflexivity|]. split; [exact Hrun|].
  rewrite Hrun, !Hk by auto. unfold after_b. cbn [heap].
  rewrite heap_update_same. split.
  - apply lookup_insert_eq.
  - by apply lookup_insert_ne.
Qed.

End Composite.

Section CompositeWitness.
#[local] Existing Instance Decimal.ops.
Import Py.

(** On the swept bench: [a] is 1.5, [b] is 31, above the 30.0 of the current
    range.  Afterwards [a_level] reads 1.5 and [b_level] still reads 0. *)
Lemma set_a_and_b_not_transactional_witness :
  let a := PyFloat (Decimal.lit 15 (-1)) in
  let b := PyInt 31 in
  let wa := PyFloat (Decimal.lit 2 (-3)) in
  let wb := PyStr "MIN" in
  let w' := (ModeDynamicCC.set_a_and_b a b wa wb Bench.swept).2 in
  heap w' (mode_values DynCC) !! "a_level" = Some (Some "1.5") /\
  heap w' (mode_values DynCC) !! "b_level" = Some (Some "0") /\
  writes (added (ModeDynamicCC.set_a_and_b a b wa wb) Bench.swept)
    = [":CURR:TRAN:ALEV 1.5"; ":CURR:TRAN:AWID 0.002"; ":CURR:TRAN:BWID MIN"].
Proof.
  intros a b wa wb w'.
  destruct (set_a_and_b_not_transactional a b wa wb Bench.swept "1.5"
              (ValueError
                 ("ValueError!" ++ Validate.nl ++
                  "Not in range:(float, int) (0.0, 30.0)" ++ Validate.nl ++
                  "or in set:(str) ('MINimum', 'MAXimum', 'DEFault')"))
              ltac:(discriminate) eq_refl eq_refl) as (_ & _ & Ha & Hb).
  split; [exact Ha|]. split; [exact Hb|]. by vm_compute.
Defined.

End CompositeWitness.

(** ** Where the values of the dictionaries come from *)
Section Mirror.
Context {F : FloatOps}.
Import Py.

Lemma stores_bind {A B} (c : M A) (f : A -> M B) :
  stores_only_replies c -> (forall a, stores_only_replies (f a)) ->
  (forall w, exists evs, log (c w).2 = (log w ++ evs)%list) ->
  (forall a w, exists evs, log (f a w).2 = (log w ++ evs)%list) ->
  stores_only_replies (bind c f).
Proof.
  intros Hc Hf Lc Lf w d k x. unfold added, bind.
  specialize (Hc w d k). specialize (Lc w). unfold added in Hc.
  destruct (c w) as [[a|exc] w1] eqn:E; cbn [snd] in *; [|exact (Hc x)].
  intros Hx. destruct Lc as [evs1 L1].
  destruct (Lf a w1) as [evs2 L2].
  specialize (Hf a w1 d k x Hx). unfold added in Hf.
  rewrite L2, drop_app_length in Hf. rewrite L2, L1, <- app_assoc, drop_app_length.
  rewrite L1, drop_app_length in Hc.
  unfold replies in *. rewrite omap_app.
  destruct Hf as [Hold | (r & -> & Hr)].
  - destruct (Hc x Hold) as [? | (r & -> & Hr)]; [by left|].
    right. exists r. split; [done|]. apply elem_of_app. by left.
  - right. exists r. split; [done|]. apply elem_of_app. by right.
Qed.

(** [enable()] of a static mode stores [STATIC] and the reply to the last
    query; of a dynamic mode, [DYNAMIC] and that reply. *)
Lemma enable_label (m : mode) (w : world) :
  match m with
  | CC | CV | CP | CR | LED =>
    exists r, last (log (enable m w).2) = Some (Query ":FUNC?" r) /\
      heap (enable m w).2 global_input_values !! "mode" = Some (Some ("STATIC " ++ r))
  | DynCC | DynCV | DynCP | DynCR =>
    exists r, last (log (enable m w).2) = Some (Query ":FUNC:TRAN?" r) /\
      heap (enable m w).2 global_input_values !! "mode" = Some (Some ("DYNAMIC " ++ r))
  | List_ => heap (enable m w).2 global_input_values !! "mode" = Some (Some "LIST")
  | Battery => heap (enable m w).2 global_input_values !! "mode" = Some (Some "BATTERY")
  | OCP | OPP => heap (enable m w).2 global_input_values !! "mode" = Some (Some "OCP")
  | Program => heap (enable m w).2 global_input_values !! "mode" = Some (Some "Program")
  end.
Proof.
  assert (Hst : forall token,
             ValidateInput.mode_static (PyStr token) w = (Return (Canon token), w) ->
             let w' := ((do! ModeStatic._mode (PyStr token) in ret tt) w).2 in
             exists r, last (log w') = Some (Query ":FUNC?" r) /\
               heap w' global_input_values !! "mode" = Some (Some ("STATIC " ++ r))).
  { intros token E. cbn zeta.
    rewrite (bind_run _ _ _ _ _ (static_mode_set _ _ w E)). cbn [ret snd log heap].
    eexists. split.
    - by rewrite last_app_cons.
    - by rewrite heap_update_same, lookup_insert_eq. }
  assert (Hdy : forall token,
             ValidateInput.mode_dynamic (PyStr token) w = (Return (Canon token), w) ->
             let w' := ((do! ModeDynamic._mode (PyStr token) in ret tt) w).2 in
             exists r, last (log w') = Some (Query ":FUNC:TRAN?" r) /\
               heap w' global_input_values !! "mode" = Some (Some ("DYNAMIC " ++ r))).
  { intros token E. cbn zeta.
    rewrite (bind_run _ _ _ _ _ (dynamic_mode_set _ _ w E)). cbn [ret snd log heap].
    eexists. split.
    - by rewrite last_app_cons.
    - by rewrite heap_update_same, lookup_insert_eq. }
  destruct m;
    [ exact (Hst "CURR" eq_refl) | exact (Hst "VOLT" eq_refl)
    | exact (Hst "POW" eq_refl) | exact (Hst "RES" eq_refl)
    | exact (Hst "LED" eq_refl)
    | exact (Hdy "CURR" eq_refl) | exact (Hdy "VOLT" eq_refl)
    | exact (Hdy "POW" eq_refl) | exact (Hdy "RES" eq_refl)
    | .. ].
  all: cbn; unfold heap_update; repeat case_decide; try congruence;
    by rewrite lookup_insert_eq.
Qed.

Lemma bind_assoc_run {A B C} (c : M A) (f : A -> M B) (g : B -> M C) (w : world) :
  bind (bind c f) g w = bind c (fun a => bind (f a) g) w.
Proof. unfold bind. by destruct (c w) as [[a|exc] w1]. Qed.

Lemma bind_get {B} query write v target key (k : option string -> M B) (w : world) :
  bind (Command.read_write query write v PyNone target key) k w =
  k (Some (device w (log w) query))
    (World (device w) (log w ++ [Query query (device w (log w) query)]) (heap w)).
Proof. reflexivity. Qed.

Lemma bind_dict_set {B} d key v (k : unit -> M B) (w : world) :
  bind (dict_set d key v) k w =
  k tt (World (device w) (log w) (heap_update (heap w) d (insert key v))).
Proof. reflexivity. Qed.

Lemma bind_dict_assign {B} d m (k : unit -> M B) (w : world) :
  bind (dict_assign d m) k w =
  k tt (World (device w) (log w) (heap_update (heap w) d (fun _ => m))).
Proof. reflexivity. Qed.

Lemma bind_ret_run {A B} (a : A) (k : A -> M B) (w : world) : bind (ret a) k w = k a w.
Proof. reflexivity. Qed.

(** One step of a constructor: a get, whose reply becomes a variable, or an
    assignment. *)
Ltac sweep_step w :=
  cbv beta iota;
  first
    [ rewrite bind_assoc_run
    | rewrite bind_ret_run
    | rewrite bind_get; cbn [device log heap];
      match goal with
      | |- context [device w ?l ?q] =>
        let r := fresh "r" in set (r := device w l q); clearbody r
      end
    | rewrite bind_dict_set; cbn [device log heap]
    | rewrite bind_dict_assign; cbn [device log heap] ].

(** The run of [ModeDynamicCC(bus)], when the reply to [*IDN?] has a second
    field: thirteen queries, and the dictionaries built from the replies. *)
Lemma dynamic_cc_init_run (w : world) (r0 x model : string) (rest : list string)
    (P : outcome bool * world -> Prop) :
  device w (log w) "*IDN?" = r0 ->
  PyStr.split "," r0 = x :: model :: rest ->
  (forall r1 r2 r3 r4 r5 r6 r7 r8 r9 r10 r11 r12,
     P (Return (Validate.find_element model ["SDL1030X-E"; "SDL1030X"]),
        World (device w)
          (log w ++
           [Query "*IDN?" r0; Query ":INP?" r1; Query ":SHOR?" r2;
            Query ":FUNC:TRAN?" r3; Query ":CURR:TRAN:MODE?" r4;
            Query ":CURR:TRAN:ALEV?" r5; Query ":CURR:TRAN:BLEV?" r6;
            Query ":CURR:TRAN:AWID?" r7; Query ":CURR:TRAN:BWID?" r8;
            Query ":CURR:TRAN:IRANG?" r9; Query ":CURR:TRAN:VRANG?" r10;
            Query ":CURR:TRAN:SLEW:POS?" r11; Query ":CURR:TRAN:SLEW:NEG?" r12])
          (heap_update
             (heap_update
                (heap_update
                   (heap_update
                      (heap_update (heap w) global_input_values
                         (insert "input_on" (Some r1)))
                      global_input_values (insert "short_on" (Some r2)))
                   global_input_values (insert "mode" (Some r3)))
                (mode_values DynCC) (fun _ => ∅))
             (mode_values DynCC)
             (fun _ => list_to_map
                [("pulse_mode", Some r4); ("a_level", Some r5); ("b_level", Some r6);
                 ("a_width", Some r7); ("b_width", Some r8);
                 ("current_range", Some r9); ("voltage_range", Some r10);
                 ("slew_pos", Some r11); ("slew_neg", Some r12)])))) ->
  P (ModeDynamicCC.__init__ w).
Proof.
  intros E0 Es HP.
  assert (Hv : ValidateInput.__init__ w =
            (Return (Validate.find_element model ["SDL1030X-E"; "SDL1030X"]),
             World (device w) (log w ++ [Query "*IDN?" r0]) (heap w))).
  { unfold ValidateInput.__init__, bind, Bus.query. cbn [text]. by rewrite E0, Es. }
  clear E0 Es.
  unfold ModeDynamicCC.__init__, ModeDynamic.__init__, Input.__init__.
  rewrite !bind_assoc_run. rewrite (bind_run _ _ _ _ _ Hv). clear Hv.
  unfold Input.input_control, Input._short, ModeDynamic._mode,
    ModeDynamicCC.pulse_mode, ModeDynamicCC.a_level, ModeDynamicCC.b_level,
    ModeDynamicCC.a_width, ModeDynamicCC.b_width, ModeDynamicCC.current_range,
    ModeDynamicCC.voltage_range, ModeDynamicCC.slew_pos, ModeDynamicCC.slew_neg.
  rewrite ?bind_assoc_run.
  repeat sweep_step w.
  cbv beta iota. unfold ret. rewrite <- !app_assoc. cbn [app].
  apply HP.
Qed.

(** The constructor of [ModeDynamicCC], when the reply to [*IDN?] has a
    second field: it returns, it only asks, and every key it sets holds the
    reply to the query of that key. *)
Lemma dynamic_cc_sweep (w : world) (x model : string) (rest : list string) :
  PyStr.split "," (device w (log w) "*IDN?") = x :: model :: rest ->
  exists evs h hp,
    ModeDynamicCC.__init__ w = (Return hp, World (device w) (log w ++ evs) h) /\
    forallb is_query evs = true /\
    (forall k q, (k, q) ∈ dynamic_cc_parameters ->
       exists r, Query q r ∈ evs /\ h (mode_values DynCC) !! k = Some (Some r)) /\
    (forall k q, (k, q) ∈ dynamic_input_parameters ->
       exists r, Query q r ∈ evs /\ h global_input_values !! k = Some (Some r)).
Proof.
  intros Es.
  apply (dynamic_cc_init_run w _ x model rest
           (fun ow => exists evs h hp,
              ow = (Return hp, World (device w) (log w ++ evs) h) /\ _) eq_refl Es).
  intros r1 r2 r3 r4 r5 r6 r7 r8 r9 r10 r11 r12.
  eexists _, _, _. split; [reflexivity|].
  split; [reflexivity|]. split.
  - intros k q Hin. unfold dynamic_cc_parameters in Hin.
    repeat (apply elem_of_cons in Hin as [[= -> ->] | Hin]);
      [ .. | by apply elem_of_nil in Hin ].
    all: eexists; (split; [ | rewrite heap_update_same; by simplify_map_eq ]);
      repeat first [ apply list_elem_of_here | apply list_elem_of_further ].
  - intros k q Hin. unfold dynamic_input_parameters in Hin.
    repeat (apply elem_of_cons in Hin as [[= -> ->] | Hin]);
      [ .. | by apply elem_of_nil in Hin ].
    all: eexists; (split;
           [ | rewrite ?heap_update_other by done; rewrite ?heap_update_same;
               by simplify_map_eq ]);
      repeat first [ apply list_elem_of_here | apply list_elem_of_further ].
Qed.

End Mirror.

Section MirrorSources.
Context {F : FloatOps}.
Import Py.

(** [step_time] and [step_delay] call [float_rng_and_str_tuples] without
    [round_to], so every set through them raises, whatever the candidate. *)
Lemma step_time_raises (value : pyval) (w : world) :
  ValidateTest.step_time value w
    = (Raise (MissingArgument "float_rng_and_str_tuples" "round_to"), w) /\
  ValidateTest.step_delay value w
    = (Raise (MissingArgument "float_rng_and_str_tuples" "round_to"), w).
Proof. split; reflexivity. Qed.

(** C4 fails at [ModeOCP.step_delay(1000)].  The candidate is outside the
    range 0.01 .. 100.0 of [step_time]; instead of a printed warning and a
    return, the call raises out of the validator, through [read_write], to
    the caller, and the log is as before. *)
Theorem step_delay_set_raises (w : world) :
  ModeOCP.step_delay (PyInt 1000) w
    = (Raise (MissingArgument "float_rng_and_str_tuples" "round_to"), w).
Proof.
  unfold ModeOCP.step_delay.
  apply read_write_raise; [discriminate|]. apply step_time_raises.
Qed.

(** [battery_level] asks for the sub-mode, then compares the reply, an
    object of its own, with constants by [is]: both tests are false and the
    bounds are those of the last branch. *)
Lemma battery_level_run (value : pyval) (w : world) :
  ValidateBattery.battery_level value w =
  (Validate.float_rng_tuple
     (Float (float_lit 3 (-2)), Float (float_lit 100000 (-1))) value (Some 3),
   World (device w)
     (log w ++ [Query ":BATT:MODE?" (device w (log w) ":BATT:MODE?")]) (heap w)).
Proof. reflexivity. Qed.

(** C8 fails: the sub-mode is queried afresh at each validation, but it does
    not select the bounds.  Whatever the instrument answers, a number is
    accepted as a battery level exactly when, rounded to three places, it
    lies in 0.03 .. 10000.0, the bounds the claim gives for the resistance
    sub-mode only. *)
Theorem battery_level_bounds_fixed (value : pyval) (w : world) (c : string) :
  is_number value = true ->
  log (ValidateBattery.battery_level value w).2
    = (log w ++ [Query ":BATT:MODE?" (device w (log w) ":BATT:MODE?")])%list /\
  ((ValidateBattery.battery_level value w).1 = Return (Canon c) <->
   in_range_rounded (Float (float_lit 3 (-2)), Float (float_lit 100000 (-1))) 3 value /\
   c = str value).
Proof.
  intros Hnum. rewrite battery_level_run. cbn [fst snd log].
  split; [reflexivity|]. by apply float_rng_tuple_accepts.
Qed.

(** The same slip in [ValidateTest]: the bounds never depend on the reply. *)
Lemma test_levels_bounds_fixed (_high_power : bool) (value : pyval) (w : world) :
  (ValidateTest.list_levels _high_power value w).1 =
    Validate.float_rng_tuple
      (if _high_power
       then (Float (float_lit 0 (-1)), Float (float_lit 3000 (-1)))
       else (Float (float_lit 0 (-1)), Float (float_lit 2000 (-1)))) value (Some 3) /\
  (ValidateTest.program_levels _high_power value w).1 =
    Validate.float_rng_tuple
      (Float (float_lit 0 (-1)), Float (float_lit 1500 (-1))) value (Some 3) /\
  (ValidateTest.step_min_max value w).1 = (ValidateInput.voltage value w).1.
Proof. by destruct _high_power. Qed.

End MirrorSources.

Section MirrorExamples.
#[local] Existing Instance Decimal.ops.
Import Py.


(** The failing input of C8: the instrument reports the sub-mode [CURRENT],
    where the level may be 0.0 .. 30.0.  The level 5000 is accepted. *)
Lemma battery_level_bounds_fixed_witness :
  let w := Bench.constant "CURRENT" in
  is_number (PyInt 5000) = true /\
  device w (log w) ":BATT:MODE?" = "CURRENT" /\
  ~ in_range_rounded (Float (Decimal.lit 0 (-1)), Float (Decimal.lit 300 (-1))) 3 (PyInt 5000) /\
  (ValidateBattery.battery_level (PyInt 5000) w).1 = Return (Canon "5000").
Proof.
  intros w. split; [reflexivity|]. split; [reflexivity|]. split.
  - intros (x & [= <-] & _ & H). discriminate H.
  - apply (battery_level_bounds_fixed (PyInt 5000) w "5000" eq_refl).
    split; [|reflexivity]. by exists (Decimal.Dec 5000 0).
Defined.

(** On the same instrument the level 0 is rejected and nothing is written,
    and the level 5000 goes out on the bus. *)
Lemma battery_level_current_mode :
  let w := Bench.constant "CURRENT" in
  in_range_rounded (Float (Decimal.lit 0 (-1)), Float (Decimal.lit 300 (-1))) 3 (PyInt 0) /\
  writes (log (ModeBattery.level (PyInt 0) w).2) = [] /\
  writes (log (ModeBattery.level (PyInt 5000) w).2) = [":BATT:LEV 5000"].
Proof.
  intros w. split; [|split].
  - by exists (Decimal.Dec 0 0).
  - reflexivity.
  - reflexivity.
Qed.

(** Another way a set can raise: an [int] too large for [float()]. *)
Lemma level_overflow_raises :
  (ModeCC.level (PyInt (10 ^ 400)) Bench.start).1 = Raise IntTooLarge.
Proof. by vm_compute. Qed.

End MirrorExamples.


(** * Further properties of the driver *)

(** ** Integer rules *)
Section IntegerRules.
Context {F : FloatOps}.
Import Py.

Lemma int_range_true (n : Z) (bounds : Z * Z) :
  Validate.int_range n bounds = true <-> bounds.1 <= n <= bounds.2.
Proof. unfold Validate.int_range. rewrite andb_true_iff. lia. Qed.

Lemma int_in_true (n : Z) (t : list Z) : int_in n t = true <-> In n t.
Proof.
  induction t as [|m t IH]; [done|]. cbn [int_in In].
  rewrite orb_true_iff, IH. split; intros [H|H]; auto; left; lia.
Qed.



End IntegerRules.

(** ** Strings at the token branch *)
Section TokenBranch.
Context {F : FloatOps}.
Import Py PyStr.

Lemma contains_empty (y : string) : contains EmptyString y = true.
Proof. by destruct y. Qed.

Lemma has_char_app (c : ascii) (a b : string) :
  has_char c (a ++ b) = has_char c a || has_char c b.
Proof.
  induction a as [|d a IH]; [done|].
  rewrite append_cons. cbn [has_char]. rewrite IH. by destruct (Ascii.eqb c d).
Qed.

Lemma contains_has_char (c : ascii) (x y : string) :
  contains x y = true -> has_char c x = true -> has_char c y = true.
Proof.
  intros (a & b & ->)%contains_spec Hc.
  rewrite !has_char_app, Hc. by rewrite orb_true_r.
Qed.

Lemma lower_digit (c : ascii) (s : string) :
  is_digit c = true -> has_char c s = true -> has_char c (lower s) = true.
Proof.
  intros Hd. induction s as [|d s IH]; [done|]. cbn [lower has_char].
  destruct (Ascii.eqb_spec c d) as [<-|Hne].
  - intros _.
    assert (lower_char c = c) as ->
      by (revert Hd; by destruct c as [[] [] [] [] [] [] [] []]).
    by rewrite Ascii.eqb_refl.
  - intros H. rewrite (IH H). by destruct (Ascii.eqb c (lower_char d)).
Qed.

Lemma sentinels_no_digit (c : ascii) :
  is_digit c = true ->
  has_char c (lower (str_tuple_of_str ["MINimum"; "MAXimum"; "DEFault"])) = false.
Proof. by destruct c as [[] [] [] [] [] [] [] []]. Qed.

(** X3: the empty string passes every token rule, whatever the tokens: it
    occurs in every text.  The canonical form is the empty string, and a set
    with it goes through: [ModeCC.level('')] writes the template followed by
    a space. *)
Theorem empty_string_is_accepted :
  (forall tokens, Validate.str_tuple tokens (PyStr EmptyString) = Return (Canon EmptyString)) /\
  (forall bounds tokens round_to,
     Validate.float_rng_and_str_tuples (bounds, tokens) (PyStr EmptyString) (Some round_to)
       = Return (Canon EmptyString)) /\
  (forall ints tokens,
     Validate.int_and_str_tuples (ints, tokens) (PyStr EmptyString)
       = Return (Canon EmptyString)) /\
  (forall w,
     writes (log (ModeCC.level (PyStr EmptyString) w).2)
       = (writes (log w) ++ [":CURR "])%list).
Proof.
  assert (Hc : forall y : string, Validate.find_element (lower EmptyString) y = true)
    by (intros y; apply contains_empty).
  split; [|split; [|split]].
  - intros tokens. unfold Validate.str_tuple. by rewrite Hc.
  - intros bounds tokens round_to. unfold Validate.float_rng_and_str_tuples.
    cbn [is_number snd]. by rewrite Hc.
  - intros ints tokens. unfold Validate.int_and_str_tuples.
    cbn [as_int snd]. by rewrite Hc.
  - intros w. unfold ModeCC.level.
    rewrite (read_write_set _ _ _ _ _ _ w EmptyString w); [|discriminate|].
    + cbn [snd log]. by rewrite writes_app.
    + unfold ValidateInput.current, lift, Validate.float_rng_and_str_tuples.
      cbn [is_number snd]. by rewrite Hc.
Qed.

(** X4: a number written as a string is not a number.  A string with a
    decimal digit in it is rejected by every rule that pairs a range with
    the tokens MINimum, MAXimum, DEFault, whatever the range: the candidate
    goes to the token branch, and no digit occurs in the tokens.  Nothing is
    written for it. *)
Theorem numeric_text_is_rejected (bounds : num * num) (round_to : Z) (s : string)
    (c : ascii) :
  is_digit c = true ->
  has_char c s = true ->
  (exists msg,
     Validate.float_rng_and_str_tuples (bounds, ["MINimum"; "MAXimum"; "DEFault"])
       (PyStr s) (Some round_to) = Return (Rejected (ValueError msg))) /\
  (forall w,
     writes (log (ModeCC.level (PyStr s) w).2) = writes (log w) /\
     heap (ModeCC.level (PyStr s) w).2 = heap w).
Proof.
  intros Hd Hs.
  assert (Hc : Validate.find_element (lower s)
                 (lower (str_tuple_of_str ["MINimum"; "MAXimum"; "DEFault"])) = false).
  { destruct (Validate.find_element _ _) eqn:E; [|done].
    pose proof (contains_has_char c _ _ E (lower_digit c s Hd Hs)) as H.
    by rewrite (sentinels_no_digit c Hd) in H. }
  split.
  - unfold Validate.float_rng_and_str_tuples. cbn [is_number snd]. rewrite Hc.
    by eexists.
  - intros w. unfold ModeCC.level.
    erewrite read_write_reject; [|discriminate|].
    + cbn [snd log heap]. split; [|done]. rewrite writes_app. cbn. by rewrite app_nil_r.
    + unfold ValidateInput.current, lift, Validate.float_rng_and_str_tuples.
      cbn [is_number snd]. by rewrite Hc.
Qed.

End TokenBranch.

Section TokenBranchWitness.
#[local] Existing Instance Decimal.ops.
Import Py PyStr.

(** [level('2.5')] is rejected, where [level(2.5)] is accepted. *)
Lemma numeric_text_is_rejected_witness :
  (exists msg,
     Validate.float_rng_and_str_tuples
       ((Float (Decimal.lit 0 (-1)), Float (Decimal.lit 300 (-1))),
        ["MINimum"; "MAXimum"; "DEFault"])
       (PyStr "2.5") (Some 3) = Return (Rejected (ValueError msg))) /\
  (forall w,
     writes (log (ModeCC.level (PyStr "2.5") w).2) = writes (log w) /\
     heap (ModeCC.level (PyStr "2.5") w).2 = heap w).
Proof.
  apply (numeric_text_is_rejected _ 3 "2.5" "2"); reflexivity.
Defined.

End TokenBranchWitness.

(** ** What the validators do besides deciding *)
Section ValidatorEffects.
Context {F : FloatOps}.
Import Py.


(** X6: what a validator does to the world does not depend on the
    candidate or on its verdict.  Of the 27 validators of the driver, 23
    leave the world as it is; [battery_level], [list_levels],
    [program_levels] and [step_min_max] send one query each, also when they
    reject.  None writes to the bus, prints, or touches a dictionary. *)
Theorem validators_ask_at_most_once (_high_power : bool) :
  Forall (fun vq : validator * option string =>
            forall value w, (vq.1 value w).2 = after_question vq.2 w)
    (validator_questions _high_power).
Proof.
  unfold validator_questions.
  repeat apply Forall_cons_2; try apply Forall_nil_2; by intros value w.
Qed.

(** X7: booleans are integers to the on/off rule.  Where [float(b) == b]
    holds, as it does of doubles, [input_control(True)] is accepted and the
    line on the bus reads [:INP True]. *)
Theorem boolean_switch (b : bool) (x : float) (w : world) :
  float_of_int (Z_of_bool b) = Some x ->
  float_eq_int x (Z_of_bool b) = true ->
  (ValidateInput.on_off (PyBool b) w).1
    = Return (Canon (if b then "True" else "False")) /\
  writes (log (Input.input_control (PyBool b) w).2)
    = (writes (log w) ++ [(":INP " ++ (if b then "True" else "False"))%string])%list.
Proof.
  intros Hx He.
  assert (Hv : ValidateInput.on_off (PyBool b) w
                 = (Return (Canon (if b then "True" else "False")), w)).
  { unfold ValidateInput.on_off, lift, Validate.int_and_str_tuples.
    cbn [as_int fst]. rewrite Hx.
    unfold Validate.find_element, py_in, contains_float. cbn [float_in].
    destruct b; cbn [Z_of_bool] in He; rewrite He; by rewrite ?orb_true_r. }
  split; [by rewrite Hv|].
  unfold Input.input_control.
  assert (Hne : PyBool b <> PyNone) by discriminate.
  rewrite (read_write_set _ _ _ _ _ _ w _ w Hne Hv).
  cbn [snd log]. rewrite writes_app. by destruct b.
Qed.

End ValidatorEffects.

Section ValidatorEffectsWitness.
#[local] Existing Instance Decimal.ops.
Import Py.


Lemma boolean_switch_witness :
  writes (log (Input.input_control (PyBool true) Bench.start).2) = [":INP True"].
Proof.
  apply (@boolean_switch Decimal.ops true (Decimal.Dec 1 0) Bench.start eq_refl eq_refl).
Defined.

End ValidatorEffectsWitness.

(** ** Construction and the identification string *)
Section Identification.
Context {F : FloatOps}.
Import Py PyStr.

Lemma split_without (sep : ascii) (s : string) :
  has_char sep s = false -> split sep s = [s].
Proof.
  induction s as [|c s IH]; [done|]. cbn [has_char split].
  rewrite (Ascii.eqb_sym c sep).
  destruct (Ascii.eqb sep c); [discriminate|]. intros H. by rewrite (IH H).
Qed.

Lemma split_not_nil (sep : ascii) (s : string) : split sep s <> [].
Proof.
  induction s as [|c s IH]; [done|]. cbn [split].
  destruct (Ascii.eqb c sep); [done|]. by destruct (split sep s).
Qed.

Lemma split_with (sep : ascii) (s : string) :
  has_char sep s = true -> exists x y rest, split sep s = x :: y :: rest.
Proof.
  induction s as [|c s IH]; [done|]. cbn [has_char split].
  rewrite (Ascii.eqb_sym c sep).
  destruct (Ascii.eqb sep c).
  - intros _. pose proof (split_not_nil sep s).
    destruct (split sep s) as [|y rest]; [done|]. by eexists _, _, _.
  - intros H. destruct (IH H) as (x & y & rest & ->). by eexists _, _, _.
Qed.

Lemma str_in_true (x : string) (t : list string) : str_in x t = true <-> In x t.
Proof.
  induction t as [|y t IH]; [done|]. cbn [str_in In].
  rewrite orb_true_iff, IH, String.eqb_eq. split; intros [H|H]; auto.
Qed.

(** X8: the reply to [*IDN?] decides whether a validator object, and with it
    any mode, can be built.  Without a comma in it the constructor raises
    [IndexError] right after the query, before any dictionary is touched.
    With one, the object is built, and it is a high-power one exactly when
    the second field is [SDL1030X-E] or [SDL1030X], letter for letter. *)
Theorem identification_decides_construction (w : world) :
  let reply := device w (log w) "*IDN?" in
  let asked := World (device w) (log w ++ [Query "*IDN?" reply]) (heap w) in
  (has_char "," reply = false ->
   ValidateInput.__init__ w = (Raise IndexError, asked) /\
   Input.__init__ w = (Raise IndexError, asked) /\
   ModeDynamicCC.__init__ w = (Raise IndexError, asked)) /\
  (has_char "," reply = true ->
   exists model _high_power,
     split "," reply !! 1%nat = Some model /\
     ValidateInput.__init__ w = (Return _high_power, asked) /\
     (_high_power = true <-> model = "SDL1030X-E" \/ model = "SDL1030X")).
Proof.
  intros reply asked. split.
  - intros Hc.
    assert (Hv : ValidateInput.__init__ w = (Raise IndexError, asked)).
    { unfold ValidateInput.__init__, bind, Bus.query. cbn [text].
      fold reply. by rewrite (split_without _ _ Hc). }
    split; [exact Hv|].
    assert (Hi : Input.__init__ w = (Raise IndexError, asked)).
    { unfold Input.__init__. unfold bind at 1. by rewrite Hv. }
    split; [exact Hi|].
    unfold ModeDynamicCC.__init__, ModeDynamic.__init__.
    unfold bind at 1. unfold bind at 1. by rewrite Hi.
  - intros Hc. destruct (split_with _ _ Hc) as (x & model & rest & Es).
    exists model, (str_in model ["SDL1030X-E"; "SDL1030X"]).
    split; [by rewrite Es|]. split.
    + unfold ValidateInput.__init__, bind, Bus.query. cbn [text].
      fold reply. by rewrite Es.
    + rewrite str_in_true. cbn [In]. intuition congruence.
Qed.

End Identification.

(** ** The helpers behind [enable()] *)
Section ModeHelpers.
Context {F : FloatOps}.
Import Py.

Lemma dynamic_mode_rejected (token : string) (e : pyerror) (w : world) :
  ValidateInput.mode_dynamic (PyStr token) w = (Return (Rejected e), w) ->
  let warning := Print (Validate.error_text WARNING e) in
  let r := device w (log w ++ [warning]) ":FUNC:TRAN?" in
  ModeDynamic._mode (PyStr token) w =
  (Return None,
   World (device w) (log w ++ [warning; Query ":FUNC:TRAN?" r])
     (heap_update (heap w) global_input_values (insert "mode" (Some ("DYNAMIC " ++ r))))).
Proof.
  intros E warning r. unfold ModeDynamic._mode.
  assert (Hne : PyStr token <> PyNone) by discriminate.
  rewrite (bind_run _ _ _ _ _ (read_write_reject _ _ _ _ _ _ _ _ _ Hne E)).
  cbn. by rewrite <- !app_assoc.
Qed.

(** X9: [_mode], the helper behind [enable()], does not stop at a rejected
    name.  The dispatcher prints the warning and returns [None]; the helper
    takes that for a completed set, asks the instrument for its function and
    stores the answer behind [STATIC] (or [DYNAMIC]) under [mode].  Nothing
    is written, yet the shared dictionary changes. *)
Theorem rejected_name_still_rewrites_mode (token : string) (w : world) :
  (forall e,
     (ValidateInput.mode_static (PyStr token) w).1 = Return (Rejected e) ->
     let w' := (ModeStatic._mode (PyStr token) w).2 in
     writes (log w') = writes (log w) /\
     prints (log w') = (prints (log w) ++ [Validate.error_text WARNING e])%list /\
     exists r, last (log w') = Some (Query ":FUNC?" r) /\
       heap w' global_input_values !! "mode" = Some (Some ("STATIC " ++ r))) /\
  (forall e,
     (ValidateInput.mode_dynamic (PyStr token) w).1 = Return (Rejected e) ->
     let w' := (ModeDynamic._mode (PyStr token) w).2 in
     writes (log w') = writes (log w) /\
     prints (log w') = (prints (log w) ++ [Validate.error_text WARNING e])%list /\
     exists r, last (log w') = Some (Query ":FUNC:TRAN?" r) /\
       heap w' global_input_values !! "mode" = Some (Some ("DYNAMIC " ++ r))).
Proof.
  split; intros e He w'.
  - assert (E : ValidateInput.mode_static (PyStr token) w = (Return (Rejected e), w))
      by (by rewrite <- He).
    unfold w'. rewrite (static_mode_rejected token e w E). cbn [snd log heap].
    split; [unfold writes; rewrite omap_app; cbn; by rewrite app_nil_r|].
    split; [unfold prints; by rewrite omap_app|].
    eexists. split; [by rewrite last_app_cons|].
    by rewrite heap_update_same, lookup_insert_eq.
  - assert (E : ValidateInput.mode_dynamic (PyStr token) w = (Return (Rejected e), w))
      by (by rewrite <- He).
    unfold w'. rewrite (dynamic_mode_rejected token e w E). cbn [snd log heap].
    split; [unfold writes; rewrite omap_app; cbn; by rewrite app_nil_r|].
    split; [unfold prints; by rewrite omap_app|].
    eexists. split; [by rewrite last_app_cons|].
    by rewrite heap_update_same, lookup_insert_eq.
Qed.

End ModeHelpers.

Section ModeHelpersWitness.
#[local] Existing Instance Decimal.ops.
Import Py.

(** On the swept bench the instrument answers 0; after [_mode('XYZ')] the
    shared dictionary says [STATIC 0]. *)
Lemma rejected_name_still_rewrites_mode_witness :
  let w' := (ModeStatic._mode (PyStr "XYZ") Bench.swept).2 in
  writes (log w') = writes (log Bench.swept) /\
  heap w' global_input_values !! "mode" = Some (Some "STATIC 0").
Proof.
  intros w'.
  destruct (@rejected_name_still_rewrites_mode Decimal.ops "XYZ" Bench.swept) as [Hs _].
  destruct (Hs _ eq_refl) as (Hw & _ & r & Hl & Hm).
  split; [exact Hw|]. unfold w'. rewrite Hm.
  assert (r = "0") as -> by (vm_compute in Hl; congruence).
  reflexivity.
Defined.

End ModeHelpersWitness.

(** ** The list mode *)
Section ListMode.
Context {F : FloatOps}.
Import Py.

Lemma list_levels_run (_high_power : bool) (value : pyval) (w : world) :
  ValidateTest.list_levels _high_power value w =
  (Validate.float_rng_tuple
     (if _high_power
      then (Float (float_lit 0 (-1)), Float (float_lit 3000 (-1)))
      else (Float (float_lit 0 (-1)), Float (float_lit 2000 (-1)))) value (Some 3),
   World (device w)
     (log w ++ [Query ":LIST:MODE?" (device w (log w) ":LIST:MODE?")]) (heap w)).
Proof. by destruct _high_power. Qed.

Lemma is_number_not_none (value : pyval) : is_number value = true -> value <> PyNone.
Proof. by destruct value. Qed.

(** X10: [ModeList.level] checks the step number and throws the verdict
    away.  Whatever [step] is, in [0, 100] or not, an integer or not, as long
    as [str(step)] is defined, a level that is in range is written for it, on
    the line [:LIST:LEV <step>, <level>], after one query of the list mode and
    followed by the confirming [:LIST:LEV? <step>]; no warning is printed. *)
Theorem list_level_step_is_not_enforced (_high_power : bool) (step value : pyval)
    (w : world) :
  printable step ->
  is_number value = true ->
  in_range_rounded
    (if _high_power
     then (Float (float_lit 0 (-1)), Float (float_lit 3000 (-1)))
     else (Float (float_lit 0 (-1)), Float (float_lit 2000 (-1)))) 3 value ->
  let run := ModeList.level _high_power step value in
  (run w).1 = Return None /\
  writes (log (run w).2) =
    (writes (log w) ++ [((":LIST:LEV " ++ str step ++ ",") ++ " " ++ str value)%string])%list /\
  queries (added run w) = [":LIST:MODE?"; (":LIST:LEV? " ++ str step)%string] /\
  prints (added run w) = [].
Proof.
  intros _ Hn Hr run.
  assert (Hv : Validate.float_rng_tuple
     (if _high_power
      then (Float (float_lit 0 (-1)), Float (float_lit 3000 (-1)))
      else (Float (float_lit 0 (-1)), Float (float_lit 2000 (-1)))) value (Some 3)
     = Return (Canon (str value))).
  { by apply float_rng_tuple_accepts. }
  assert (E : run w =
    (Return None,
     World (device w)
       (log w ++ [Query ":LIST:MODE?" (device w (log w) ":LIST:MODE?");
                  Write ((":LIST:LEV " ++ str step ++ ",") ++ " " ++ str value);
                  Query (":LIST:LEV? " ++ str step)
                    (device w (log w ++ [Query ":LIST:MODE?" (device w (log w) ":LIST:MODE?")]
                                     ++ [Write ((":LIST:LEV " ++ str step ++ ",") ++ " " ++ str value)])
                       (":LIST:LEV? " ++ str step))])
       (heap_update (heap w) (mode_values List_)
          (insert "level" (Some
             (device w (log w ++ [Query ":LIST:MODE?" (device w (log w) ":LIST:MODE?")]
                              ++ [Write ((":LIST:LEV " ++ str step ++ ",") ++ " " ++ str value)])
                (":LIST:LEV? " ++ str step))))))).
  { unfold run, ModeList.level.
    assert (Hb : forall {B} (k : M B),
      bind (ValidateTest.step_range step) (fun _ => k) w = k w).
    { intros B k. unfold bind, ValidateTest.step_range, lift, Validate.int_rng_tuple.
      by repeat case_match. }
    rewrite Hb.
    erewrite read_write_set;
      [|by apply is_number_not_none|rewrite list_levels_run, Hv; reflexivity].
    cbn [device log heap]. unfold set_line. rewrite <- !app_assoc.
    reflexivity. }
  rewrite E. cbn [fst snd log].
  split; [done|].
  split; [unfold writes; rewrite omap_app; reflexivity|].
  unfold added. rewrite E. cbn [snd log]. rewrite drop_app_length. done.
Qed.

(** X11: [ModeList.list_mode] is validated by the rule for a current, not by
    a rule for mode names.  Each of the thirteen spellings of a function name
    is refused (a warning, no write, no query, dictionaries unchanged), while
    a number in [0, 30] is written as [:LIST:MODE <number>]. *)
Theorem list_mode_takes_a_current :
  (forall s w, In s function_names ->
     let w' := (ModeList.list_mode (PyStr s) w).2 in
     writes (log w') = writes (log w) /\
     queries (log w') = queries (log w) /\
     heap w' = heap w /\
     exists t, log w' = (log w ++ [Print t])%list) /\
  (forall value w,
     is_number value = true ->
     in_range_rounded (Float (float_lit 0 (-1)), Float (float_lit 300 (-1))) 3 value ->
     writes (log (ModeList.list_mode value w).2) =
       (writes (log w) ++ [(":LIST:MODE " ++ str value)%string])%list).
Proof.
  split.
  - intros s w Hin w'.
    assert (E : exists e, ValidateInput.current (PyStr s) w = (Return (Rejected e), w)).
    { unfold function_names in Hin. cbn [In] in Hin.
      repeat (destruct Hin as [<-|Hin]; [by eexists|]). done. }
    destruct E as [e E].
    assert (Hne : PyStr s <> PyNone) by discriminate.
    unfold w', ModeList.list_mode.
    rewrite (read_write_reject _ _ _ _ _ _ _ _ _ Hne E). cbn [snd log heap].
    split; [unfold writes; rewrite omap_app; cbn; by rewrite app_nil_r|].
    split; [unfold queries; rewrite omap_app; cbn; by rewrite app_nil_r|].
    split; [done|]. by eexists.
  - intros value w Hn Hr. unfold ModeList.list_mode.
    erewrite read_write_set; [|by apply is_number_not_none|].
    2: { unfold ValidateInput.current, lift.
         erewrite (proj2 (float_rng_and_str_tuples_accepts _ _ _ _ _ Hn)); [reflexivity|].
         split; [exact Hr|reflexivity]. }
    cbn [snd log]. unfold writes. rewrite omap_app. reflexivity.
Qed.

End ListMode.

Section ListModeWitness.
#[local] Existing Instance Decimal.ops.
Import Py.

(** Step 500 of a list that has at most 100: level 1 is written for it. *)
Lemma list_level_step_is_not_enforced_witness :
  writes (log (ModeList.level false (PyInt 500) (PyInt 1) Bench.start).2) =
  (writes (log Bench.start) ++ [":LIST:LEV 500, 1"])%list.
Proof.
  refine (proj1 (proj2
    (@list_level_step_is_not_enforced Decimal.ops false (PyInt 500) (PyInt 1)
       Bench.start _ eq_refl _))).
  - by vm_compute.
  - exists (Decimal.Dec 1 0). vm_compute. auto.
Defined.

End ListModeWitness.

(** ** Calls in sequence *)
Section Sequences.
Context {F : FloatOps}.
Import Py.

Lemma input_control_off (w : world) :
  let r := device w (log w ++ [Write ":INP OFF"]) ":INP?" in
  Input.input_control (PyStr "OFF") w =
  (Return None,
   World (device w) (log w ++ [Write ":INP OFF"; Query ":INP?" r])
     (heap_update (heap w) global_input_values (insert "input_on" (Some r)))).
Proof.
  unfold Input.input_control.
  by rewrite (read_write_set _ _ _ _ _ _ w "OFF" w).
Qed.

(** X12: [set_slew_both] of the CC mode is all or nothing.  Both calls judge
    the same value by the same rule, which asks the instrument nothing, so
    either both slew rates are written (rising first) and both entries
    refreshed by their own query, or nothing is written, the same warning is
    printed twice and the dictionaries stay as they were, or the first call
    raises before anything has happened. *)
Theorem set_slew_both_all_or_nothing (value : pyval) (w : world) :
  value <> PyNone ->
  let run := ModeCC.set_slew_both value in
  match (ValidateInput.slew value w).1 with
  | Return (Canon _) =>
    (run w).1 = Return tt /\
    added run w =
      [Write (set_line ":CURR:SLEW:POS" value);
       Query ":CURR:SLEW:POS?"
         (device w (log w ++ [Write (set_line ":CURR:SLEW:POS" value)]) ":CURR:SLEW:POS?");
       Write (set_line ":CURR:SLEW:NEG" value);
       Query ":CURR:SLEW:NEG?"
         (device w
            (log w ++ [Write (set_line ":CURR:SLEW:POS" value);
                       Query ":CURR:SLEW:POS?"
                         (device w (log w ++ [Write (set_line ":CURR:SLEW:POS" value)])
                            ":CURR:SLEW:POS?");
                       Write (set_line ":CURR:SLEW:NEG" value)])
            ":CURR:SLEW:NEG?")] /\
    heap (run w).2 (mode_values CC) !! "slew_pos" =
      Some (Some (device w (log w ++ [Write (set_line ":CURR:SLEW:POS" value)])
                    ":CURR:SLEW:POS?")) /\
    exists r, last (log (run w).2) = Some (Query ":CURR:SLEW:NEG?" r) /\
      heap (run w).2 (mode_values CC) !! "slew_neg" = Some (Some r)
  | Return (Rejected e) =>
    (run w).1 = Return tt /\
    added run w = [Print (Validate.error_text WARNING e);
                   Print (Validate.error_text WARNING e)] /\
    heap (run w).2 = heap w
  | Raise x => run w = (Raise x, w)
  end.
Proof.
  intros Hne run.
  assert (Hpure : forall w0, ValidateInput.slew value w0 = ((ValidateInput.slew value w).1, w0))
    by reflexivity.
  destruct (ValidateInput.slew value w).1 as [[s|e]|x] eqn:Ev.
  - assert (E : run w =
      (Return tt,
       World (device w)
        (log w ++
      [Write (set_line ":CURR:SLEW:POS" value);
       Query ":CURR:SLEW:POS?"
         (device w (log w ++ [Write (set_line ":CURR:SLEW:POS" value)]) ":CURR:SLEW:POS?");
       Write (set_line ":CURR:SLEW:NEG" value);
       Query ":CURR:SLEW:NEG?"
         (device w
            (log w ++ [Write (set_line ":CURR:SLEW:POS" value);
                       Query ":CURR:SLEW:POS?"
                         (device w (log w ++ [Write (set_line ":CURR:SLEW:POS" value)])
                            ":CURR:SLEW:POS?");
                       Write (set_line ":CURR:SLEW:NEG" value)])
            ":CURR:SLEW:NEG?")])
        (heap_update
           (heap_update (heap w) (mode_values CC)
              (insert "slew_pos" (Some (device w
                 (log w ++ [Write (set_line ":CURR:SLEW:POS" value)]) ":CURR:SLEW:POS?"))))
           (mode_values CC)
           (insert "slew_neg" (Some (device w
            (log w ++ [Write (set_line ":CURR:SLEW:POS" value);
                       Query ":CURR:SLEW:POS?"
                         (device w (log w ++ [Write (set_line ":CURR:SLEW:POS" value)])
                            ":CURR:SLEW:POS?");
                       Write (set_line ":CURR:SLEW:NEG" value)])
            ":CURR:SLEW:NEG?")))))).
    { unfold run, ModeCC.set_slew_both, ModeCC.slew_pos, ModeCC.slew_neg.
      erewrite bind_run; [|eapply read_write_set; [exact Hne|apply Hpure]].
      erewrite bind_run; [|eapply read_write_set; [exact Hne|apply Hpure]].
      cbn [device log heap]. unfold ret. by rewrite <- !app_assoc. }
    rewrite (added_app run w _ ltac:(rewrite E; reflexivity)).
    rewrite E. cbn [fst snd log heap].
    split; [done|]. split; [done|]. split.
    + rewrite heap_update_same, lookup_insert_ne by done.
      by rewrite heap_update_same, lookup_insert_eq.
    + eexists. split; [|by rewrite heap_update_same, lookup_insert_eq].
      by rewrite (last_app_cons _ [_; _; _]).
  - assert (E : run w =
      (Return tt,
       World (device w)
        (log w ++ [Print (Validate.error_text WARNING e);
                   Print (Validate.error_text WARNING e)]) (heap w))).
    { unfold run, ModeCC.set_slew_both, ModeCC.slew_pos, ModeCC.slew_neg.
      erewrite bind_run; [|eapply read_write_reject; [exact Hne|apply Hpure]].
      erewrite bind_run; [|eapply read_write_reject; [exact Hne|apply Hpure]].
      cbn [device log heap]. unfold ret. by rewrite <- !app_assoc. }
    rewrite (added_app run w _ ltac:(rewrite E; reflexivity)).
    by rewrite E.
  - unfold run, ModeCC.set_slew_both, ModeCC.slew_pos.
    unfold bind at 1.
    by rewrite (read_write_raise _ _ _ _ _ _ _ x w Hne (Hpure w)).
Qed.

(** X13: switching a mode on and then the input off writes three lines, the
    function select, [:INP ON] and [:INP OFF], in this order.  [off()] leaves
    the [mode] entry as [enable()] set it, and [input_on] ends up holding the
    reply to the last [:INP?]. *)
Theorem on_then_off (m : mode) (w : world) :
  let run := do! on m in Input.off in
  (run w).1 = Return tt /\
  writes (log (run w).2) =
    (writes (log w) ++ [function_select m; ":INP ON"; ":INP OFF"])%list /\
  heap (run w).2 global_input_values !! "mode" =
    heap (enable m w).2 global_input_values !! "mode" /\
  exists r, last (log (run w).2) = Some (Query ":INP?" r) /\
    heap (run w).2 global_input_values !! "input_on" = Some (Some r).
Proof.
  intros run.
  assert (Hon : on m = (do! enable m in Input.on)) by (by destruct m).
  destruct (enable_run m w) as (evs & h & He & Hw & _).
  assert (E : exists r1 r2, run w =
    (Return tt,
     World (device w)
       (((log w ++ evs) ++ [Write ":INP ON"; Query ":INP?" r1])
          ++ [Write ":INP OFF"; Query ":INP?" r2])
       (heap_update
          (heap_update h global_input_values (insert "input_on" (Some r1)))
          global_input_values (insert "input_on" (Some r2))))).
  { eexists _, _. unfold run. rewrite Hon.
    unfold bind at 1. unfold bind at 1. rewrite He.
    unfold Input.on. rewrite (bind_run _ _ _ _ _ (input_control_on _)).
    unfold ret at 1. unfold Input.off.
    rewrite (bind_run _ _ _ _ _ (input_control_off _)). reflexivity. }
  destruct E as (r1 & r2 & E). rewrite E, He. cbn [fst snd log heap].
  split; [done|]. split.
  - rewrite !writes_app, Hw. by rewrite <- !app_assoc.
  - split.
    + rewrite !heap_update_same. by rewrite !lookup_insert_ne by done.
    + exists r2. split; [by rewrite (last_app_cons _ [_])|].
      by rewrite heap_update_same, lookup_insert_eq.
Qed.

Lemma read_write_traffic query write (v : option validator) value d key d' key' w :
  (Command.read_write query write v value (Some d) key w).1 =
    (Command.read_write query write v value (Some d') key' w).1 /\
  log (Command.read_write query write v value (Some d) key w).2 =
    log (Command.read_write query write v value (Some d') key' w).2.
Proof.
  unfold Command.read_write. destruct (Command.is_none value); [done|].
  destruct v as [v|]; [|done].
  unfold bind. by destruct (v value w) as [[[s|e]|x] w1].
Qed.

End Sequences.

Section SequencesWitness.
#[local] Existing Instance Decimal.ops.
Import Py.

(** Both slew rates set to 0.5 on the bench: two writes, rising first. *)
Lemma set_slew_both_all_or_nothing_witness :
  writes (added (ModeCC.set_slew_both (PyFloat (Decimal.Dec 5 1))) Bench.start) =
  [":CURR:SLEW:POS 0.5"; ":CURR:SLEW:NEG 0.5"].
Proof.
  assert (Hne : PyFloat (Decimal.Dec 5 1) <> PyNone) by discriminate.
  pose proof (@set_slew_both_all_or_nothing Decimal.ops _ Bench.start Hne) as H.
  cbv zeta in H.
  match type of H with
  | match ?x with _ => _ end => change x with (@Return vres (Canon "0.5")) in H
  end.
  cbv iota beta in H. destruct H as (_ & H & _). rewrite H. reflexivity.
Defined.

End SequencesWitness.

(** ** The test modes *)
Section TestModes.
Context {F : FloatOps}.
Import Py.

Lemma step_range_skip {B} (step : pyval) (k : M B) (w : world) :
  bind (ValidateTest.step_range step) (fun _ => k) w = k w.
Proof.
  unfold bind, ValidateTest.step_range, lift, Validate.int_rng_tuple.
  by repeat case_match.
Qed.

(** X14: of the test modes, only the battery mode refreshes its own [enable]
    entry when it is enabled: it writes [:BATT:FUNC], asks [:BATT:FUNC?] and
    stores the reply.  The list, OCP, OPP and program modes ask nothing and
    leave every mode dictionary as it was, so their [enable] entry keeps the
    value of construction time. *)
Theorem enable_refreshes_battery_only (m : mode) (w : world) :
  match m with
  | List_ | OCP | OPP | Program =>
    added (enable m) w = [Write (function_select m)] /\
    forall m', heap (enable m w).2 (mode_values m') = heap w (mode_values m')
  | Battery =>
    let r := device w (log w ++ [Write ":BATT:FUNC"]) ":BATT:FUNC?" in
    added (enable m) w = [Write ":BATT:FUNC"; Query ":BATT:FUNC?" r] /\
    heap (enable m w).2 (mode_values Battery) !! "enable" = Some (Some r) /\
    forall m', m' <> Battery ->
      heap (enable m w).2 (mode_values m') = heap w (mode_values m')
  | _ => True
  end.
Proof.
  destruct m; try exact I.
  - split; [by apply added_app|].
    intros m'. cbn. by rewrite heap_update_other.
  - cbv zeta. split; [apply added_app; cbn; by rewrite <- !app_assoc|].
    split.
    + cbn. by rewrite heap_update_same, lookup_insert_eq.
    + intros m' Hm. cbn.
      rewrite heap_update_other by congruence. by rewrite heap_update_other.
  - split; [by apply added_app|].
    intros m'. cbn. by rewrite heap_update_other.
  - split; [by apply added_app|].
    intros m'. cbn. by rewrite heap_update_other.
  - split; [by apply added_app|].
    intros m'. cbn. by rewrite heap_update_other.
Qed.

(** X15: [ModeProgram.step_mode] files the reply under [program_mode].  The
    entry [step_mode], the one the constructor fills, is not touched by any
    call, whatever the step and the value; after an accepted set for a step
    that [str] can print, [program_mode] holds the reply to
    [:PROG:MODE? <step>]. *)
Theorem step_mode_files_under_program_mode (step : pyval) :
  (forall value, keeps (mode_values Program) "step_mode" (ModeProgram.step_mode step value)) /\
  (forall token s w,
     printable step ->
     (ValidateInput.mode_static (PyStr token) w).1 = Return (Canon s) ->
     let w' := (ModeProgram.step_mode step (PyStr token) w).2 in
     writes (log w') =
       (writes (log w) ++ [((":PROG:MODE " ++ str step ++ ",") ++ " " ++ token)%string])%list /\
     exists r, last (log w') = Some (Query (":PROG:MODE? " ++ str step) r) /\
       heap w' (mode_values Program) !! "program_mode" = Some (Some r)).
Proof.
  split.
  - intros value w. unfold ModeProgram.step_mode. rewrite step_range_skip.
    apply read_write_keeps; [solve_reads_only|congruence].
  - intros token s w _ Hs w'.
    assert (E : ValidateInput.mode_static (PyStr token) w = (Return (Canon s), w))
      by (by rewrite <- Hs).
    assert (Hne : PyStr token <> PyNone) by discriminate.
    unfold w', ModeProgram.step_mode. rewrite step_range_skip.
    rewrite (read_write_set _ _ _ _ _ _ _ _ _ Hne E). cbn [snd log heap].
    split; [unfold writes; by rewrite omap_app|].
    eexists. split; [by rewrite (last_app_cons _ [_])|].
    by rewrite heap_update_same, lookup_insert_eq.
Qed.

(** X16: the range accessors of the OPP mode drive the OCP lines.  For every
    value, [ModeOPP.current_range] and [ModeOPP.voltage_range] return what
    the OCP accessors return and leave the same log, so what they write is
    [:OCP:IRANG] and [:OCP:VRANG]; only the dictionary that receives the
    reply is the OPP one. *)
Theorem opp_ranges_drive_ocp_lines (value : pyval) (w : world) :
  ((ModeOPP.current_range value w).1 = (ModeOCP.current_range value w).1 /\
   log (ModeOPP.current_range value w).2 = log (ModeOCP.current_range value w).2) /\
  ((ModeOPP.voltage_range value w).1 = (ModeOCP.voltage_range value w).1 /\
   log (ModeOPP.voltage_range value w).2 = log (ModeOCP.voltage_range value w).2) /\
  (forall n, n = 5 \/ n = 30 ->
     writes (log (ModeOPP.current_range (PyInt n) w).2) =
       (writes (log w) ++ [(":OCP:IRANG " ++ str (PyInt n))%string])%list /\
     heap (ModeOPP.current_range (PyInt n) w).2 (mode_values OCP) =
       heap w (mode_values OCP)).
Proof.
  split; [apply read_write_traffic|]. split; [apply read_write_traffic|].
  intros n Hn.
  assert (Hne : PyInt n <> PyNone) by discriminate.
  assert (E : ValidateInput.current_range (PyInt n) w = (Return (Canon (str (PyInt n))), w)).
  { by destruct Hn as [-> | ->]. }
  unfold ModeOPP.current_range.
  rewrite (read_write_set _ _ _ _ _ _ _ _ _ Hne E). cbn [snd log heap].
  split; [unfold writes; by rewrite omap_app|].
  by rewrite heap_update_other.
Qed.

End TestModes.

Section TestModesWitness.
#[local] Existing Instance Decimal.ops.
Import Py.

(** Step 2 of a program set to the CV function. *)
Lemma step_mode_files_under_program_mode_witness :
  writes (log (ModeProgram.step_mode (PyInt 2) (PyStr "VOLT") Bench.start).2) =
  (writes (log Bench.start) ++ [":PROG:MODE 2, VOLT"])%list.
Proof.
  refine (proj1 (proj2 (@step_mode_files_under_program_mode Decimal.ops (PyInt 2))
                   "VOLT" "VOLT" Bench.start _ eq_refl)).
  by vm_compute.
Defined.

End TestModesWitness.

(** ** Building a [ModeCC] *)

(** One step of a constructor: a get, whose reply becomes a variable, or an
    assignment. *)
Ltac construct_step w :=
  cbv beta iota;
  first
    [ rewrite bind_assoc_run
    | rewrite bind_ret_run
    | rewrite bind_get; cbn [device log heap];
      match goal with
      | |- context [device w ?l ?q] =>
        let r := fresh "r" in set (r := device w l q); clearbody r
      end
    | rewrite bind_dict_set; cbn [device log heap]
    | rewrite bind_dict_assign; cbn [device log heap] ].

Section Construction.
Context {F : FloatOps}.
Import Py.

(** The run of [ModeCC(bus)] on an instrument that identifies itself the same
    way each time: what [ModeStatic.__init__] does, the five gets of the
    dictionary, and then the whole of [ModeDynamicCC(bus)]. *)
Lemma cc_init_run (w : world) (r0 x model : string) (rest : list string)
    (P : outcome bool * world -> Prop) :
  (forall l, device w l "*IDN?" = r0) ->
  PyStr.split "," r0 = x :: model :: rest ->
  (forall r1 r2 r3 r4 r5 r6 r7 r8 r9 r10 r11 r12 r13 r14 r15 r16 r17 r18 r19 r20 r21,
     P (Return (Validate.find_element model ["SDL1030X-E"; "SDL1030X"]),
        World (device w)
          (log w ++
           [Query "*IDN?" r0; Query ":INP?" r1; Query ":SHOR?" r2;
            Write (set_line ":FUNC" (PyStr "CURR"));
            Query ":FUNC?" r3; Query ":FUNC?" r4; Query ":CURR?" r5;
            Query ":CURR:IRANG?" r6; Query ":CURR:VRANG?" r7;
            Query ":CURR:SLEW:POS?" r8; Query ":CURR:SLEW:POS?" r9;
            Query "*IDN?" r0; Query ":INP?" r10; Query ":SHOR?" r11;
            Query ":FUNC:TRAN?" r12; Query ":CURR:TRAN:MODE?" r13;
            Query ":CURR:TRAN:ALEV?" r14; Query ":CURR:TRAN:BLEV?" r15;
            Query ":CURR:TRAN:AWID?" r16; Query ":CURR:TRAN:BWID?" r17;
            Query ":CURR:TRAN:IRANG?" r18; Query ":CURR:TRAN:VRANG?" r19;
            Query ":CURR:TRAN:SLEW:POS?" r20; Query ":CURR:TRAN:SLEW:NEG?" r21])
          (heap_update (heap_update (heap_update (heap_update (heap_update
           (heap_update (heap_update (heap_update (heap_update (heap_update
           (heap_update (heap w)
              global_input_values (insert "input_on" (Some r1)))
              global_input_values (insert "short_on" (Some r2)))
              global_input_values (insert "mode" (Some r3)))
              global_input_values (insert "mode" (Some ("STATIC " ++ r4))))
              (mode_values CC) (fun _ => ∅))
              (mode_values CC)
              (fun _ => list_to_map
                 [("level", Some r5); ("current_range", Some r6);
                  ("voltage_range", Some r7); ("slew_pos", Some r8);
                  ("slew_neg", Some r9)]))
              global_input_values (insert "input_on" (Some r10)))
              global_input_values (insert "short_on" (Some r11)))
              global_input_values (insert "mode" (Some r12)))
              (mode_values DynCC) (fun _ => ∅))
              (mode_values DynCC)
              (fun _ => list_to_map
                 [("pulse_mode", Some r13); ("a_level", Some r14);
                  ("b_level", Some r15); ("a_width", Some r16);
                  ("b_width", Some r17); ("current_range", Some r18);
                  ("voltage_range", Some r19); ("slew_pos", Some r20);
                  ("slew_neg", Some r21)])))) ->
  P (ModeCCInit.__init__ w).
Proof.
  intros E0 Es HP.
  assert (Hv : ValidateInput.__init__ w =
            (Return (Validate.find_element model ["SDL1030X-E"; "SDL1030X"]),
             World (device w) (log w ++ [Query "*IDN?" r0]) (heap w))).
  { unfold ValidateInput.__init__, bind, Bus.query. cbn [text]. by rewrite E0, Es. }
  unfold ModeCCInit.__init__, ModeStatic.__init__, Input.__init__.
  rewrite !bind_assoc_run. rewrite (bind_run _ _ _ _ _ Hv). clear Hv.
  unfold Input.input_control, Input._short,
    ModeCC.level, ModeCC.current_range, ModeCC.voltage_range, ModeCC.slew_pos.
  rewrite ?bind_assoc_run.
  repeat construct_step w.
  rewrite (bind_run _ _ _ _ _ (static_mode_set "CURR" "CURR" _ eq_refl)).
  cbn [device log heap].
  repeat match goal with
      | |- context [device w ?l ?q] =>
        let r := fresh "r" in set (r := device w l q); clearbody r
      end.
  repeat construct_step w.
  unfold bind at 1.
  match goal with
  | |- context [ModeDynamicCC.__init__ ?W] =>
    pattern (ModeDynamicCC.__init__ W);
    apply (dynamic_cc_init_run W r0 x model rest); [apply E0|exact Es|]
  end.
  intros. cbv beta iota. unfold ret. cbn [device log heap].
  rewrite <- !app_assoc. cbn [app].
  apply HP.
Qed.

(** X17: building a [ModeCC] on an instrument whose identification has a
    model field.  One line is written, [:FUNC CURR]; twenty-three questions
    are asked, [*IDN?], [:INP?] and [:SHOR?] twice each, [:CURR:SLEW:POS?]
    twice and [:CURR:SLEW:NEG?] never, so that [slew_neg] of the CC
    dictionary holds a reply to the question for the rising slew.  When the
    constructor is done the shared [mode] entry is the bare reply to
    [:FUNC:TRAN?], which the nested [ModeDynamicCC] stored over the
    [STATIC ...] text. *)
Theorem cc_construction (w : world) (r0 x model : string) (rest : list string) :
  (forall l, device w l "*IDN?" = r0) ->
  PyStr.split "," r0 = x :: model :: rest ->
  let run := ModeCCInit.__init__ in
  (run w).1 = Return (Validate.find_element model ["SDL1030X-E"; "SDL1030X"]) /\
  writes (added run w) = [":FUNC CURR"] /\
  queries (added run w) =
    ["*IDN?"; ":INP?"; ":SHOR?"; ":FUNC?"; ":FUNC?";
     ":CURR?"; ":CURR:IRANG?"; ":CURR:VRANG?"; ":CURR:SLEW:POS?"; ":CURR:SLEW:POS?";
     "*IDN?"; ":INP?"; ":SHOR?"; ":FUNC:TRAN?";
     ":CURR:TRAN:MODE?"; ":CURR:TRAN:ALEV?"; ":CURR:TRAN:BLEV?";
     ":CURR:TRAN:AWID?"; ":CURR:TRAN:BWID?"; ":CURR:TRAN:IRANG?";
     ":CURR:TRAN:VRANG?"; ":CURR:TRAN:SLEW:POS?"; ":CURR:TRAN:SLEW:NEG?"] /\
  (exists r, Query ":FUNC:TRAN?" r ∈ added run w /\
     heap (run w).2 global_input_values !! "mode" = Some (Some r)) /\
  (exists r, Query ":CURR:SLEW:POS?" r ∈ added run w /\
     heap (run w).2 (mode_values CC) !! "slew_neg" = Some (Some r)).
Proof.
  intros E0 Es run. unfold added, run.
  apply (cc_init_run w r0 x model rest
    (fun ow =>
       ow.1 = Return (Validate.find_element model ["SDL1030X-E"; "SDL1030X"]) /\
       writes (drop (List.length (log w)) (log ow.2)) = [":FUNC CURR"] /\
       queries (drop (List.length (log w)) (log ow.2)) = _ /\
       (exists r, Query ":FUNC:TRAN?" r ∈ drop (List.length (log w)) (log ow.2) /\
          heap ow.2 global_input_values !! "mode" = Some (Some r)) /\
       (exists r, Query ":CURR:SLEW:POS?" r ∈ drop (List.length (log w)) (log ow.2) /\
          heap ow.2 (mode_values CC) !! "slew_neg" = Some (Some r))) E0 Es).
  intros. cbn [fst snd log heap]. rewrite drop_app_length.
  split; [reflexivity|]. split; [reflexivity|]. split; [reflexivity|]. split.
  - exists r12. split.
    + repeat first [ apply list_elem_of_here | apply list_elem_of_further ].
    + rewrite !heap_update_other by done. rewrite heap_update_same.
      by rewrite lookup_insert_eq.
  - exists r9. split.
    + repeat first [ apply list_elem_of_here | apply list_elem_of_further ].
    + rewrite !heap_update_other by done. rewrite heap_update_same.
      by simplify_map_eq.
Qed.

End Construction.

Section ConstructionWitness.
#[local] Existing Instance Decimal.ops.
Import Py.

(** On the bench, which is not a high-power model. *)
Lemma cc_construction_witness :
  (ModeCCInit.__init__ Bench.start).1 = Return false /\
  writes (added ModeCCInit.__init__ Bench.start) = [":FUNC CURR"].
Proof.
  assert (E0 : forall l, device Bench.start l "*IDN?" =
                 "Siglent Technologies,SDL1020X-E,SDL13GCC4R0058,1.1.1.21R2")
    by reflexivity.
  destruct (@cc_construction Decimal.ops Bench.start _ _ _ _ E0 eq_refl)
    as (H1 & H2 & _).
  split; [exact H1|exact H2].
Defined.

End ConstructionWitness.

(** ** Gets, and the common commands *)
Section Gets.
Context {F : FloatOps}.
Import Py.

(** X18: a get does not refresh the dictionary.  After an accepted set
    followed by a get through the same accessor, the call returns the reply
    to the second query while the entry still holds the reply to the first,
    the one [read_write] asked for right after the write. *)
Theorem get_does_not_refresh query write (v : validator) value d key w s w1 :
  value <> PyNone ->
  v value w = (Return (Canon s), w1) ->
  let run :=
    do! Command.read_write query write (Some v) value (Some d) key in
    Command.read_write query write (Some v) PyNone (Some d) key in
  let line := set_line write value in
  let r1 := device w1 (log w1 ++ [Write line]) query in
  let r2 := device w1 (log w1 ++ [Write line; Query query r1]) query in
  (run w).1 = Return (Some r2) /\
  log (run w).2 = (log w1 ++ [Write line; Query query r1; Query query r2])%list /\
  heap (run w).2 d !! key = Some (Some r1).
Proof.
  intros Hne Hv run line r1 r2. unfold run.
  rewrite (bind_run _ _ _ _ _ (read_write_set _ _ _ _ _ _ _ _ _ Hne Hv)).
  rewrite read_write_get. cbn [fst snd device log heap].
  split; [done|]. split; [by rewrite <- app_assoc|].
  by rewrite heap_update_same, lookup_insert_eq.
Qed.

(** X19: [Common.opc] never sends [*OPC].  Its argument reaches
    [read_write] in the place of the validator, so every call is a get: one
    [*OPC?], nothing written, no dictionary changed; and the reply is handed
    back only when the argument was [None].  [Common.rst] writes [*RST] and
    then [*CLS]. *)
Theorem opc_only_asks (reg_value : pyval) (w : world) :
  let r := device w (log w) "*OPC?" in
  added (Common.opc reg_value) w = [Query "*OPC?" r] /\
  heap (Common.opc reg_value w).2 = heap w /\
  (Common.opc reg_value w).1 =
    Return (match reg_value with PyNone => Some r | _ => None end) /\
  added Common.rst w = [Write "*RST"; Write "*CLS"].
Proof.
  intros r.
  assert (E : Common.opc reg_value w =
    (Return (match reg_value with PyNone => Some r | _ => None end),
     World (device w) (log w ++ [Query "*OPC?" r]) (heap w))).
  { unfold Common.opc. rewrite bind_get. by destruct reg_value. }
  split; [apply added_app; by rewrite E|].
  split; [by rewrite E|]. split; [by rewrite E|].
  apply added_app. cbn. by rewrite <- app_assoc.
Qed.

End Gets.

Section GetsWitness.
#[local] Existing Instance Decimal.ops.
Import Py.

(** An instrument whose answer changes between the two queries: the entry
    says 1.0, the get returns 2.0. *)
Lemma get_does_not_refresh_witness :
  let w := World (fun l _ => if (List.length l =? 1)%nat then "1.0" else "2.0") []
             (fun _ => ∅) in
  let run := do! ModeCC.level (PyInt 1) in ModeCC.level PyNone in
  (run w).1 = Return (Some "2.0") /\
  heap (run w).2 (mode_values CC) !! "level" = Some (Some "1.0").
Proof.
  intros w run.
  assert (Hne : PyInt 1 <> PyNone) by discriminate.
  destruct (@get_does_not_refresh Decimal.ops ":CURR?" ":CURR" ValidateInput.current
              (PyInt 1) (mode_values CC) "level" w "1" w Hne eq_refl) as (H1 & _ & H3).
  split; [exact H1|exact H3].
Defined.

(** A reply without a comma, and the reply of the bench. *)
Lemma identification_decides_construction_witness :
  Input.__init__ (Bench.constant "SDL1020X-E") =
    (Raise IndexError,
     World (fun _ _ => "SDL1020X-E") [Query "*IDN?" "SDL1020X-E"] (fun _ => ∅)) /\
  ValidateInput.__init__ Bench.start =
    (Return false,
     World Bench.echo
       [Query "*IDN?" "Siglent Technologies,SDL1020X-E,SDL13GCC4R0058,1.1.1.21R2"]
       (fun _ => ∅)).
Proof.
  split.
  - exact (proj1 (proj2 (proj1
      (@identification_decides_construction Decimal.ops (Bench.constant "SDL1020X-E"))
      eq_refl))).
  - destruct (proj2 (@identification_decides_construction Decimal.ops Bench.start) eq_refl)
      as (model & hp & Hm & Hr & Hhp).
    rewrite Hr. f_equal. f_equal.
    destruct hp; [|reflexivity].
    assert (model = "SDL1020X-E") as -> by (vm_compute in Hm; congruence).
    destruct (proj1 Hhp eq_refl); discriminate.
Defined.

(** [list_mode('CURRent')] on the bench: refused, nothing written. *)
Lemma list_mode_takes_a_current_witness :
  writes (log (ModeList.list_mode (PyStr "CURRent") Bench.start).2) = [] /\
  writes (log (ModeList.list_mode (PyInt 2) Bench.start).2) = [":LIST:MODE 2"].
Proof.
  split.
  - refine (proj1 (proj1 (@list_mode_takes_a_current Decimal.ops) "CURRent" Bench.start _)).
    vm_compute. tauto.
  - refine (proj2 (@list_mode_takes_a_current Decimal.ops) (PyInt 2) Bench.start eq_refl _).
    exists (Decimal.Dec 2 0). vm_compute. auto.
Defined.

(** The 30 A range asked of the OPP mode goes out as an OCP line. *)
Lemma opp_ranges_drive_ocp_lines_witness :
  writes (log (ModeOPP.current_range (PyInt 30) Bench.start).2) = [":OCP:IRANG 30"].
Proof.
  exact (proj1 (proj2 (proj2
    (@opp_ranges_drive_ocp_lines Decimal.ops (PyInt 30) Bench.start)) 30 (or_intror eq_refl))).
Defined.

End GetsWitness.

Section FurtherWitnesses.
#[local] Existing Instance Decimal.ops.
Import Py.


(** Enabling the battery mode on the filled bench leaves the dictionary of
    the dynamic CC mode as it was. *)
Lemma enable_refreshes_battery_only_witness :
  heap (enable Battery Bench.swept).2 (mode_values DynCC) =
  heap Bench.swept (mode_values DynCC).
Proof.
  refine (proj2 (proj2 (@enable_refreshes_battery_only Decimal.ops Battery Bench.swept))
            DynCC _).
  discriminate.
Defined.

End FurtherWitnesses.


(** ** The mirror: what is stored, and when *)
Section Confirmation.
Context {F : FloatOps}.
Import Py.

(** A set through the dispatcher either leaves every dictionary as it was,
    or ends with the write and one query after it, and files the reply to
    that query. *)
Lemma read_write_confirms query write (v : validator) value d key w :
  reads_only v ->
  let run := Command.read_write query write (Some v) value (Some d) key in
  heap (run w).2 = heap w \/
  exists qs,
    let line := set_line write value in
    let r := device w (log w ++ qs ++ [Write line]) query in
    value <> PyNone /\
    forallb is_query qs = true /\
    log (run w).2 = (log w ++ qs ++ [Write line; Query query r])%list /\
    heap (run w).2 = heap_update (heap w) d (insert key (Some r)).
Proof.
  intros Hro run. unfold run.
  assert (Hv : value = PyNone \/ value <> PyNone)
    by (destruct value; first [by left | by right]).
  destruct Hv as [-> | Hne]; [by left|].
  destruct (Hro value w) as (qs & Hq & Hw).
  destruct (v value w) as [[[s|e]|exc] w1] eqn:E; cbn [snd] in Hw; subst w1.
  all: try (left;
            first [ by rewrite (read_write_reject _ _ _ _ _ _ _ _ _ Hne E)
                  | by rewrite (read_write_raise _ _ _ _ _ _ _ _ _ Hne E) ]).
  all: right; exists qs; cbv zeta;
    rewrite (read_write_set _ _ _ _ _ _ _ _ _ Hne E); cbn [snd device log heap];
    rewrite <- !app_assoc; by repeat split.
Qed.

End Confirmation.

Section Displays.
Context {F : FloatOps}.
Import Py.

Lemma dict_items_run (items : list (string * M (option string)))
    (kqs : list (string * string)) (w : world) :
  Forall2 (fun it kq => it.1 = kq.1 /\ asks it.2 kq.2) items kqs ->
  exists rs,
    List.length rs = List.length kqs /\
    dict_items items w =
      (Return (zip kqs.*1 (Some <$> rs)),
       World (device w) (log w ++ zip_with Query kqs.*2 rs) (heap w)).
Proof.
  intros H. revert w. induction H as [|[k e] [k' q] items kqs [Hk He] _ IH]; intros w.
  - exists []. split; [done|]. cbn. unfold ret. rewrite app_nil_r. by destruct w.
  - cbn in Hk, He. subst k'.
    destruct (IH (World (device w) (log w ++ [Query q (device w (log w) q)]) (heap w)))
      as (rs & Hl & E).
    exists (device w (log w) q :: rs). split; [cbn; by rewrite Hl|].
    cbn [dict_items]. rewrite (bind_run _ _ _ _ _ (He w)).
    rewrite (bind_run _ _ _ _ _ E). cbn. by rewrite <- app_assoc.
Qed.

Lemma foldl_insert_lookup (l : list (string * option string))
    (m : gmap string (option string)) (k : string) :
  NoDup l.*1 ->
  (forall v, (k, v) ∈ l -> foldl (fun d kv => <[kv.1 := kv.2]> d) m l !! k = Some v) /\
  (k ∉ l.*1 -> foldl (fun d kv => <[kv.1 := kv.2]> d) m l !! k = m !! k).
Proof.
  revert m. induction l as [|[k0 v0] l IH]; intros m Hnd.
  - split; [intros v Hin; by apply elem_of_nil in Hin|done].
  - cbn in Hnd. apply NoDup_cons in Hnd as [Hk0 Hnd]. cbn [foldl fst snd].
    destruct (IH (<[k0:=v0]> m) Hnd) as [IH1 IH2]. split.
    + intros v Hin. apply elem_of_cons in Hin as [[= -> ->] | Hin].
      * rewrite (IH2 Hk0). apply lookup_insert_eq.
      * by apply IH1.
    + intros Hk. cbn in Hk. apply not_elem_of_cons in Hk as [Hne Hk].
      rewrite (IH2 Hk). by apply lookup_insert_ne.
Qed.

Lemma display_filed (kqs : list (string * string)) (rs : list string) :
  NoDup kqs.*1 ->
  List.length rs = List.length kqs ->
  let d := foldl (fun d kv => <[kv.1 := kv.2]> d) ∅ (zip kqs.*1 (Some <$> rs)) in
  Forall2 (filed d) (zip_with Query kqs.*2 rs) kqs /\
  (forall k, is_Some (d !! k) -> k ∈ kqs.*1).
Proof.
  intros Hnd Hl d.
  assert (Hfst : (zip kqs.*1 (Some <$> rs)).*1 = kqs.*1).
  { apply fst_zip. rewrite !length_fmap. lia. }
  split.
  - apply Forall2_same_length_lookup_2.
    + rewrite length_zip_with, length_fmap. lia.
    + intros i e [k q] He Hkq.
      apply lookup_zip_with_Some in He as (q' & r & -> & Hq & Hr).
      rewrite list_lookup_fmap, Hkq in Hq. injection Hq as <-.
      exists r. split; [done|]. cbn [fst].
      apply foldl_insert_lookup; [by rewrite Hfst|].
      apply (list_elem_of_lookup_2 _ i).
      apply lookup_zip_with_Some. exists k, (Some r). split; [done|].
      split; [by rewrite list_lookup_fmap, Hkq|by rewrite list_lookup_fmap, Hr].
  - intros k Hk. destruct (decide (k ∈ kqs.*1)) as [|Hn]; [done|].
    unfold d in Hk. rewrite (proj2 (foldl_insert_lookup _ ∅ k ltac:(by rewrite Hfst)))
      in Hk by (by rewrite Hfst).
    rewrite lookup_empty in Hk. by destruct Hk.
Qed.

(** A display of gets: the queries go out in the order of the items, and
    the dictionary holds each reply under the key of its item. *)
Lemma dict_display_run (items : list (string * M (option string)))
    (kqs : list (string * string)) (w : world) :
  Forall2 (fun it kq => it.1 = kq.1 /\ asks it.2 kq.2) items kqs ->
  NoDup kqs.*1 ->
  exists sweep d,
    dict_display items w = (Return d, World (device w) (log w ++ sweep) (heap w)) /\
    Forall2 (filed d) sweep kqs /\
    (forall k, is_Some (d !! k) -> k ∈ kqs.*1).
Proof.
  intros Hit Hnd. destruct (dict_items_run items kqs w Hit) as (rs & Hl & E).
  destruct (display_filed kqs rs Hnd Hl) as [H1 H2].
  eexists _, _. split; [|split; [exact H1|exact H2]].
  unfold dict_display. by rewrite (bind_run _ _ _ _ _ E).
Qed.

End Displays.

(** ** The constructors *)
Section Constructors.
Context {F : FloatOps}.
Import Py.
Variables (w0 : world) (r0 x model : string) (rest : list string).
Hypothesis identifies : forall l, device w0 l "*IDN?" = r0.
Hypothesis has_model : PyStr.split "," r0 = x :: model :: rest.

Lemma validator_run (w : world) :
  later w0 w ->
  ValidateInput.__init__ w =
  (Return (Validate.find_element model ["SDL1030X-E"; "SDL1030X"]), World (device w) (log w ++ [Query "*IDN?" r0]) (heap w)).
Proof.
  intros Hd. unfold ValidateInput.__init__, bind, Bus.query. cbn [text].
  by rewrite Hd, identifies, has_model.
Qed.

Lemma input_parameters_cases (P : string -> string -> Prop) :
  P "input_on" ":INP?" -> P "short_on" ":SHOR?" ->
  forall k q, (k, q) ∈ input_parameters -> P k q.
Proof.
  intros H1 H2 k q Hin. unfold input_parameters in Hin.
  repeat (apply elem_of_cons in Hin as [[= -> ->] | Hin]); try done.
  by apply elem_of_nil in Hin.
Qed.

Lemma input_init_run (w : world) :
  later w0 w ->
  exists evs h,
    Input.__init__ w = (Return (Validate.find_element model ["SDL1030X-E"; "SDL1030X"]), World (device w) (log w ++ evs) h) /\
    refreshed w evs h.
Proof.
  intros Hd. unfold Input.__init__.
  rewrite (bind_run _ _ _ _ _ (validator_run w Hd)).
  unfold Input.input_control, Input._short.
  rewrite bind_get, bind_dict_set, bind_get, bind_dict_set. cbn [device log heap].
  unfold ret. rewrite <- !app_assoc. cbn [app].
  eexists _, _. split; [reflexivity|]. split.
  - intros m. by rewrite !heap_update_other.
  - apply input_parameters_cases.
    + eexists. split; [apply list_elem_of_further, list_elem_of_here|].
      rewrite !heap_update_same. by simplify_map_eq.
    + eexists. split; [do 2 apply list_elem_of_further; apply list_elem_of_here|].
      rewrite !heap_update_same. by simplify_map_eq.
Qed.

Lemma static_init_run (w : world) :
  later w0 w ->
  exists evs h,
    ModeStatic.__init__ w = (Return (Validate.find_element model ["SDL1030X-E"; "SDL1030X"]), World (device w) (log w ++ evs) h) /\
    refreshed w evs h.
Proof.
  intros Hd. destruct (input_init_run w Hd) as (evs & h & E & Hm & Hin).
  unfold ModeStatic.__init__. rewrite (bind_run _ _ _ _ _ E).
  rewrite (bind_run _ _ _ _ _ (static_mode_set "CURR" "CURR" _ eq_refl)).
  cbn [device log heap]. unfold ret. rewrite <- !app_assoc.
  eexists _, _. split; [reflexivity|]. split.
  - intros m. by rewrite !heap_update_other.
  - intros k q Hkq. destruct (Hin k q Hkq) as (r & Hr & Hk).
    exists r. split; [apply elem_of_app; by left|].
    rewrite !heap_update_same.
    revert k q Hkq r Hr Hk. apply (input_parameters_cases (fun k q => forall r, _ -> _ -> _)).
    all: intros r _ Hk; by rewrite !lookup_insert_ne.
Qed.

Lemma dynamic_init_run (w : world) :
  later w0 w ->
  exists evs h,
    ModeDynamic.__init__ w = (Return (Validate.find_element model ["SDL1030X-E"; "SDL1030X"]), World (device w) (log w ++ evs) h) /\
    refreshed w evs h.
Proof.
  intros Hd. destruct (input_init_run w Hd) as (evs & h & E & Hm & Hin).
  unfold ModeDynamic.__init__. rewrite (bind_run _ _ _ _ _ E).
  unfold ModeDynamic._mode. rewrite bind_assoc_run, bind_get.
  cbn [device log heap]. cbv beta iota.
  rewrite bind_assoc_run, bind_ret_run, bind_ret_run, bind_dict_set.
  cbn [device log heap]. unfold ret. rewrite <- !app_assoc.
  eexists _, _. split; [reflexivity|]. split.
  - intros m. by rewrite !heap_update_other.
  - intros k q Hkq. destruct (Hin k q Hkq) as (r & Hr & Hk).
    exists r. split; [apply elem_of_app; by left|].
    rewrite !heap_update_same.
    revert k q Hkq r Hr Hk. apply (input_parameters_cases (fun k q => forall r, _ -> _ -> _)).
    all: intros r _ Hk; by rewrite !lookup_insert_ne.
Qed.


Lemma parameters_nodup (m : mode) : NoDup (parameters m).*1.
Proof. destruct m; apply (bool_decide_unpack _); by vm_compute. Qed.

(** The items of a display are gets, each of the query in the table. *)
Ltac solve_asks :=
  unfold parameters;
  repeat (apply List.Forall2_cons; [split; [reflexivity | intros ?; reflexivity]|]);
  apply List.Forall2_nil.

(** One step through a constructor that ends with its display. *)
Ltac display_steps m Hd :=
  cbv beta; rewrite bind_dict_assign; cbv beta; cbn [device log heap];
  lazymatch goal with
  | |- _ (bind (dict_display ?items) _ ?W) =>
    let sweep := fresh "sweep" in
    let d := fresh "d" in
    let E := fresh "E" in
    let Hf := fresh "Hf" in
    let Hdom := fresh "Hdom" in
    destruct (dict_display_run items (parameters m) W ltac:(solve_asks)
                (parameters_nodup m)) as (sweep & d & E & Hf & Hdom);
    rewrite (bind_run _ _ _ _ _ E); clear E;
    rewrite bind_dict_assign; cbv beta; cbn [device log heap]
  end.

Lemma built_intro (m : mode) (w : world) (pre sweep : list event) l h hp
    (d : gmap string (option string)) :
  l = (log w ++ pre ++ sweep)%list ->
  h (mode_values m) = d ->
  Forall2 (filed d) sweep (parameters m) ->
  (forall k, is_Some (d !! k) -> k ∈ (parameters m).*1) ->
  (forall m', m' <> m -> h (mode_values m') = heap w (mode_values m')) ->
  (forall k q, (k, q) ∈ input_parameters ->
     exists r, Query q r ∈ pre /\ h global_input_values !! k = Some (Some r)) ->
  built m w (Return hp, World (device w) l h).
Proof.
  intros -> <- Hf Hdom Hfr Hin. by exists pre, sweep, h, hp.
Qed.

(** A test mode: [Input.__init__], a validator of its own, the display. *)
Ltac build_test_mode m init w Hd Hd1 :=
  let evs := fresh "evs" in
  let h := fresh "h" in
  let E := fresh "E" in
  let Hm := fresh "Hm" in
  let Hin := fresh "Hin" in
  destruct (input_init_run w Hd) as (evs & h & E & Hm & Hin);
  unfold init; rewrite (bind_run _ _ _ _ _ E); clear E;
  rewrite (bind_run _ _ _ _ _ (validator_run _ (Hd1 _ _))); cbn [device log heap];
  display_steps m Hd;
  lazymatch goal with
  | Hf : Forall2 (filed ?d) ?sweep _ |- _ =>
    apply (built_intro m w (evs ++ [Query "*IDN?" r0]) sweep _ _ _ d);
    [ by rewrite <- !app_assoc
    | by rewrite heap_update_same
    | done
    | done
    | intros m' Hne; rewrite !heap_update_other by congruence; apply Hm
    | intros k q Hkq; destruct (Hin k q Hkq) as (r & Hr & Hk); exists r;
      split; [apply elem_of_app; by left | by rewrite !heap_update_other] ]
  end.

(** A dynamic mode: [ModeDynamic.__init__], the display. *)
Ltac build_dynamic_mode m init w Hd :=
  let evs := fresh "evs" in
  let h := fresh "h" in
  let E := fresh "E" in
  let Hm := fresh "Hm" in
  let Hin := fresh "Hin" in
  destruct (dynamic_init_run w Hd) as (evs & h & E & Hm & Hin);
  unfold init; rewrite (bind_run _ _ _ _ _ E); clear E;
  display_steps m Hd;
  lazymatch goal with
  | Hf : Forall2 (filed ?d) ?sweep _ |- _ =>
    apply (built_intro m w evs sweep _ _ _ d);
    [ by rewrite <- !app_assoc
    | by rewrite heap_update_same
    | done
    | done
    | intros m' Hne; rewrite !heap_update_other by congruence; apply Hm
    | intros k q Hkq; destruct (Hin k q Hkq) as (r & Hr & Hk); exists r;
      split; [done | by rewrite !heap_update_other] ]
  end.

Lemma plain_built (m : mode) (w : world) :
  later w0 w -> plain_mode m = true -> built m w (constructor m w).
Proof.
  intros Hd Hp.
  assert (Hd1 : forall l h, later w0 (World (device w) l h)) by (intros; exact Hd).
  destruct m; try discriminate Hp; clear Hp; unfold constructor.
  - build_test_mode LED (@ModeLED.__init__) w Hd Hd1.
  - apply (dynamic_cc_init_run w r0 x model rest (built DynCC w));
      [by rewrite Hd, identifies | exact has_model |].
    intros r1 r2 r3 r4 r5 r6 r7 r8 r9 r10 r11 r12.
    eapply (built_intro DynCC w
              [Query "*IDN?" r0; Query ":INP?" r1; Query ":SHOR?" r2;
               Query ":FUNC:TRAN?" r3] _).
    + reflexivity.
    + by rewrite heap_update_same.
    + unfold parameters.
      repeat (apply List.Forall2_cons;
              [eexists; split; [reflexivity | by simplify_map_eq]|]).
      apply List.Forall2_nil.
    + intros k [v Hv]. apply elem_of_list_to_map_2 in Hv.
      by apply (list_elem_of_fmap_2 fst) in Hv.
    + intros m' Hne. by rewrite !heap_update_other by congruence.
    + apply input_parameters_cases.
      * eexists. split; [apply list_elem_of_further, list_elem_of_here|].
        rewrite !heap_update_other by done. rewrite !heap_update_same.
        by simplify_map_eq.
      * eexists. split; [do 2 apply list_elem_of_further; apply list_elem_of_here|].
        rewrite !heap_update_other by done. rewrite !heap_update_same.
        by simplify_map_eq.
  - build_dynamic_mode DynCV (@ModeDynamicCV.__init__) w Hd.
  - build_dynamic_mode DynCP (@ModeDynamicCP.__init__) w Hd.
  - build_dynamic_mode DynCR (@ModeDynamicCR.__init__) w Hd.
  - build_test_mode List_ (@ModeList.__init__) w Hd Hd1.
  - build_test_mode Battery (@ModeBattery.__init__) w Hd Hd1.
  - build_test_mode OCP (@ModeOCP.__init__) w Hd Hd1.
  - build_test_mode OPP (@ModeOPP.__init__) w Hd Hd1.
  - build_test_mode Program (@ModeProgram.__init__) w Hd Hd1.
Qed.


Lemma constructed_intro (m : mode) (w : world) (pre sweep post : list event) l h hp
    (d : gmap string (option string)) :
  l = (log w ++ pre ++ sweep ++ post)%list ->
  h (mode_values m) = d ->
  Forall2 (filed d) sweep (parameters m) ->
  (forall k, is_Some (d !! k) -> k ∈ (parameters m).*1) ->
  (forall k q, (k, q) ∈ input_parameters ->
     exists r, Query q r ∈ (pre ++ sweep ++ post)%list /\
       h global_input_values !! k = Some (Some r)) ->
  constructed m w (Return hp, World (device w) l h).
Proof.
  intros -> <- Hf Hdom Hin. by exists pre, sweep, post, h, hp.
Qed.

(** A static mode with a dynamic twin: [ModeStatic.__init__], the display,
    and the constructor of the twin. *)
Ltac build_static_mode m twin init w Hd Hd1 :=
  let evs := fresh "evs" in
  let h := fresh "h" in
  let E := fresh "E" in
  let Hm := fresh "Hm" in
  let Hin := fresh "Hin" in
  destruct (static_init_run w Hd) as (evs & h & E & Hm & Hin);
  unfold init; rewrite (bind_run _ _ _ _ _ E); clear E;
  display_steps m Hd;
  lazymatch goal with
  | Hf : Forall2 (filed ?d) ?sweep _ |- _ (bind _ _ ?W) =>
    let pre' := fresh "pre'" in
    let sweep' := fresh "sweep'" in
    let h' := fresh "h'" in
    let hp' := fresh "hp'" in
    let E' := fresh "E'" in
    let Hfr := fresh "Hfr" in
    let Hin' := fresh "Hin'" in
    destruct (plain_built twin W (Hd1 _ _) eq_refl)
      as (pre' & sweep' & h' & hp' & E' & _ & _ & Hfr & Hin');
    unfold constructor in E'; rewrite (bind_run _ _ _ _ _ E'); clear E';
    cbn [device log heap];
    apply (constructed_intro m w evs sweep (pre' ++ sweep') _ _ _ d);
    [ by rewrite <- !app_assoc
    | rewrite Hfr by discriminate; cbn [heap]; by rewrite heap_update_same
    | done
    | done
    | intros k q Hkq; destruct (Hin' k q Hkq) as (r & Hr & Hk); exists r;
      split; [rewrite !elem_of_app; auto | done] ]
  end.

(** Every constructor, run on an instrument that identifies itself with a
    model, returns and is [constructed]. *)
Lemma all_constructed (m : mode) (w : world) :
  later w0 w -> constructed m w (constructor m w).
Proof.
  intros Hd.
  assert (Hd1 : forall l h, later w0 (World (device w) l h)) by (intros; exact Hd).
  destruct (plain_mode m) eqn:Hp.
  { destruct (plain_built m w Hd Hp) as (pre & sweep & h & hp & -> & Hf & Hdom & _ & Hin).
    apply (constructed_intro m w pre sweep [] _ _ _ (h (mode_values m)));
      [by rewrite app_nil_r|done|done|done|].
    intros k q Hkq. destruct (Hin k q Hkq) as (r & Hr & Hk). exists r.
    split; [rewrite !elem_of_app; auto | done]. }
  destruct m; try discriminate Hp; clear Hp; unfold constructor.
  - apply (cc_init_run w r0 x model rest (constructed CC w));
      [intros l; by rewrite Hd, identifies | exact has_model |].
    intros r1 r2 r3 r4 r5 r6 r7 r8 r9 r10 r11 r12 r13 r14 r15 r16 r17 r18 r19 r20 r21.
    eapply (constructed_intro CC w
              [Query "*IDN?" r0; Query ":INP?" r1; Query ":SHOR?" r2;
               Write (set_line ":FUNC" (PyStr "CURR"));
               Query ":FUNC?" r3; Query ":FUNC?" r4]
              [Query ":CURR?" r5; Query ":CURR:IRANG?" r6; Query ":CURR:VRANG?" r7;
               Query ":CURR:SLEW:POS?" r8; Query ":CURR:SLEW:POS?" r9] _).
    + reflexivity.
    + rewrite !heap_update_other by done. by rewrite heap_update_same.
    + unfold parameters.
      repeat (apply List.Forall2_cons;
              [eexists; split; [reflexivity | by simplify_map_eq]|]).
      apply List.Forall2_nil.
    + intros k [v Hv]. apply elem_of_list_to_map_2 in Hv.
      by apply (list_elem_of_fmap_2 fst) in Hv.
    + apply input_parameters_cases.
      * exists r10. split.
        { repeat first [ apply list_elem_of_here | apply list_elem_of_further ]. }
        rewrite !heap_update_other by done. rewrite !heap_update_same.
        by simplify_map_eq.
      * exists r11. split.
        { repeat first [ apply list_elem_of_here | apply list_elem_of_further ]. }
        rewrite !heap_update_other by done. rewrite !heap_update_same.
        by simplify_map_eq.
  - build_static_mode CV DynCV (@ModeCVInit.__init__) w Hd Hd1.
  - build_static_mode CP DynCP (@ModeCPInit.__init__) w Hd Hd1.
  - build_static_mode CR DynCR (@ModeCRInit.__init__) w Hd Hd1.
Qed.

End Constructors.

Section Unidentified.
Context {F : FloatOps}.
Import Py.

Lemma bind_raise {A B} (c : M A) (k : A -> M B) (w w1 : world) (e : exn) :
  c w = (Raise e, w1) -> bind c k w = (Raise e, w1).
Proof. intros E. unfold bind. by rewrite E. Qed.

(** Without a comma in the reply to [*IDN?] no mode is built: the
    constructor raises right after the query and stores nothing. *)
Lemma constructor_unidentified (m : mode) (w : world) :
  PyStr.has_char "," (device w (log w) "*IDN?") = false ->
  constructor m w =
  (Raise IndexError,
   World (device w) (log w ++ [Query "*IDN?" (device w (log w) "*IDN?")]) (heap w)).
Proof.
  intros Hc.
  assert (Hi : Input.__init__ w =
    (Raise IndexError,
     World (device w) (log w ++ [Query "*IDN?" (device w (log w) "*IDN?")]) (heap w))).
  { unfold Input.__init__. apply bind_raise.
    unfold ValidateInput.__init__, bind, Bus.query. cbn [text].
    by rewrite (split_without _ _ Hc). }
  destruct m; unfold constructor, ModeCCInit.__init__, ModeCVInit.__init__,
    ModeCPInit.__init__, ModeCRInit.__init__, ModeLED.__init__,
    ModeDynamicCC.__init__, ModeDynamicCV.__init__, ModeDynamicCP.__init__,
    ModeDynamicCR.__init__, ModeList.__init__, ModeBattery.__init__,
    ModeOCP.__init__, ModeOPP.__init__, ModeProgram.__init__,
    ModeStatic.__init__, ModeDynamic.__init__.
  all: repeat first [ exact Hi | apply bind_raise ].
Qed.

End Unidentified.

Section MirrorInvariant.
Context {F : FloatOps}.
Import Py.

(** [enable()] leaves the mode dictionaries alone, but for the battery
    mode's own, and of the shared dictionary it changes [mode] only. *)
Lemma enable_frame (m : mode) (w : world) :
  (forall m', (m, m') <> (Battery, Battery) ->
     heap (enable m w).2 (mode_values m') = heap w (mode_values m')) /\
  (forall k, k <> "mode" ->
     heap (enable m w).2 global_input_values !! k = heap w global_input_values !! k).
Proof.
  assert (Hst : forall token,
    ValidateInput.mode_static (PyStr token) w = (Return (Canon token), w) ->
    (forall m', heap ((do! ModeStatic._mode (PyStr token) in ret tt) w).2 (mode_values m')
                = heap w (mode_values m')) /\
    (forall k, k <> "mode" ->
       heap ((do! ModeStatic._mode (PyStr token) in ret tt) w).2 global_input_values !! k
       = heap w global_input_values !! k)).
  { intros token E. rewrite (bind_run _ _ _ _ _ (static_mode_set _ _ w E)).
    cbn [ret snd heap]. split.
    - intros m'. by rewrite !heap_update_other.
    - intros k Hk. rewrite !heap_update_same. by rewrite !lookup_insert_ne. }
  assert (Hdy : forall token,
    ValidateInput.mode_dynamic (PyStr token) w = (Return (Canon token), w) ->
    (forall m', heap ((do! ModeDynamic._mode (PyStr token) in ret tt) w).2 (mode_values m')
                = heap w (mode_values m')) /\
    (forall k, k <> "mode" ->
       heap ((do! ModeDynamic._mode (PyStr token) in ret tt) w).2 global_input_values !! k
       = heap w global_input_values !! k)).
  { intros token E. rewrite (bind_run _ _ _ _ _ (dynamic_mode_set _ _ w E)).
    cbn [ret snd heap]. split.
    - intros m'. by rewrite !heap_update_other.
    - intros k Hk. rewrite !heap_update_same. by rewrite !lookup_insert_ne. }
  assert (Hfin : forall (c : M unit),
    (forall m', heap (c w).2 (mode_values m') = heap w (mode_values m')) /\
    (forall k, k <> "mode" ->
       heap (c w).2 global_input_values !! k = heap w global_input_values !! k) ->
    (forall m', (m, m') <> (Battery, Battery) ->
       heap (c w).2 (mode_values m') = heap w (mode_values m')) /\
    (forall k, k <> "mode" ->
       heap (c w).2 global_input_values !! k = heap w global_input_values !! k)).
  { intros c [A B]. split; [intros m' _; apply A | exact B]. }
  destruct m;
    [ exact (Hfin _ (Hst "CURR" eq_refl)) | exact (Hfin _ (Hst "VOLT" eq_refl))
    | exact (Hfin _ (Hst "POW" eq_refl)) | exact (Hfin _ (Hst "RES" eq_refl))
    | exact (Hfin _ (Hst "LED" eq_refl))
    | exact (Hfin _ (Hdy "CURR" eq_refl)) | exact (Hfin _ (Hdy "VOLT" eq_refl))
    | exact (Hfin _ (Hdy "POW" eq_refl)) | exact (Hfin _ (Hdy "RES" eq_refl))
    | .. ]; clear Hst Hdy Hfin.
  all: split;
    [ intros m' Hne; cbn; rewrite ?heap_update_other by congruence; reflexivity
    | intros k Hk; cbn; rewrite ?heap_update_other by done;
      rewrite ?heap_update_same; by rewrite ?lookup_insert_ne ].
Qed.


End MirrorInvariant.

Section MirrorInvariantWitness.
#[local] Existing Instance Decimal.ops.
Import Py.


End MirrorInvariantWitness.
